(** * Full-Nutrition-Rag-System: chunking, vector stores, retrieval

    A shallow embedding of the chunking, indexing and retrieval pipeline
    ([ProcessController], [NLPController], the two vector-store providers,
    the OpenAI provider and the [answer_rag] route), followed by the
    properties of the written specification that were checked against it. *)

From Stdlib Require Import ZArith QArith Ascii String DecimalString DecimalZ.
From stdpp Require Import gmap strings list fin_maps sorting.

Local Open Scope Z_scope.

(* ===================================================================== *)
(** ** Python values shared by all modules *)
(* ===================================================================== *)

Module Py.

(** A Python [str] is a sequence of Unicode code points. *)
Abbreviation str := (list N).

(** An ASCII literal as a Python string. *)
Definition py (s : string) : str :=
  map N_of_ascii (list_ascii_of_string s).

(** [str.isspace] on one code point: the characters that [str.strip()]
    removes when it is called without an argument. *)
Definition isspace (c : N) : bool :=
  ((9 <=? c)%N && (c <=? 13)%N)
  || ((28 <=? c)%N && (c <=? 32)%N)
  || (c =? 133)%N || (c =? 160)%N || (c =? 5760)%N
  || ((8192 <=? c)%N && (c <=? 8202)%N)
  || (c =? 8232)%N || (c =? 8233)%N || (c =? 8239)%N
  || (c =? 8287)%N || (c =? 12288)%N.

Fixpoint lstrip (s : str) : str :=
  match s with
  | [] => []
  | c :: s' => if isspace c then lstrip s' else s
  end.

Definition rstrip (s : str) : str := rev (lstrip (rev s)).

(** [s.strip()] *)
Definition strip (s : str) : str := rstrip (lstrip s).

(** [sep.join(l)] *)
Fixpoint join (sep : str) (l : list str) : str :=
  match l with
  | [] => []
  | [x] => x
  | x :: l' => x ++ sep ++ join sep l'
  end.

(** Does [p] occur at the front of [s]? *)
Fixpoint startswith (s p : str) : bool :=
  match p, s with
  | [], _ => true
  | _ :: _, [] => false
  | a :: p', b :: s' => (a =? b)%N && startswith s' p'
  end.

(** Exceptions that the modelled code can raise. *)
Inductive exn : Type :=
| ValueError (msg : string)
| TypeError (msg : string)
| IndexError (msg : string)
| DatabaseError (msg : string).

Inductive result (A : Type) : Type :=
| Ok (a : A)
| Raise (e : exn).
Arguments Ok {A} a.
Arguments Raise {A} e.

(** The scan of [s.split(sep)] for a non-empty [sep]: [cur] is the
    segment being read (reversed), [skip] counts the characters of an
    occurrence of [sep] that are still to be passed over. Occurrences
    are found left to right and do not overlap. *)
Fixpoint split_scan (sep s : str) (skip : nat) (cur : str) : list str :=
  match s with
  | [] => [rev cur]
  | c :: s' =>
      match skip with
      | S k => split_scan sep s' k cur
      | O =>
          if startswith s sep
          then rev cur :: split_scan sep s' (length sep - 1) []
          else split_scan sep s' O (c :: cur)
      end
  end.

(** [s.split(sep)]; an empty separator is a [ValueError]. *)
Definition split (s sep : str) : result (list str) :=
  match sep with
  | [] => Raise (ValueError "empty separator")
  | _ :: _ => Ok (split_scan sep s O [])
  end.

(** [str(n)] for an [int]. *)
Definition str_of_int (z : Z) : str :=
  py (NilEmpty.string_of_int (Z.to_int z)).

(** A state-and-exception monad: a call either returns a value or
    raises, and in both cases leaves a state behind. *)
Definition M (S A : Type) : Type := S -> result A * S.

Definition ret {S A} (a : A) : M S A := fun s => (Ok a, s).
Definition raise {S A} (e : exn) : M S A := fun s => (Raise e, s).
Definition bind {S A B} (m : M S A) (k : A -> M S B) : M S B :=
  fun s =>
    match m s with
    | (Ok a, s') => k a s'
    | (Raise e, s') => (Raise e, s')
    end.

(** An [async def] called without [await] only builds a coroutine
    object; its body does not run. *)
Inductive coroutine (S A : Type) : Type :=
| Coroutine (body : M S A).
Arguments Coroutine {S A} body.

(** [await c] runs the body. *)
Definition await {S A} (c : coroutine S A) : M S A :=
  match c with Coroutine body => body end.

(** A coroutine object defines neither [__bool__] nor [__len__]: it is
    true in a condition. *)
Definition coroutine_truthy {S A} (c : coroutine S A) : bool := true.

End Py.

Import Py.

Notation "x <- m ;; k" := (bind m (fun x => k))
  (at level 100, m at next level, right associativity).
Notation "m ;;; k" := (bind m (fun _ => k))
  (at level 100, right associativity).

(* ===================================================================== *)
(** ** controllers/ProcessController.py *)
(* ===================================================================== *)

Module ProcessController.

(** [Document(page_content, metadata)]; the metadata dictionary is kept
    as its list of items. *)
Record Document : Type := mkDocument {
  page_content : str;
  metadata : list (str * str)
}.

(** The comprehension
    [[doc.strip() for doc in full_text.split(tag) if len(doc.strip()) > 1]]. *)
Definition surviving_lines (segments : list str) : list str :=
  map strip (filter (fun doc => 1 <? Z.of_nat (length (strip doc))) segments).

(** One turn of the [for line in lines] loop on the pair
    [(chunks, current_chunk)]. *)
Definition loop_body (chunk_size : Z) (splitter_tag : str)
    (st : list Document * str) (line : str) : list Document * str :=
  let '(chunks, current_chunk) := st in
  let current_chunk := current_chunk ++ (line ++ splitter_tag) in
  if chunk_size <=? Z.of_nat (length current_chunk)
  then (chunks ++ [mkDocument (strip current_chunk) []], [])
  else (chunks, current_chunk).

Definition loop (chunk_size : Z) (splitter_tag : str) (lines : list str)
    : list Document * str :=
  fold_left (loop_body chunk_size splitter_tag) lines ([], []).

Definition process_simpler_splitter (texts : list str)
    (metadatas : list (list (str * str))) (chunk_size : Z)
    (splitter_tag : str) : result (list Document) :=
  let full_text := join (py " ") texts in
  match split full_text splitter_tag with
  | Raise e => Raise e
  | Ok segments =>
      let lines := surviving_lines segments in
      let '(chunks, current_chunk) := loop chunk_size splitter_tag lines in
      if 0 <=? Z.of_nat (length current_chunk)
      then Ok (chunks ++ [mkDocument (strip current_chunk) []])
      else Ok chunks
  end.

(** [process_file_content]: the texts and metadata of the loaded records
    go to the splitter with the newline tag; [overlap_size] is not used. *)
Definition process_file_content (file_content : list Document)
    (file_id : str) (chunk_size overlap_size : Z) : result (list Document) :=
  let file_content_texts := map page_content file_content in
  let file_content_metadata := map metadata file_content in
  process_simpler_splitter file_content_texts file_content_metadata
    chunk_size [10%N].

End ProcessController.

(* ===================================================================== *)
(** ** Values exchanged with the vector stores *)
(* ===================================================================== *)

Module VectorDB.

(** An embedding vector. Components are kept as rationals; rounding of
    machine floats is outside this model. *)
Abbreviation vector := (list Q).

(** [RetrievedDocument(text, score)] of [models/db_schemas]. *)
Record RetrievedDocument : Type := mkRetrievedDocument {
  text : str;
  score : Q
}.

(** What [search_by_vector] hands back: [False], [None] or a list. *)
Inductive search_result : Type :=
| SFalse
| SNone
| SDocs (docs : list RetrievedDocument).

(** Truth value of a search result in a condition ([if not results]). *)
Definition truthy (r : search_result) : bool :=
  match r with
  | SFalse | SNone => false
  | SDocs docs => negb (Nat.eqb (length docs) 0)
  end.

(** An element of a [metadata] list: [None], or a dictionary given by
    its JSON text. *)
Abbreviation metadata_item := (option str).

(** [json.dumps(d, ensure_ascii=False)] of a dictionary that is kept as
    its JSON text. *)
Definition json_dumps (d : str) : str := d.

(** [range(0, stop, step)] for [stop >= 0]. *)
Definition range0 (stop step : Z) : result (list Z) :=
  if step =? 0 then Raise (ValueError "range() arg 3 must not be zero")
  else if step <? 0 then Ok []
  else Ok (map (fun k => Z.of_nat k * step)
               (seq 0 (Z.to_nat ((stop + step - 1) / step)))).

(** [l[i:j]] for [0 <= i <= j]. *)
Definition slice {A} (l : list A) (i j : Z) : list A :=
  take (Z.to_nat (j - i)) (drop (Z.to_nat i) l).

(** [for x in l: body(x)] *)
Fixpoint for_each {S A} (l : list A) (body : A -> M S unit) : M S unit :=
  match l with
  | [] => ret tt
  | x :: l' => body x ;;; for_each l' body
  end.

(** The operations of [VectorDBInterface] that [NLPController] and the
    routes call, for a provider of type [P] over a store of type [St]. *)
Class VectorDBInterface (P St : Type) : Type := {
  default_vector_size : P -> Z;
  create_collection : P -> str -> Z -> bool -> M St bool;
  insert_many : P -> str -> list str -> list vector ->
                option (list metadata_item) -> option (list Z) -> Z ->
                M St bool;
  search_by_vector : P -> str -> vector -> Z -> M St search_result
}.

End VectorDB.

Import VectorDB.

(* ===================================================================== *)
(** ** stores/vectordb/providers/PGVectorProvider.py *)
(* ===================================================================== *)

Module PGVectorProvider.

(** *** The PostgreSQL side: tables of the pgvector scheme *)

(** A row of a collection table:
    [id bigserial, text, vector(n), metadata jsonb, chunk_id integer]. *)
Record row : Type := mkRow {
  row_id : Z;
  row_text : str;
  row_vector : vector;
  row_metadata : str;
  row_chunk_id : Z
}.

(** A secondary index as [pg_indexes] shows it, with its access method
    and operator class. *)
Record vector_index : Type := mkIndex {
  index_name : str;
  index_type : str;
  index_opclass : str
}.

Record table : Type := mkTable {
  embedding_size : Z;
  rows : list row;
  next_id : Z;
  indexes : list vector_index
}.

(** The database: the collection tables by name, and the ids present in
    the [chunks] table that [chunk_id] refers to. *)
Record database : Type := mkDatabase {
  tables : gmap str table;
  chunks : gset Z
}.

(** The bound parameters of one [INSERT]. *)
Record insert_values : Type := mkValues {
  v_text : str;
  v_vector : vector;
  v_metadata : str;
  v_chunk_id : Z
}.

(** [async with session.begin()]: a block that raises is rolled back. *)
Definition transaction {A} (m : M database A) : M database A :=
  fun db =>
    match m db with
    | (Ok a, db') => (Ok a, db')
    | (Raise e, _) => (Raise e, db)
    end.

(** [SELECT * FROM pg_tables WHERE tablename = :name] read with
    [scalar_one_or_none()]: the schema name of the table, or [None]. *)
Definition sql_select_pg_tables (name : str) : M database (option str) :=
  fun db =>
    match tables db !! name with
    | Some _ => (Ok (Some (py "public")), db)
    | None => (Ok None, db)
    end.

(** [DROP TABLE IF EXISTS "name"] *)
Definition sql_drop_table_if_exists (name : str) : M database unit :=
  fun db => (Ok tt, mkDatabase (delete name (tables db)) (chunks db)).

(** [CREATE TABLE "name" (... vector(n) ...)]: pgvector accepts
    dimensions from 1 to 16000. *)
Definition sql_create_table (name : str) (n : Z) : M database unit :=
  fun db =>
    match tables db !! name with
    | Some _ => (Raise (DatabaseError "relation already exists"), db)
    | None =>
        if (1 <=? n) && (n <=? 16000)
        then (Ok tt, mkDatabase (<[name := mkTable n [] 1 []]> (tables db))
                                (chunks db))
        else (Raise (DatabaseError "invalid vector dimensions"), db)
    end.

(** [SELECT COUNT( * ) FROM "name"] *)
Definition sql_count (name : str) : M database Z :=
  fun db =>
    match tables db !! name with
    | Some t => (Ok (Z.of_nat (length (rows t))), db)
    | None => (Raise (DatabaseError "relation does not exist"), db)
    end.

(** One [INSERT INTO "name" (text, vector, metadata, chunk_id) VALUES ...]:
    the vector must have the dimension of the column and the chunk id
    must exist in [chunks]. *)
Definition insert_row (name : str) (v : insert_values) : M database unit :=
  fun db =>
    match tables db !! name with
    | None => (Raise (DatabaseError "relation does not exist"), db)
    | Some t =>
        if negb (Z.of_nat (length (v_vector v)) =? embedding_size t)
        then (Raise (DatabaseError "different vector dimensions"), db)
        else if negb (bool_decide (v_chunk_id v ∈ chunks db))
        then (Raise (DatabaseError "foreign key violation"), db)
        else
          let r := mkRow (next_id t) (v_text v) (v_vector v)
                         (v_metadata v) (v_chunk_id v) in
          (Ok tt,
           mkDatabase
             (<[name := mkTable (embedding_size t) (rows t ++ [r])
                                (next_id t + 1) (indexes t)]> (tables db))
             (chunks db))
    end.

(** [session.execute(insert_sql, values)] with a list of parameter
    sets: one insert per set; an empty list leaves the bind parameters
    without a value. *)
Definition sql_insert_many (name : str) (values : list insert_values)
    : M database unit :=
  match values with
  | [] => raise (DatabaseError "a value is required for bind parameter")
  | _ :: _ => for_each values (insert_row name)
  end.

(** [SELECT 1 FROM pg_indexes WHERE tablename = .. AND indexname = ..]
    read with [scalar_one_or_none()]. *)
Definition sql_select_pg_indexes (name iname : str) : M database (option Z) :=
  fun db =>
    match tables db !! name with
    | Some t =>
        if existsb (fun i => bool_decide (index_name i = iname)) (indexes t)
        then (Ok (Some 1), db) else (Ok None, db)
    | None => (Ok None, db)
    end.

(** Operator classes that an index on a [vector] column can name. *)
Definition valid_opclass (itype opclass : str) : bool :=
  bool_decide (opclass = py "vector_l2_ops")
  || bool_decide (opclass = py "vector_ip_ops")
  || bool_decide (opclass = py "vector_cosine_ops")
  || (bool_decide (itype = py "hnsw")
      && bool_decide (opclass = py "vector_l1_ops")).

(** [CREATE INDEX "iname" ON "name" USING itype (vector opclass)]: the
    access method and the operator class are resolved first, then the
    name must be free, and the build refuses a column of more than 2000
    dimensions (both access methods of the extension do). *)
Definition sql_create_index (iname name itype opclass : str)
    : M database unit :=
  fun db =>
    match tables db !! name with
    | None => (Raise (DatabaseError "relation does not exist"), db)
    | Some t =>
        if negb (bool_decide (itype = py "hnsw")
                 || bool_decide (itype = py "ivfflat"))
        then (Raise (DatabaseError "access method does not exist"), db)
        else if negb (valid_opclass itype opclass)
        then (Raise (DatabaseError "operator class does not exist"), db)
        else if existsb (fun i => bool_decide (index_name i = iname))
                        (indexes t)
        then (Raise (DatabaseError "relation already exists"), db)
        else if 2000 <? embedding_size t
        then (Raise (DatabaseError
                       "column cannot have more than 2000 dimensions"), db)
        else
          (Ok tt,
           mkDatabase
             (<[name := mkTable (embedding_size t) (rows t) (next_id t)
                          (indexes t ++ [mkIndex iname itype opclass])]>
                (tables db))
             (chunks db))
    end.

(** Rows of a result set are compared by their score, larger first. *)
Definition score_desc (a b : str * Q) : Prop := (snd b <= snd a)%Q.

#[global] Instance score_desc_dec : RelDecision score_desc :=
  fun a b =>
    decide (Qnum (snd b) * QDen (snd a) <= Qnum (snd a) * QDen (snd b))%Z.

Section Operators.

(** pgvector's cosine-distance operator [<=>], provided by the
    extension. *)
Variable cosine_distance : vector -> vector -> Q.

(** [SELECT text as text, 1 - (vector <=> :vector) as score
     FROM "name" ORDER BY score DESC LIMIT limit] read with
    [fetchall()]. The order among rows of equal score is whatever the
    sort leaves. *)
Definition sql_search (name : str) (v : vector) (limit : Z)
    : M database (list (str * Q)) :=
  fun db =>
    match tables db !! name with
    | None => (Raise (DatabaseError "relation does not exist"), db)
    | Some t =>
        if limit <? 0
        then (Raise (DatabaseError "LIMIT must not be negative"), db)
        else if Nat.eqb (length v) 0
        then (Raise (DatabaseError "vector must have at least 1 dimension"), db)
        else if negb (forallb (fun r => Nat.eqb (length (row_vector r))
                                                (length v)) (rows t))
        then (Raise (DatabaseError "different vector dimensions"), db)
        else
          (Ok (take (Z.to_nat limit)
                 (merge_sort score_desc
                    (map (fun r => (row_text r,
                                    1 - cosine_distance (row_vector r) v)%Q)
                         (rows t)))),
           db)
    end.

(** *** The provider *)

Record provider : Type := mkProvider {
  default_vector_size : Z;
  index_threshold : Z;
  pgvector_table_prefix : str;
  distance_method : option str
}.

(** [__init__]: the configured distance method is mapped to the
    operator class that [PgVectorDistanceMethodEnums] gives for it;
    any other value is kept as it is. *)
Definition init (default_vector_size : Z) (distance_method : option str)
    (index_threshold : Z) : provider :=
  let distance_method :=
    if bool_decide (distance_method = Some (py "cosine"))
    then Some (py "vector_cosine_ops")
    else if bool_decide (distance_method = Some (py "dot"))
    then Some (py "vector_l2_ops")
    else distance_method in
  mkProvider default_vector_size index_threshold (py "pgvector")
             distance_method.

Definition default_index_name (collection_name : str) : str :=
  collection_name ++ py "_vector_idx".

(** How an f-string renders a value that is a string or [None]. *)
Definition format_value (o : option str) : str :=
  match o with
  | Some s => s
  | None => py "None"
  end.

(** Truth value of a string-or-[None] in a condition. *)
Definition record_truthy (o : option str) : bool :=
  match o with
  | Some (_ :: _) => true
  | _ => false
  end.

Definition is_collection_existed (p : provider) (collection_name : str)
    : M database (option str) :=
  transaction (sql_select_pg_tables collection_name).

(** [get_collection_info]: [None] for an absent table, otherwise the
    table name and its record count. *)
Definition get_collection_info (p : provider) (collection_name : str)
    : M database (option (str * Z)) :=
  transaction (
    table_data <- sql_select_pg_tables collection_name ;;
    match table_data with
    | None => ret None
    | Some _ =>
        record_count <- sql_count collection_name ;;
        ret (Some (collection_name, record_count))
    end).

Definition delete_collection (p : provider) (collection_name : str)
    : M database bool :=
  transaction (sql_drop_table_if_exists collection_name) ;;;
  ret true.

Definition create_collection (p : provider) (collection_name : str)
    (embedding_size : Z) (do_reset : bool) : M database bool :=
  (if do_reset
   then _ <- delete_collection p collection_name ;; ret tt
   else ret tt) ;;;
  is_collection_existed <- is_collection_existed p collection_name ;;
  if negb (record_truthy is_collection_existed)
  then
    transaction (sql_create_table collection_name embedding_size) ;;;
    ret true
  else ret false.

Definition is_index_existed (p : provider) (collection_name : str)
    : M database bool :=
  let index_name := default_index_name collection_name in
  transaction (
    results <- sql_select_pg_indexes collection_name index_name ;;
    ret (match results with Some n => negb (n =? 0) | None => false end)).

(** [create_vector_index]: [False] when the index exists or the table
    is below the threshold; otherwise the index is created and the
    method falls off its end ([None]). *)
Definition create_vector_index (p : provider) (collection_name : str)
    (index_type : str) : M database (option bool) :=
  is_index_existed <- is_index_existed p collection_name ;;
  if is_index_existed then ret (Some false)
  else
    transaction (
      records_count <- sql_count collection_name ;;
      if records_count <? index_threshold p then ret (Some false)
      else
        let index_name := default_index_name collection_name in
        sql_create_index index_name collection_name index_type
          (format_value (distance_method p)) ;;;
        ret None).

(** The parameter sets of one batch: the four slices zipped, with
    [None] metadata written as the empty JSON object. *)
Definition batch_values (batch_texts : list str)
    (batch_vectors : list vector) (batch_metadata : list metadata_item)
    (batch_record_ids : list Z) : list insert_values :=
  map (fun x : str * vector * metadata_item * Z =>
         let '(_text, _vector, _metadata, _record_id) := x in
         let metadata_json :=
           match _metadata with
           | Some d => json_dumps d
           | None => py "{}"
           end in
         mkValues _text _vector metadata_json _record_id)
      (zip (zip (zip batch_texts batch_vectors) batch_metadata)
           batch_record_ids).

(** The batch loop of [insert_many]:
    [for i in range(0, len(texts), batch_size)], one [execute] per
    batch. *)
Definition insert_batches (collection_name : str) (texts : list str)
    (vectors : list vector) (metadata : list metadata_item)
    (record_ids : list Z) (batch_size : Z) : M database unit :=
  match range0 (Z.of_nat (length texts)) batch_size with
  | Raise e => raise e
  | Ok starts =>
      for_each starts (fun i =>
        let batch_texts := slice texts i (i + batch_size) in
        let batch_vectors := slice vectors i (i + batch_size) in
        let batch_metadata := slice metadata i (i + batch_size) in
        let batch_record_ids := slice record_ids i (i + batch_size) in
        sql_insert_many collection_name
          (batch_values batch_texts batch_vectors batch_metadata
                        batch_record_ids))
  end.

Definition insert_many (p : provider) (collection_name : str)
    (texts : list str) (vectors : list vector)
    (metadata : option (list metadata_item))
    (record_ids : option (list Z)) (batch_size : Z) : M database bool :=
  is_collection_existed <- is_collection_existed p collection_name ;;
  if negb (record_truthy is_collection_existed) then ret false
  else
  match record_ids with
  | None => raise (TypeError "object of type 'NoneType' has no len()")
  | Some record_ids =>
  if negb (Nat.eqb (length vectors) (length record_ids)) then ret false
  else
    let metadata :=
      match metadata with
      | None | Some [] => replicate (length texts) None
      | Some m => m
      end in
    transaction (insert_batches collection_name texts vectors metadata
                   record_ids batch_size) ;;;
    _ <- create_vector_index p collection_name (py "hnsw") ;;
    ret true
  end.

Definition search_by_vector (p : provider) (collection_name : str)
    (vector : vector) (limit : Z) : M database search_result :=
  is_collection_existed <- is_collection_existed p collection_name ;;
  if negb (record_truthy is_collection_existed) then ret SFalse
  else
    transaction (
      records <- sql_search collection_name vector limit ;;
      ret (SDocs (map (fun record => mkRetrievedDocument record.1 record.2)
                      records))).

(** [DROP INDEX IF EXISTS "iname"]: index names are unique in the
    schema, so the index goes from whichever table carries it. *)
Definition sql_drop_index_if_exists (iname : str) : M database unit :=
  fun db =>
    (Ok tt,
     mkDatabase
       ((fun t => mkTable (embedding_size t) (rows t) (next_id t)
                    (filter (fun i => index_name i <> iname) (indexes t)))
          <$> tables db)
       (chunks db)).

(** [reset_vector_index]: the index is dropped, then built again by
    [create_vector_index], whose answer is returned. *)
Definition reset_vector_index (p : provider) (collection_name : str)
    (index_type : str) : M database (option bool) :=
  let index_name := default_index_name collection_name in
  transaction (sql_drop_index_if_exists index_name) ;;;
  create_vector_index p collection_name index_type.

(** Truth value of a record id ([None] or an integer) in a condition. *)
Definition record_id_truthy (record_id : option Z) : bool :=
  match record_id with
  | Some z => negb (z =? 0)
  | None => false
  end.

(** [insert_one]: the insert is committed before the index is looked
    after. *)
Definition insert_one (p : provider) (collection_name : str) (text : str)
    (vector : vector) (metadata : metadata_item) (record_id : option Z)
    : M database bool :=
  is_collection_existed <- is_collection_existed p collection_name ;;
  if negb (record_truthy is_collection_existed) then ret false
  else
    match record_id with
    | None => ret false
    | Some chunk_id =>
        if negb (record_id_truthy record_id) then ret false
        else
          let metadata_json :=
            match metadata with
            | Some d => json_dumps d
            | None => py "{}"
            end in
          transaction
            (insert_row collection_name
               (mkValues text vector metadata_json chunk_id)) ;;;
          _ <- create_vector_index p collection_name (py "hnsw") ;;
          ret true
    end.

End Operators.

End PGVectorProvider.

(* ===================================================================== *)
(** ** stores/vectordb/providers/QdrantDBProvider.py *)
(* ===================================================================== *)

Module QdrantDBProvider.

(** *** The client library: collections of points *)

(** [models.Distance] *)
Inductive Distance : Type := COSINE | DOT.

(** The value stored under the payload key [metadata]. *)
Inductive payload_metadata : Type :=
| MetaNone
| MetaDict (d : str)
| MetaInt (n : Z).

(** [models.Record(id, vector, payload={"text": .., "metadata": ..})] *)
Record Record_ : Type := mkRecord {
  id : Z;
  vector_ : vector;
  payload_text : str;
  payload_meta : payload_metadata
}.

Record collection : Type := mkCollection {
  size : Z;
  distance : Distance;
  points : gmap Z Record_
}.

(** The store behind a connected client: its collections by name. *)
Abbreviation store := (gmap str collection).

(** [client.collection_exists(name)] *)
Definition client_collection_exists (name : str) : M store bool :=
  fun st => (Ok (bool_decide (is_Some (st !! name))), st).

(** [client.delete_collection(name)] *)
Definition client_delete_collection (name : str) : M store bool :=
  fun st => (Ok true, delete name st).

(** [client.create_collection(name, VectorParams(size, distance))]:
    [VectorParams] requires a distance, and the name must be free. *)
Definition client_create_collection (name : str) (n : Z)
    (d : option Distance) : M store bool :=
  fun st =>
    match d with
    | None => (Raise (ValueError "distance: field required"), st)
    | Some d =>
        match st !! name with
        | Some _ => (Raise (ValueError "collection already exists"), st)
        | None => (Ok true, <[name := mkCollection n d ∅]> st)
        end
    end.

(** Writing one point: the point replaces any point of the same id. *)
Definition upsert_point (name : str) (r : Record_) : M store unit :=
  fun st =>
    match st !! name with
    | None => (Raise (ValueError "collection not found"), st)
    | Some c =>
        if negb (Z.of_nat (length (vector_ r)) =? size c)
        then (Raise (ValueError "wrong vector size"), st)
        else (Ok tt,
              <[name := mkCollection (size c) (distance c)
                          (<[id r := r]> (points c))]> st)
    end.

(** [client.upload_records(name, records)] *)
Definition client_upload_records (name : str) (records : list Record_)
    : M store unit :=
  fun st =>
    match st !! name with
    | None => (Raise (ValueError "collection not found"), st)
    | Some _ => for_each records (upsert_point name) st
    end.

(** Scored points are compared by their score, larger first. *)
Definition scored_desc (a b : Record_ * Q) : Prop := (snd b <= snd a)%Q.

#[global] Instance scored_desc_dec : RelDecision scored_desc :=
  fun a b =>
    decide (Qnum (snd b) * QDen (snd a) <= Qnum (snd a) * QDen (snd b))%Z.

Section Similarity.

(** The similarity that the engine computes for a distance setting. *)
Variable similarity : Distance -> vector -> vector -> Q.

(** [client.search(name, query_vector, limit)]: the best [limit]
    points with their scores; a missing collection is an error, and so
    is a query vector whose length is not the size of the collection. *)
Definition client_search (name : str) (v : vector) (limit : Z)
    : M store (list (Record_ * Q)) :=
  fun st =>
    match st !! name with
    | None => (Raise (ValueError "collection not found"), st)
    | Some c =>
        if negb (Z.of_nat (length v) =? size c)
        then (Raise (ValueError "wrong vector size"), st)
        else
        (Ok (take (Z.to_nat limit)
               (merge_sort scored_desc
                  (map (fun kv : Z * Record_ =>
                          (kv.2, similarity (distance c) (vector_ kv.2) v))
                       (map_to_list (points c))))),
         st)
    end.

(** *** The provider (after [connect()]) *)

Record provider : Type := mkProvider {
  default_vector_size : Z;
  distance_method : option Distance
}.

(** [__init__]; the index threshold is accepted and not kept. *)
Definition init (default_vector_size : Z) (distance_method : option str)
    (index_threshold : Z) : provider :=
  mkProvider default_vector_size
    (if bool_decide (distance_method = Some (py "cosine")) then Some COSINE
     else if bool_decide (distance_method = Some (py "dot")) then Some DOT
     else None).

Definition is_collection_existed (p : provider) (collection_name : str)
    : M store bool :=
  client_collection_exists collection_name.

(** [delete_collection]: the existence test is called without
    [await], so the condition sees the coroutine object. *)
Definition delete_collection (p : provider) (collection_name : str)
    : M store (option bool) :=
  if coroutine_truthy (Coroutine (is_collection_existed p collection_name))
  then r <- client_delete_collection collection_name ;; ret (Some r)
  else ret None.

(** [create_collection]: neither [delete_collection] nor
    [is_collection_existed] is awaited here; the first call only
    builds a coroutine that is dropped, the second is tested as an
    object. *)
Definition create_collection (p : provider) (collection_name : str)
    (embedding_size : Z) (do_reset : bool) : M store bool :=
  let _ :=
    if do_reset
    then Some (Coroutine (delete_collection p collection_name))
    else None in
  if negb (coroutine_truthy
             (Coroutine (is_collection_existed p collection_name)))
  then
    _ <- client_create_collection collection_name embedding_size
           (distance_method p) ;;
    ret true
  else ret false.

(** [l[x]] *)
Definition index {A} (l : list A) (x : nat) : result A :=
  match l !! x with
  | Some a => Ok a
  | None => Raise (IndexError "list index out of range")
  end.

(** The comprehension that builds [batch_records]; a record needs an
    id that is not [None]. *)
Fixpoint build_records (batch_texts : list str)
    (batch_vectors : list vector) (batch_metadata : list payload_metadata)
    (batch_record_ids : list (option Z)) (xs : list nat)
    : result (list Record_) :=
  match xs with
  | [] => Ok []
  | x :: xs' =>
      match index batch_record_ids x, index batch_vectors x,
            index batch_texts x, index batch_metadata x with
      | Ok (Some i), Ok v, Ok t, Ok m =>
          match build_records batch_texts batch_vectors batch_metadata
                  batch_record_ids xs' with
          | Ok rs => Ok (mkRecord i v t m :: rs)
          | Raise e => Raise e
          end
      | Ok None, Ok _, Ok _, Ok _ =>
          Raise (ValueError "id: none is not an allowed value")
      | Raise e, _, _, _ | _, Raise e, _, _
      | _, _, Raise e, _ | _, _, _, Raise e => Raise e
      end
  end.

(** The batch loop of [insert_many]: a failed upload is caught and
    answered with [False]; anything raised while the records are
    built is not caught. *)
Fixpoint insert_batches (collection_name : str) (texts : list str)
    (vectors : list vector) (metadata : list payload_metadata)
    (record_ids : list (option Z)) (batch_size : Z) (starts : list Z)
    : M store bool :=
  match starts with
  | [] => ret true
  | i :: starts' =>
      let batch_end := i + batch_size in
      let batch_texts := slice texts i batch_end in
      let batch_vectors := slice vectors i batch_end in
      let batch_metadata := slice metadata i batch_end in
      let batch_record_ids := slice record_ids i batch_end in
      match build_records batch_texts batch_vectors batch_metadata
              batch_record_ids (seq 0 (length batch_texts)) with
      | Raise e => raise e
      | Ok batch_records =>
          fun st =>
            match client_upload_records collection_name batch_records st with
            | (Ok _, st') =>
                insert_batches collection_name texts vectors metadata
                  record_ids batch_size starts' st'
            | (Raise _, st') => (Ok false, st')
            end
      end
  end.

Definition insert_many (p : provider) (collection_name : str)
    (texts : list str) (vectors : list vector)
    (metadata : option (list metadata_item))
    (record_ids : option (list Z)) (batch_size : Z) : M store bool :=
  let metadata :=
    match metadata with
    | None => map (fun k => MetaInt (Z.of_nat k)) (seq 0 (length texts))
    | Some m =>
        map (fun x => match x with Some d => MetaDict d | None => MetaNone end) m
    end in
  let record_ids :=
    match record_ids with
    | None => replicate (length texts) None
    | Some ids => map Some ids
    end in
  match range0 (Z.of_nat (length texts)) batch_size with
  | Raise e => raise e
  | Ok starts =>
      insert_batches collection_name texts vectors metadata record_ids
        batch_size starts
  end.

Definition search_by_vector (p : provider) (collection_name : str)
    (vector : vector) (limit : Z) : M store search_result :=
  results <- client_search collection_name vector limit ;;
  if Nat.eqb (length results) 0 then ret SNone
  else ret (SDocs (map (fun result : Record_ * Q =>
                          mkRetrievedDocument (payload_text result.1) result.2)
                       results)).

(** [client.get_collection(name)]: the size, the distance and the
    number of points; a missing collection is an error. *)
Definition client_get_collection (name : str)
    : M store (Z * Distance * Z) :=
  fun st =>
    match st !! name with
    | None => (Raise (ValueError "collection not found"), st)
    | Some c => (Ok (size c, distance c, Z.of_nat (map_size (points c))), st)
    end.

Definition get_collection_info (p : provider) (collection_name : str)
    : M store (Z * Distance * Z) :=
  client_get_collection collection_name.

(** [insert_one]: the existence test is not awaited, so its branch is
    never taken; building the record and uploading it happen inside the
    [try], and every error there is answered with [False]. *)
Definition insert_one (p : provider) (collection_name : str) (text : str)
    (vector : vector) (metadata : metadata_item) (record_id : option Z)
    : M store bool :=
  if negb (coroutine_truthy
             (Coroutine (is_collection_existed p collection_name)))
  then ret false
  else
    match record_id with
    | None => ret false
    | Some i =>
        fun st =>
          match client_upload_records collection_name
                  [mkRecord i vector text
                     (match metadata with
                      | Some d => MetaDict d
                      | None => MetaNone
                      end)] st with
          | (Ok _, st') => (Ok true, st')
          | (Raise _, st') => (Ok false, st')
          end
    end.

End Similarity.

End QdrantDBProvider.

(* ===================================================================== *)
(** ** stores/llm/providers/OpenAIProvider.py *)
(* ===================================================================== *)

Module OpenAIProvider.

(** A chat message [{"role": role, "content": prompt}]; the content is
    [None] when the caller passed [None]. *)
Record message : Type := mkMessage {
  role : str;
  content : option str
}.

(** Python list objects are shared by reference: the heap maps the
    identity of a list to its current elements. *)
Abbreviation heap := (gmap nat (list message)).

(** [response.choices[k]]: its [message] is an object with a [content],
    or [None]. *)
Record choice : Type := mkChoice {
  choice_message : option (option str)
}.

(** The answer of [client.chat.completions.create]: [None] or an object
    with its [choices]. *)
Abbreviation response := (option (list choice)).

(** The remote endpoint
    [create(model, messages, max_tokens, temperature)]. *)
Abbreviation completions_api :=
  (str -> list message -> Z -> Q -> result response).

Record provider : Type := mkProvider {
  client : option completions_api;
  generation_model_id : option str;
  default_input_max_characters : Z;
  default_generation_max_output_tokens : Z;
  default_generation_temperature : Q
}.

(** [OpenAIEnums] *)
Definition SYSTEM : str := py "system".
Definition USER : str := py "user".
Definition ASSISTANT : str := py "assistant".

(** [s[:n]] *)
Definition prefix_slice (s : str) (n : Z) : str :=
  if 0 <=? n then take (Z.to_nat n) s
  else take (Z.to_nat (Z.of_nat (length s) + n)) s.

Definition process_prompt (p : provider) (prompt : str) : str :=
  strip (prefix_slice prompt (default_input_max_characters p)).

Definition construct_prompt (p : provider) (prompt : option str)
    (role : str) : message :=
  mkMessage role prompt.

(** [lst.append(x)] on the list object at [l]. *)
Definition list_append (l : nat) (x : message) : M heap unit :=
  fun h =>
    match h !! l with
    | Some xs => (Ok tt, <[l := xs ++ [x]]> h)
    | None => (Raise (TypeError "not a list object"), h)
    end.

(** The current elements of the list object at [l]. *)
Definition list_read (l : nat) : M heap (list message) :=
  fun h =>
    match h !! l with
    | Some xs => (Ok xs, h)
    | None => (Raise (TypeError "not a list object"), h)
    end.

(** [generate_text(prompt, chat_history, max_output_tokens, temperature)]
    where [chat_history] is the list object that the caller passed. The
    result is the generated text or [None]. *)
Definition generate_text (p : provider) (prompt : str) (chat_history : nat)
    (max_output_tokens : option Z) (temperature : option Q)
    : M heap (option str) :=
  match client p with
  | None => ret None
  | Some create =>
      match generation_model_id p with
      | None | Some [] => ret None
      | Some model =>
          let max_output_tokens :=
            match max_output_tokens with
            | Some n => n
            | None => default_generation_max_output_tokens p
            end in
          let temperature :=
            match temperature with
            | Some t => t
            | None => default_generation_temperature p
            end in
          list_append chat_history (construct_prompt p (Some prompt) USER) ;;;
          messages <- list_read chat_history ;;
          match create model messages max_output_tokens temperature with
          | Raise e => raise e
          | Ok None | Ok (Some []) => ret None
          | Ok (Some (mkChoice None :: _)) => ret None
          | Ok (Some (mkChoice (Some content) :: _)) => ret content
          end
      end
  end.

End OpenAIProvider.

(* ===================================================================== *)
(** ** controllers/NLPController.py *)
(* ===================================================================== *)

Module NLPController.

(** The [Project] row that the controller reads: its id. *)
Record Project : Type := mkProject { project_id : Z }.

(** The embedding client: its configured size and the answer of
    [embed_text(prompt, document_type)], [None] after a logged error. *)
Record embedding : Type := mkEmbedding {
  embedding_size : Z;
  embed_text : list str -> str -> option (list vector)
}.

(** [DocumentTypeEnum] *)
Definition QUERY : str := py "query".

(** What a request works on: the vector store and the list objects. *)
Record world (St : Type) : Type := mkWorld {
  vdb : St;
  lists : OpenAIProvider.heap
}.
Arguments mkWorld {St} vdb lists.
Arguments vdb {St} w.
Arguments lists {St} w.

Definition on_vdb {St A} (m : M St A) : M (world St) A :=
  fun w => let '(r, s') := m (vdb w) in (r, mkWorld s' (lists w)).

Definition on_lists {St A} (m : M OpenAIProvider.heap A) : M (world St) A :=
  fun w => let '(r, h') := m (lists w) in (r, mkWorld (vdb w) h').

(** A list display [[x, ...]] creates a new list object. *)
Definition list_new (xs : list OpenAIProvider.message)
    : M OpenAIProvider.heap nat :=
  fun h => let l := fresh (dom h) in (Ok l, <[l := xs]> h).

(** [sep.join(items)] where an item may be [None]. *)
Fixpoint join_items (items : list (option str)) : result (list str) :=
  match items with
  | [] => Ok []
  | None :: _ => Raise (TypeError "sequence item: expected str instance")
  | Some s :: items' =>
      match join_items items' with
      | Ok l => Ok (s :: l)
      | Raise e => Raise e
      end
  end.

Definition join_opt (sep : str) (items : list (option str)) : result str :=
  match join_items items with
  | Ok l => Ok (join sep l)
  | Raise e => Raise e
  end.

(** [enumerate(l)] *)
Definition enumerate {A} (l : list A) : list (nat * A) :=
  zip (seq 0 (length l)) l.

Section Controller.

Context {P St : Type} {VDB : VectorDBInterface P St}.

Record controller : Type := mkController {
  vectordb_client : P;
  generation_client : OpenAIProvider.provider;
  embedding_client : embedding;
  (** [template_parser.get(group, key, vars)]: the rendered template,
      or [None]; the locale files decide. *)
  template_parser : str -> str -> list (str * str) -> option str
}.

Definition create_collection_name (c : controller) (project_id : Z) : str :=
  strip (py "Collection_"
         ++ str_of_int (default_vector_size (vectordb_client c))
         ++ py "_" ++ str_of_int project_id).

Definition search_vector_db_collection (c : controller)
    (project : Project) (text : str) (limit : Z) : M St search_result :=
  let collection_name := create_collection_name c (project_id project) in
  match embed_text (embedding_client c) [text] QUERY with
  | None | Some [] => ret SFalse
  | Some (query_vector :: _) =>
      if Nat.eqb (length query_vector) 0 then ret SFalse
      else
        results <- search_by_vector (vectordb_client c) collection_name
                     query_vector limit ;;
        if negb (truthy results) then ret SFalse
        else ret results
  end.

(** [answer_rag_question]: [None] when nothing was retrieved, else the
    tuple [(answer, full_prompt, chat_history)] whose last component
    is the list object that was handed to [generate_text]. *)
Definition answer_rag_question (c : controller) (project : Project)
    (query : str) (limit : Z)
    : M (world St) (option (option str * str * nat)) :=
  retrieved_documents <-
    on_vdb (search_vector_db_collection c project query limit) ;;
  match retrieved_documents with
  | SFalse | SNone | SDocs [] => ret None
  | SDocs docs =>
      let system_prompt :=
        template_parser c (py "rag") (py "system_prompt") [] in
      match
        join_opt [10%N]
          (map (fun x : nat * RetrievedDocument =>
                  template_parser c (py "rag") (py "document_prompt")
                    [(py "doc_num", str_of_int (Z.of_nat x.1 + 1));
                     (py "chunk_text",
                      OpenAIProvider.process_prompt (generation_client c)
                        (VectorDB.text x.2))])
               (enumerate docs))
      with
      | Raise e => raise e
      | Ok documents_prompt =>
          let footer_prompt :=
            template_parser c (py "rag") (py "footer_prompt")
              [(py "query", query)] in
          chat_history <-
            on_lists (list_new
              [OpenAIProvider.construct_prompt (generation_client c)
                 system_prompt OpenAIProvider.SYSTEM]) ;;
          match join_opt [10%N; 10%N]
                  [Some documents_prompt; footer_prompt] with
          | Raise e => raise e
          | Ok full_prompt =>
              answer <-
                on_lists (OpenAIProvider.generate_text (generation_client c)
                            full_prompt chat_history None None) ;;
              ret (Some (answer, full_prompt, chat_history))
          end
      end
  end.

End Controller.

End NLPController.

(* ===================================================================== *)
(** ** routes/nlp.py *)
(* ===================================================================== *)

Module Routes.

Import NLPController.

(** The members of [ResponseSignal] that these routes send. *)
Inductive ResponseSignal : Type :=
| VECTORDB_SEARCH_ERROR
| VECTORDB_SEARCH_SUCCESS
| RAG_ANSWER_ERROR
| RAG_ANSWER_SUCCESS.

(** The JSON body of a response. *)
Inductive body : Type :=
| Signal (s : ResponseSignal)
| SearchResults (s : ResponseSignal) (results : list RetrievedDocument)
| Answer (s : ResponseSignal) (answer : str) (full_prompt : str)
         (chat_history : list OpenAIProvider.message).

Record JSONResponse : Type := mkJSONResponse {
  status_code : Z;
  content : body
}.

(** [SearchRequest(text, limit)] *)
Record SearchRequest : Type := mkSearchRequest {
  text : str;
  limit : Z
}.

(** [get_or_create_project]: the project of that id, created when it
    was not there. *)
Definition get_or_create_project (project_id : Z) : Project :=
  mkProject project_id.

Section WithClients.

Context {P St : Type} {VDB : VectorDBInterface P St}.

(** [POST /index/search/{project_id}] *)
Definition search_index (app : controller) (project_id : Z)
    (search_request : SearchRequest) : M (world St) JSONResponse :=
  let project := get_or_create_project project_id in
  results <-
    on_vdb (search_vector_db_collection app project (text search_request)
              (limit search_request)) ;;
  match results with
  | SDocs (d :: ds) =>
      ret (mkJSONResponse 200
             (SearchResults VECTORDB_SEARCH_SUCCESS (d :: ds)))
  | _ => ret (mkJSONResponse 400 (Signal VECTORDB_SEARCH_ERROR))
  end.

(** [POST /index/answer/{project_id}]: the result of
    [answer_rag_question] is unpacked into three names before it is
    looked at. *)
Definition answer_rag (app : controller) (project_id : Z)
    (search_request : SearchRequest) : M (world St) JSONResponse :=
  let project := get_or_create_project project_id in
  r <- answer_rag_question app project (text search_request)
         (limit search_request) ;;
  match r with
  | None => raise (TypeError "cannot unpack non-iterable NoneType object")
  | Some (answer, full_prompt, chat_history) =>
      match answer with
      | None | Some [] =>
          ret (mkJSONResponse 400 (Signal RAG_ANSWER_ERROR))
      | Some a =>
          history <- on_lists (OpenAIProvider.list_read chat_history) ;;
          ret (mkJSONResponse 200
                 (Answer RAG_ANSWER_SUCCESS a full_prompt history))
      end
  end.

End WithClients.

End Routes.

(* ===================================================================== *)
(** ** models/ChunkModel.py: reading the chunks of a project *)
(* ===================================================================== *)

Module ChunkModel.

(** A row of the [chunks] table. *)
Record DataChunk : Type := mkDataChunk {
  chunk_id : Z;
  chunk_content : str;
  chunk_metadata : metadata_item;
  chunk_order : Z;
  chunk_project_id : Z;
  chunk_asset_id : Z
}.

(** The [chunks] table: its rows. *)
Abbreviation chunks_table := (list DataChunk).

(** The order in which one execution of a [SELECT] without [ORDER BY]
    produces the rows that match: the engine is free to choose it, and
    to choose another one for the next execution. *)
Abbreviation row_order := (list DataChunk -> list DataChunk).

Definition of_project (project_id : Z) (tbl : chunks_table) : list DataChunk :=
  filter (fun c => chunk_project_id c = project_id) tbl.

(** [get_project_chunks]:
    [select(DataChunk).where(chunk_project_id == project_id)
       .offset((page_no - 1) * page_size).limit(page_size)];
    there is no [ORDER BY], so the page is cut from the matching rows
    in the order [scan] of this execution. PostgreSQL refuses a
    negative [OFFSET] or [LIMIT]. *)
Definition get_project_chunks (scan : row_order)
    (project_id page_no page_size : Z)
    : M chunks_table (list DataChunk) :=
  fun tbl =>
    let offset := (page_no - 1) * page_size in
    if offset <? 0
    then (Raise (DatabaseError "OFFSET must not be negative"), tbl)
    else if page_size <? 0
    then (Raise (DatabaseError "LIMIT must not be negative"), tbl)
    else (Ok (take (Z.to_nat page_size)
                (drop (Z.to_nat offset)
                   (scan (of_project project_id tbl)))), tbl).

(** [get_chunks_count_by_project_id] *)
Definition get_chunks_count_by_project_id (project_id : Z)
    : M chunks_table Z :=
  fun tbl => (Ok (Z.of_nat (length (of_project project_id tbl))), tbl).

End ChunkModel.

(* ===================================================================== *)
(** ** The two providers as implementations of the interface *)
(* ===================================================================== *)

Definition PGVector_interface (cosine_distance : vector -> vector -> Q)
    : VectorDBInterface PGVectorProvider.provider PGVectorProvider.database := {|
  default_vector_size := PGVectorProvider.default_vector_size;
  create_collection := PGVectorProvider.create_collection;
  insert_many := PGVectorProvider.insert_many;
  search_by_vector := PGVectorProvider.search_by_vector cosine_distance
|}.

Definition Qdrant_interface
    (similarity : QdrantDBProvider.Distance -> vector -> vector -> Q)
    : VectorDBInterface QdrantDBProvider.provider QdrantDBProvider.store := {|
  default_vector_size := QdrantDBProvider.default_vector_size;
  create_collection := QdrantDBProvider.create_collection;
  insert_many := QdrantDBProvider.insert_many;
  search_by_vector := QdrantDBProvider.search_by_vector similarity
|}.

(* ===================================================================== *)
(** ** Predicates used in the statements *)
(* ===================================================================== *)

Import ProcessController.

(** A string that is empty or starts with a character that is not white
    space. *)
Definition head_nonspace (s : str) : Prop :=
  match s with
  | [] => True
  | c :: _ => isspace c = false
  end.

(** A line that the loop appends: visible first and last characters. *)
Definition line_ok (line : str) : Prop :=
  exists h m l, line = h :: m ++ [l]
                /\ isspace h = false /\ isspace l = false.

(** The buffer of the loop after it has taken the lines [g] since the
    last emission: each line followed by the splitter tag. *)
Definition buffer_of (splitter_tag : str) (g : list str) : str :=
  concat (map (fun line => line ++ splitter_tag) g).

(** The number of white-space characters at the end of the tag. *)
Definition trailing_space (splitter_tag : str) : nat :=
  length splitter_tag - length (rstrip splitter_tag).

(** A run of lines on which the loop emitted: its last line brought
    the buffer to [chunk_size], and the buffer was shorter before that
    line unless the line opened the run. *)
Definition emitting_group (chunk_size : Z) (splitter_tag : str)
    (g : list str) : Prop :=
  exists g0 line,
    g = g0 ++ [line]
    /\ chunk_size <= Z.of_nat (length (buffer_of splitter_tag g))
    /\ (g0 = [] \/ Z.of_nat (length (buffer_of splitter_tag g0)) < chunk_size).

(** The state of the loop after the lines [done]: the lines fall into
    the runs that were emitted, in order, and the run that is still in
    the buffer. *)
Definition groups_inv (chunk_size : Z) (splitter_tag : str)
    (done : list str) (st : list Document * str) : Prop :=
  exists groups rest,
    concat groups ++ rest = done
    /\ st.1 = map (fun g => mkDocument (strip (buffer_of splitter_tag g)) [])
                 groups
    /\ st.2 = buffer_of splitter_tag rest
    /\ Forall (emitting_group chunk_size splitter_tag) groups
    /\ (rest = []
        \/ Z.of_nat (length (buffer_of splitter_tag rest)) < chunk_size).

(** The buffer that a chunk was cut from, when the splitter tag is white
    space: the content followed by the tag, or nothing for an empty
    chunk. *)
Definition rebuild (splitter_tag : str) (d : Document) : str :=
  match page_content d with
  | [] => []
  | _ :: _ => page_content d ++ splitter_tag
  end.

(** A buffer of the loop: empty, or lines and tags that start with a
    visible character and end with a visible character and the tag. *)
Definition buffer_ok (splitter_tag : str) (cur : str) : Prop :=
  cur = []
  \/ exists h m l, cur = (h :: m ++ [l]) ++ splitter_tag
                   /\ isspace h = false /\ isspace l = false.

(** What the loop keeps true of its state: the chunks are stripped,
    have at least two characters and no metadata, and the buffer is
    well shaped. *)
Definition chunks_inv (splitter_tag : str) (st : list Document * str) : Prop :=
  Forall (fun d => strip (page_content d) = page_content d
                   /\ (2 <= length (page_content d))%nat
                   /\ metadata d = []) st.1
  /\ buffer_ok splitter_tag st.2.

(** A row that fits its table: its vector has the dimension of the
    column, its id was drawn from the sequence, and its chunk exists. *)
Definition row_ok (chunk_ids : gset Z) (t : PGVectorProvider.table)
    (r : PGVectorProvider.row) : Prop :=
  Z.of_nat (length (PGVectorProvider.row_vector r))
  = PGVectorProvider.embedding_size t
  /\ PGVectorProvider.row_id r < PGVectorProvider.next_id t
  /\ PGVectorProvider.row_chunk_id r ∈ chunk_ids.

(** A table as [CREATE TABLE] and [INSERT] leave it: an accepted
    dimension, fitting rows, and no id used twice. *)
Definition table_ok (chunk_ids : gset Z) (t : PGVectorProvider.table) : Prop :=
  1 <= PGVectorProvider.embedding_size t <= 16000
  /\ Forall (row_ok chunk_ids t) (PGVectorProvider.rows t)
  /\ NoDup (map PGVectorProvider.row_id (PGVectorProvider.rows t)).

(** A consistent database: every collection table is as above. *)
Definition pg_consistent (db : PGVectorProvider.database) : Prop :=
  map_Forall (fun _ t => table_ok (PGVectorProvider.chunks db) t)
             (PGVectorProvider.tables db).

(** The rows of a collection table (none when it is absent). *)
Definition table_rows (db : PGVectorProvider.database) (name : str)
    : list PGVectorProvider.row :=
  match PGVectorProvider.tables db !! name with
  | Some t => PGVectorProvider.rows t
  | None => []
  end.

(** The indexes of a collection table (none when it is absent). *)
Definition table_indexes (db : PGVectorProvider.database) (name : str)
    : list PGVectorProvider.vector_index :=
  match PGVectorProvider.tables db !! name with
  | Some t => PGVectorProvider.indexes t
  | None => []
  end.

(** [db'] extends [db]: the chunks are the same, every collection of
    [db] is still there with its dimension, and its rows of before are
    the first rows of now. *)
Definition pg_extends (db db' : PGVectorProvider.database) : Prop :=
  PGVectorProvider.chunks db' = PGVectorProvider.chunks db
  /\ forall name t,
       PGVectorProvider.tables db !! name = Some t ->
       exists t',
         PGVectorProvider.tables db' !! name = Some t'
         /\ PGVectorProvider.embedding_size t' = PGVectorProvider.embedding_size t
         /\ PGVectorProvider.rows t `prefix_of` PGVectorProvider.rows t'.

(** A call that can only extend the database, however it ends. *)
Definition only_extends {A} (m : M PGVectorProvider.database A) : Prop :=
  forall db r db', m db = (r, db') -> pg_extends db db'.

(** The points of a collection after the records were written one by
    one, each replacing the point of the same id. *)
Definition upserted (records : list QdrantDBProvider.Record_)
    (c : QdrantDBProvider.collection) : QdrantDBProvider.collection :=
  QdrantDBProvider.mkCollection (QdrantDBProvider.size c)
    (QdrantDBProvider.distance c)
    (foldl (fun m r => <[QdrantDBProvider.id r := r]> m)
           (QdrantDBProvider.points c) records).



(** The text of the first choice of an answer of the completion
    endpoint, as [generate_text] reads it. *)
Definition first_content (resp : OpenAIProvider.response) : option str :=
  match resp with
  | None | Some [] => None
  | Some (OpenAIProvider.mkChoice None :: _) => None
  | Some (OpenAIProvider.mkChoice (Some content) :: _) => content
  end.

(** The rows that a call of [get_project_chunks] returns (none when it
    raises). *)
Definition page_rows (scan : ChunkModel.row_order)
    (tbl : ChunkModel.chunks_table)
    (project_id page_no page_size : Z) : list ChunkModel.DataChunk :=
  match ChunkModel.get_project_chunks scan project_id page_no page_size tbl
  with
  | (Ok rows, _) => rows
  | (Raise _, _) => []
  end.

(** The rows of a table with the score that the search query gives them. *)
Definition scored_rows (cosine_distance : vector -> vector -> Q)
    (t : PGVectorProvider.table) (v : vector) : list (str * Q) :=
  map (fun r => (PGVectorProvider.row_text r,
                 1 - cosine_distance (PGVectorProvider.row_vector r) v)%Q)
      (PGVectorProvider.rows t).

(** The number of rows of a collection table (0 when it is absent). *)
Definition row_count (db : PGVectorProvider.database) (name : str) : nat :=
  match PGVectorProvider.tables db !! name with
  | Some t => length (PGVectorProvider.rows t)
  | None => 0
  end.

(** The metadata argument fits the texts: it is [None], or a list with
    one item per text. *)
Definition metadata_fits (metadata : option (list metadata_item))
    (texts : list str) : Prop :=
  match metadata with
  | None => True
  | Some m => length m = length texts
  end.

(* ===================================================================== *)
(** ** Example inputs *)
(* ===================================================================== *)

Module Examples.

Import NLPController.

(** The inner product. Between vectors of norm 1 the cosine distance is
    1 minus the inner product, and both similarities of the Qdrant engine
    are the inner product; the examples use such vectors. *)
Fixpoint dot (u v : vector) : Q :=
  match u, v with
  | a :: u', b :: v' => (a * b + dot u' v')%Q
  | _, _ => 0%Q
  end.

Definition cosine_distance (u v : vector) : Q := (1 - dot u v)%Q.

Definition similarity (d : QdrantDBProvider.Distance) (u v : vector) : Q :=
  dot u v.

(** An embedding client that answers every text with the vector [[1]]. *)
Definition embedding_client : embedding :=
  mkEmbedding 1 (fun texts _ => Some (map (fun _ => [1%Q]) texts)).

(** A generation client whose endpoint always answers [ok]. *)
Definition generation_client : OpenAIProvider.provider :=
  OpenAIProvider.mkProvider
    (Some (fun _ _ _ _ =>
             Ok (Some [OpenAIProvider.mkChoice (Some (Some (py "ok")))])))
    (Some (py "gpt")) 1000 1000 (1 # 2).

(** A template parser that renders every template as its key. *)
Definition template_parser (group key : str) (vars : list (str * str))
    : option str := Some key.

Definition pg_provider : PGVectorProvider.provider :=
  PGVectorProvider.init 768 (Some (py "cosine")) 100.

Definition qdrant_provider : QdrantDBProvider.provider :=
  QdrantDBProvider.init 768 (Some (py "cosine")) 100.

#[global] Instance pg_interface
    : VectorDBInterface PGVectorProvider.provider PGVectorProvider.database :=
  PGVector_interface cosine_distance.

#[global] Instance qdrant_interface
    : VectorDBInterface QdrantDBProvider.provider QdrantDBProvider.store :=
  Qdrant_interface similarity.

Definition pg_controller : @controller PGVectorProvider.provider :=
  mkController pg_provider generation_client embedding_client
               template_parser.

(** The same controller over a provider built with size 1024. *)
Definition pg_controller_1024 : @controller PGVectorProvider.provider :=
  mkController (PGVectorProvider.init 1024 (Some (py "cosine")) 100)
               generation_client embedding_client template_parser.

Definition qdrant_controller : @controller QdrantDBProvider.provider :=
  mkController qdrant_provider generation_client embedding_client
               template_parser.

(** A database with no collection table, where chunk 1 exists. *)
Definition pg_empty : PGVectorProvider.database :=
  PGVectorProvider.mkDatabase ∅ {[ 1 ]}.

(** The same with an empty collection [c] of dimension 1. *)
Definition pg_with_c : PGVectorProvider.database :=
  PGVectorProvider.mkDatabase
    {[ py "c" := PGVectorProvider.mkTable 1 [] 1 [] ]} {[ 1 ]}.

(** A collection [d] of dimension 2 that holds the rows [a] and [b]. *)
Definition two_rows : list PGVectorProvider.row :=
  [ PGVectorProvider.mkRow 1 (py "a") [0%Q; 1%Q] (py "{}") 1;
    PGVectorProvider.mkRow 2 (py "b") [1%Q; 0%Q] (py "{}") 1 ].

Definition pg_two_rows : PGVectorProvider.database :=
  PGVectorProvider.mkDatabase
    {[ py "d" := PGVectorProvider.mkTable 2 two_rows 3 [] ]} {[ 1 ]}.

(** [pg_with_c] after the batch of the single text [t] with record id
    1 was inserted once, and after it was inserted a second time. *)
Definition pg_after_one : PGVectorProvider.database :=
  (PGVectorProvider.insert_many pg_provider (py "c") [py "t"] [[1%Q]] None
     (Some [1]) 50 pg_with_c).2.

Definition pg_after_two : PGVectorProvider.database :=
  (PGVectorProvider.insert_many pg_provider (py "c") [py "t"] [[1%Q]] None
     (Some [1]) 50 pg_after_one).2.

(** The collection of project 7 with one row, whose vector is the one
    that the example embedding client gives to every text. *)
Definition pg_indexed : PGVectorProvider.database :=
  PGVectorProvider.mkDatabase
    {[ py "Collection_768_7" :=
         PGVectorProvider.mkTable 1
           [PGVectorProvider.mkRow 1 (py "doc one") [1%Q] (py "{}") 1] 2 [] ]}
    {[ 1 ]}.

(** The document that a search in [pg_indexed] retrieves. *)
Definition retrieved_one : RetrievedDocument :=
  mkRetrievedDocument (py "doc one") (1 - cosine_distance [1%Q] [1%Q]).

(** The endpoint of the example generation client. *)
Definition completions : OpenAIProvider.completions_api :=
  fun _ _ _ _ => Ok (Some [OpenAIProvider.mkChoice (Some (Some (py "ok")))]).

(** A chunks table with three chunks of project 7 and one of project 8. *)
Definition chunk_rows : ChunkModel.chunks_table :=
  [ ChunkModel.mkDataChunk 1 (py "a1") None 1 7 1;
    ChunkModel.mkDataChunk 2 (py "b1") None 1 8 2;
    ChunkModel.mkDataChunk 3 (py "a2") None 2 7 1;
    ChunkModel.mkDataChunk 4 (py "a3") None 3 7 1 ].

(** A list object at address 0 that holds one system message. *)
Definition one_list : OpenAIProvider.heap :=
  {[ 0%nat := [OpenAIProvider.mkMessage OpenAIProvider.SYSTEM
                 (Some (py "sys"))] ]}.

(** A Qdrant store whose collection [c] of size 1 holds one point. *)
Definition qdrant_with_point : QdrantDBProvider.store :=
  {[ py "c" :=
       QdrantDBProvider.mkCollection 1 QdrantDBProvider.COSINE
         {[ 1 := QdrantDBProvider.mkRecord 1 [1%Q] (py "t")
                   QdrantDBProvider.MetaNone ]} ]}.

(** A Qdrant store whose collection [c] of size 1 is empty. *)
Definition qdrant_with_c : QdrantDBProvider.store :=
  {[ py "c" :=
       QdrantDBProvider.mkCollection 1 QdrantDBProvider.COSINE ∅ ]}.

End Examples.

(* ===================================================================== *)
(** * Properties *)
(* ===================================================================== *)

(** ** Stripping *)

Lemma lstrip_head_nonspace (s : str) : head_nonspace (lstrip s).
Proof.
  induction s as [|c s IH]; simpl; [exact I|].
  destruct (isspace c) eqn:E; [exact IH | exact E].
Qed.

Lemma lstrip_id (s : str) : head_nonspace s -> lstrip s = s.
Proof.
  destruct s as [|c s]; simpl; [reflexivity|].
  intros ->. reflexivity.
Qed.

Lemma lstrip_snoc (a : str) (c : N) :
  isspace c = false -> lstrip (a ++ [c]) = lstrip a ++ [c].
Proof.
  intros Hc. induction a as [|x a IH]; simpl.
  - rewrite Hc. reflexivity.
  - destruct (isspace x); [exact IH | reflexivity].
Qed.

Lemma lstrip_app_length (a b : str) (c : N) :
  isspace c = false ->
  (length b < length (lstrip (a ++ c :: b)))%nat.
Proof.
  intros Hc. induction a as [|x a IH]; simpl.
  - rewrite Hc. simpl. lia.
  - destruct (isspace x); [exact IH|].
    simpl. rewrite length_app. simpl. lia.
Qed.

Lemma rstrip_cons (c : N) (s : str) :
  isspace c = false -> rstrip (c :: s) = c :: rstrip s.
Proof.
  intros Hc. unfold rstrip. simpl rev.
  rewrite lstrip_snoc by exact Hc.
  rewrite rev_app_distr. reflexivity.
Qed.

Lemma rstrip_rev_head_nonspace (s : str) : head_nonspace (rev (rstrip s)).
Proof.
  unfold rstrip. rewrite rev_involutive. apply lstrip_head_nonspace.
Qed.

Lemma lstrip_length_le (s : str) : (length (lstrip s) <= length s)%nat.
Proof.
  induction s as [|c s IH]; simpl; [lia|].
  destruct (isspace c); simpl; lia.
Qed.

Lemma rstrip_length_le (s : str) : (length (rstrip s) <= length s)%nat.
Proof.
  unfold rstrip. rewrite length_rev.
  pose proof (lstrip_length_le (rev s)) as H. rewrite length_rev in H.
  exact H.
Qed.

Lemma lstrip_app_nonspace (a b : str) (c : N) :
  isspace c = false -> lstrip (a ++ c :: b) = lstrip a ++ c :: b.
Proof.
  intros Hc. induction a as [|x a IH]; simpl.
  - rewrite Hc. reflexivity.
  - destruct (isspace x); [exact IH | reflexivity].
Qed.

(** Stripping on the right stops at a visible character: only the
    white space at the end of what follows it is removed. *)
Lemma rstrip_app_nonspace (a tail : str) (l : N) :
  isspace l = false -> rstrip (a ++ l :: tail) = a ++ l :: rstrip tail.
Proof.
  intros Hl. unfold rstrip.
  rewrite rev_app_distr. simpl rev. rewrite <- app_assoc. simpl.
  rewrite (lstrip_app_nonspace (rev tail) (rev a) l Hl).
  rewrite rev_app_distr. simpl rev. rewrite rev_involutive.
  rewrite <- app_assoc. reflexivity.
Qed.

(** A buffer that starts with a visible character and ends with a
    visible character followed by the tag loses, when stripped, exactly
    the white space at the end of the tag. *)
Lemma strip_buffer_exact (h l : N) (m tail : str) :
  isspace h = false -> isspace l = false ->
  strip ((h :: m ++ [l]) ++ tail) = (h :: m ++ [l]) ++ rstrip tail.
Proof.
  intros Hh Hl. unfold strip.
  rewrite lstrip_id by (simpl; exact Hh).
  change ((h :: m ++ [l]) ++ tail) with (h :: (m ++ [l]) ++ tail).
  rewrite <- app_assoc. simpl.
  change (h :: m ++ l :: tail) with ((h :: m) ++ l :: tail).
  rewrite (rstrip_app_nonspace (h :: m) tail l Hl).
  simpl. rewrite <- app_assoc. reflexivity.
Qed.

(** A stripped string of more than one character starts and ends with a
    character that is not white space. *)
Lemma strip_ends (s : str) :
  (1 < length (strip s))%nat ->
  exists h m l, strip s = h :: m ++ [l]
                /\ isspace h = false /\ isspace l = false.
Proof.
  intros Hlen.
  pose proof (lstrip_head_nonspace s) as Hh.
  pose proof (rstrip_rev_head_nonspace (lstrip s)) as Hl.
  fold (strip s) in Hl.
  assert (Hs : strip s = rstrip (lstrip s)) by reflexivity.
  destruct (lstrip s) as [|h t] eqn:El.
  { rewrite Hs in Hlen. cbn in Hlen. lia. }
  simpl in Hh. rewrite (rstrip_cons h t Hh) in Hs.
  destruct (rstrip t) as [|x r] eqn:Er using rev_ind.
  { rewrite Hs in Hlen. simpl in Hlen. lia. }
  exists h, r, x. split; [exact Hs|]. split; [exact Hh|].
  rewrite Hs in Hl. simpl in Hl. rewrite rev_app_distr in Hl. simpl in Hl.
  exact Hl.
Qed.

(** Stripping a buffer that starts with a visible character and ends
    with a visible character followed by [tail] removes at most [tail]. *)
Lemma strip_buffer_length (h l : N) (m tail : str) :
  isspace h = false -> isspace l = false ->
  (length (h :: m ++ [l]) <= length (strip ((h :: m ++ [l]) ++ tail)))%nat.
Proof.
  intros Hh Hl. unfold strip.
  rewrite lstrip_id by (simpl; exact Hh).
  unfold rstrip. rewrite length_rev.
  replace (rev ((h :: m ++ [l]) ++ tail))
    with (rev tail ++ l :: rev (h :: m)).
  - pose proof (lstrip_app_length (rev tail) (rev (h :: m)) l Hl) as H.
    rewrite length_rev in H. simpl in *. rewrite length_app. simpl. lia.
  - rewrite rev_app_distr. f_equal.
    change (h :: m ++ [l]) with ((h :: m) ++ [l]).
    rewrite rev_app_distr. reflexivity.
Qed.

(** ** The chunker *)

Lemma surviving_lines_ok (segments : list str) :
  Forall line_ok (surviving_lines segments).
Proof.
  unfold surviving_lines. apply Forall_forall. intros line Hin.
  apply list_elem_of_In, in_map_iff in Hin. destruct Hin as (doc & <- & Hin).
  apply list_elem_of_In, list_elem_of_filter in Hin. destruct Hin as [Hlen _].
  apply strip_ends.
  destruct (1 <? Z.of_nat (length (strip doc))) eqn:E; [|contradiction].
  apply Z.ltb_lt in E. lia.
Qed.

(** The result of the splitter: what the loop emitted, then one chunk
    with the stripped rest of the buffer. *)
Lemma process_simpler_splitter_shape (texts : list str)
    (metadatas : list (list (str * str))) (chunk_size : Z)
    (splitter_tag : str) (segments : list str) :
  split (join (py " ") texts) splitter_tag = Ok segments ->
  process_simpler_splitter texts metadatas chunk_size splitter_tag
  = Ok ((loop chunk_size splitter_tag (surviving_lines segments)).1
        ++ [mkDocument
              (strip (loop chunk_size splitter_tag (surviving_lines segments)).2)
              []]).
Proof.
  intros Hs. unfold process_simpler_splitter. rewrite Hs.
  destruct (loop chunk_size splitter_tag (surviving_lines segments))
    as [chunks cur].
  assert (H0 : (0 <=? Z.of_nat (length cur)) = true) by (apply Z.leb_le; lia).
  rewrite H0. reflexivity.
Qed.

Lemma buffer_of_app (splitter_tag : str) (g1 g2 : list str) :
  buffer_of splitter_tag (g1 ++ g2)
  = buffer_of splitter_tag g1 ++ buffer_of splitter_tag g2.
Proof. unfold buffer_of. rewrite map_app, concat_app. reflexivity. Qed.

Lemma buffer_of_snoc (splitter_tag : str) (g : list str) (line : str) :
  buffer_of splitter_tag (g ++ [line])
  = buffer_of splitter_tag g ++ (line ++ splitter_tag).
Proof.
  rewrite buffer_of_app. unfold buffer_of at 2. simpl.
  rewrite app_nil_r. reflexivity.
Qed.

(** One turn of the loop extends the run in the buffer by the line, and
    closes the run when the buffer has reached [chunk_size]. *)
Lemma loop_body_groups (chunk_size : Z) (splitter_tag : str)
    (done : list str) (st : list Document * str) (line : str) :
  groups_inv chunk_size splitter_tag done st ->
  groups_inv chunk_size splitter_tag (done ++ [line])
    (loop_body chunk_size splitter_tag st line).
Proof.
  destruct st as [chunks cur].
  intros (groups & rest & Hdone & Hchunks & Hcur & Hgroups & Hrest).
  cbn [fst snd] in Hchunks, Hcur. subst chunks cur done.
  unfold loop_body. rewrite <- buffer_of_snoc.
  destruct (chunk_size <=? _) eqn:E.
  - apply Z.leb_le in E.
    exists (groups ++ [rest ++ [line]]), []. cbn [fst snd].
    split; [rewrite concat_app; simpl; rewrite !app_nil_r, app_assoc;
            reflexivity|].
    split; [rewrite map_app; reflexivity|].
    split; [reflexivity|]. split; [|left; reflexivity].
    apply Forall_app. split; [exact Hgroups|].
    apply Forall_cons. split; [|apply Forall_nil; exact I].
    exists rest, line. split; [reflexivity|]. split; [exact E | exact Hrest].
  - apply Z.leb_gt in E.
    exists groups, (rest ++ [line]). cbn [fst snd].
    split; [rewrite app_assoc; reflexivity|].
    split; [reflexivity|]. split; [reflexivity|].
    split; [exact Hgroups | right; exact E].
Qed.

Lemma loop_fold_groups (chunk_size : Z) (splitter_tag : str)
    (lines : list str) :
  forall (done : list str) (st : list Document * str),
  groups_inv chunk_size splitter_tag done st ->
  groups_inv chunk_size splitter_tag (done ++ lines)
    (fold_left (loop_body chunk_size splitter_tag) lines st).
Proof.
  induction lines as [|line lines IH]; intros done st Hinv; simpl.
  - rewrite app_nil_r. exact Hinv.
  - replace (done ++ line :: lines) with ((done ++ [line]) ++ lines)
      by (rewrite <- app_assoc; reflexivity).
    apply IH, loop_body_groups, Hinv.
Qed.

(** The buffer of a run of lines that is not empty starts with a
    visible character and ends with a visible character and the tag. *)
Lemma buffer_of_shape (splitter_tag : str) (g0 : list str) (line : str) :
  Forall line_ok (g0 ++ [line]) ->
  exists h m l,
    buffer_of splitter_tag (g0 ++ [line]) = (h :: m ++ [l]) ++ splitter_tag
    /\ isspace h = false /\ isspace l = false.
Proof.
  intros Hok. apply Forall_app in Hok. destruct Hok as [H0 Hline].
  apply Forall_cons in Hline. destruct Hline as [(h & m & l & -> & Hh & Hl) _].
  rewrite buffer_of_snoc.
  destruct g0 as [|x g0'].
  - exists h, m, l. split; [reflexivity|]. split; assumption.
  - apply Forall_cons in H0. destruct H0 as [(hx & mx & lx & -> & Hhx & _) _].
    exists hx, ((mx ++ [lx]) ++ splitter_tag
                ++ buffer_of splitter_tag g0' ++ h :: m), l.
    split; [|split; assumption].
    unfold buffer_of. simpl.
    repeat (rewrite <- app_assoc; simpl). reflexivity.
Qed.

(** Stripping the buffer of such a run removes the white space at the
    end of the tag and nothing else. *)
Lemma strip_buffer_of_length (splitter_tag : str) (g0 : list str)
    (line : str) :
  Forall line_ok (g0 ++ [line]) ->
  Z.of_nat (length (strip (buffer_of splitter_tag (g0 ++ [line]))))
  = Z.of_nat (length (buffer_of splitter_tag (g0 ++ [line])))
    - Z.of_nat (trailing_space splitter_tag).
Proof.
  intros Hok.
  destruct (buffer_of_shape splitter_tag g0 line Hok)
    as (h & m & l & -> & Hh & Hl).
  rewrite (strip_buffer_exact h l m splitter_tag Hh Hl).
  unfold trailing_space. pose proof (rstrip_length_le splitter_tag) as Hle.
  rewrite !length_app. lia.
Qed.

(** C1 (as amended): the chunks that [process_simpler_splitter] returns
    are the stripped buffers of consecutive runs of the surviving lines,
    in order, followed by the stripped rest; every run before the rest
    ends with the first line that brings the buffer (each line followed
    by the tag) to [chunk_size]. So every chunk before the last one
    comes from a buffer of at least [chunk_size] characters and has
    exactly the length of that buffer minus the white space at the end
    of the tag: at least [chunk_size] when the tag does not end in white
    space, and at least [chunk_size - 1] for the newline tag. *)
Theorem chunk_size_bound_before_strip (texts : list str)
    (metadatas : list (list (str * str))) (chunk_size : Z)
    (splitter_tag : str) (chunks : list Document) :
  process_simpler_splitter texts metadatas chunk_size splitter_tag = Ok chunks ->
  exists segments groups rest,
    split (join (py " ") texts) splitter_tag = Ok segments
    /\ concat groups ++ rest = surviving_lines segments
    /\ chunks
       = map (fun g => mkDocument (strip (buffer_of splitter_tag g)) []) groups
         ++ [mkDocument (strip (buffer_of splitter_tag rest)) []]
    /\ Forall (emitting_group chunk_size splitter_tag) groups
    /\ (rest = []
        \/ Z.of_nat (length (buffer_of splitter_tag rest)) < chunk_size)
    /\ forall (i : nat) (d : Document),
         (i + 1 < length chunks)%nat ->
         chunks !! i = Some d ->
         exists g,
           groups !! i = Some g
           /\ page_content d = strip (buffer_of splitter_tag g)
           /\ chunk_size <= Z.of_nat (length (buffer_of splitter_tag g))
           /\ Z.of_nat (length (page_content d))
              = Z.of_nat (length (buffer_of splitter_tag g))
                - Z.of_nat (trailing_space splitter_tag)
           /\ chunk_size - Z.of_nat (trailing_space splitter_tag)
              <= Z.of_nat (length (page_content d))
           /\ (trailing_space splitter_tag = 0%nat ->
               chunk_size <= Z.of_nat (length (page_content d))).
Proof.
  intros Hrun.
  destruct (split (join (py " ") texts) splitter_tag) as [segments|e] eqn:Hs.
  2:{ unfold process_simpler_splitter in Hrun. rewrite Hs in Hrun. discriminate. }
  rewrite (process_simpler_splitter_shape _ metadatas chunk_size _ _ Hs) in Hrun.
  injection Hrun as <-.
  destruct (loop_fold_groups chunk_size splitter_tag
              (surviving_lines segments) [] ([], []))
    as (groups & rest & Hdone & Hchunks & Hcur & Hgroups & Hrest).
  { exists [], []. repeat split; try reflexivity.
    - apply Forall_nil; exact I.
    - left; reflexivity. }
  fold (loop chunk_size splitter_tag (surviving_lines segments))
    in Hchunks, Hcur.
  simpl in Hdone. rewrite Hchunks, Hcur.
  exists segments, groups, rest.
  split; [reflexivity|]. split; [exact Hdone|]. split; [reflexivity|].
  split; [exact Hgroups|]. split; [exact Hrest|].
  intros i d Hi Hd.
  rewrite length_app, length_map in Hi. simpl in Hi.
  rewrite lookup_app_l in Hd by (rewrite length_map; lia).
  rewrite list_lookup_fmap in Hd.
  destruct (groups !! i) as [g|] eqn:Hg; [|discriminate].
  injection Hd as <-. exists g. split; [reflexivity|].
  cbn [page_content]. split; [reflexivity|].
  assert (Hok : Forall line_ok g).
  { pose proof (surviving_lines_ok segments) as Hall.
    rewrite <- Hdone in Hall. apply Forall_app in Hall.
    destruct Hall as [Hall _]. rewrite Forall_concat in Hall.
    rewrite Forall_forall in Hall. apply Hall.
    apply list_elem_of_lookup. exists i. exact Hg. }
  rewrite Forall_forall in Hgroups.
  destruct (Hgroups g) as (g0 & line & -> & Hge & _).
  { apply list_elem_of_lookup. exists i. exact Hg. }
  pose proof (strip_buffer_of_length splitter_tag g0 line Hok) as Hlen.
  split; [exact Hge|]. split; [exact Hlen|]. split; lia.
Qed.

(** An input on which C1 (as amended) applies: the text [ab] with the
    newline tag and [chunk_size = 3]. *)
Lemma chunk_size_bound_before_strip_witness :
  exists segments groups rest,
    split (join (py " ") [py "ab"]) [10%N] = Ok segments
    /\ concat groups ++ rest = surviving_lines segments
    /\ [mkDocument (py "ab") []; mkDocument [] []]
       = map (fun g => mkDocument (strip (buffer_of [10%N] g)) []) groups
         ++ [mkDocument (strip (buffer_of [10%N] rest)) []]
    /\ Forall (emitting_group 3 [10%N]) groups
    /\ (rest = [] \/ Z.of_nat (length (buffer_of [10%N] rest)) < 3)
    /\ forall (i : nat) (d : Document),
         (i + 1 < length [mkDocument (py "ab") []; mkDocument [] []])%nat ->
         [mkDocument (py "ab") []; mkDocument [] []] !! i = Some d ->
         exists g,
           groups !! i = Some g
           /\ page_content d = strip (buffer_of [10%N] g)
           /\ 3 <= Z.of_nat (length (buffer_of [10%N] g))
           /\ Z.of_nat (length (page_content d))
              = Z.of_nat (length (buffer_of [10%N] g))
                - Z.of_nat (trailing_space [10%N])
           /\ 3 - Z.of_nat (trailing_space [10%N])
              <= Z.of_nat (length (page_content d))
           /\ (trailing_space [10%N] = 0%nat ->
               3 <= Z.of_nat (length (page_content d))).
Proof.
  apply (chunk_size_bound_before_strip [py "ab"] [[]] 3 [10%N]
           [mkDocument (py "ab") []; mkDocument [] []]).
  vm_compute. reflexivity.
Defined.

(** The white space at the end of some tags; and with the tag [|] the
    text [ab|cd] and [chunk_size = 3] give chunks of three characters. *)
Example trailing_space_of_tags :
  trailing_space [10%N] = 1%nat
  /\ trailing_space (py "|") = 0%nat
  /\ trailing_space (py " | ") = 1%nat
  /\ process_simpler_splitter [py "ab|cd"] [[]] 3 (py "|")
     = Ok [mkDocument (py "ab|") []; mkDocument (py "cd|") [];
           mkDocument [] []].
Proof. repeat split; vm_compute; reflexivity. Qed.

(** C1 (as stated) fails: with the text [ab], the newline tag and
    [chunk_size = 3] the buffer reaches length 3 and is emitted as the
    first of two chunks, and its stripped content has length 2. *)
Lemma chunk_size_bound_counterexample :
  0 < 3
  /\ process_simpler_splitter [py "ab"] [[]] 3 [10%N]
     = Ok [mkDocument (py "ab") []; mkDocument [] []]
  /\ (0 + 1 < length [mkDocument (py "ab") []; mkDocument [] []])%nat
  /\ [mkDocument (py "ab") []; mkDocument [] []] !! 0%nat
     = Some (mkDocument (py "ab") [])
  /\ ~ 3 <= Z.of_nat (length (strip (page_content (mkDocument (py "ab") [])))).
Proof.
  split; [lia|]. split; [vm_compute; reflexivity|].
  split; [simpl; lia|]. split; [reflexivity|].
  vm_compute. intros H. apply H. reflexivity.
Qed.

(** C2: for a non-empty splitter tag the call returns, and its result is
    the chunks emitted by the loop followed by exactly one more chunk that
    holds the stripped rest of the buffer; the result is never empty, and
    the last chunk can be empty (it is for an empty input, and whenever
    the last line filled the buffer). *)
Theorem final_chunk_always_emitted (texts : list str)
    (metadatas : list (list (str * str))) (chunk_size : Z)
    (splitter_tag : str) :
  splitter_tag <> [] ->
  (exists segments emitted buffer,
      split (join (py " ") texts) splitter_tag = Ok segments
      /\ loop chunk_size splitter_tag (surviving_lines segments)
         = (emitted, buffer)
      /\ process_simpler_splitter texts metadatas chunk_size splitter_tag
         = Ok (emitted ++ [mkDocument (strip buffer) []])
      /\ emitted ++ [mkDocument (strip buffer) []] <> [])
  /\ process_simpler_splitter [] [] chunk_size splitter_tag
     = Ok [mkDocument [] []]
  /\ process_simpler_splitter [py "ab"] [[]] 3 [10%N]
     = Ok [mkDocument (py "ab") []; mkDocument [] []].
Proof.
  intros Hsp. split; [|split].
  - destruct splitter_tag as [|c sp]; [contradiction|].
    eexists. exists (loop chunk_size (c :: sp) (surviving_lines
                       (split_scan (c :: sp) (join (py " ") texts) O []))).1.
    eexists. split; [reflexivity|]. split; [apply surjective_pairing|].
    split.
    + apply process_simpler_splitter_shape. reflexivity.
    + intros H. apply app_eq_nil in H. destruct H as [_ H]. discriminate.
  - destruct splitter_tag as [|c sp]; [contradiction|].
    reflexivity.
  - vm_compute. reflexivity.
Qed.

Lemma final_chunk_always_emitted_witness :
  (exists segments emitted buffer,
      split (join (py " ") [py "ab"]) [10%N] = Ok segments
      /\ loop 3 [10%N] (surviving_lines segments) = (emitted, buffer)
      /\ process_simpler_splitter [py "ab"] [[]] 3 [10%N]
         = Ok (emitted ++ [mkDocument (strip buffer) []])
      /\ emitted ++ [mkDocument (strip buffer) []] <> [])
  /\ process_simpler_splitter [] [] 3 [10%N] = Ok [mkDocument [] []]
  /\ process_simpler_splitter [py "ab"] [[]] 3 [10%N]
     = Ok [mkDocument (py "ab") []; mkDocument [] []].
Proof.
  apply (final_chunk_always_emitted [py "ab"] [[]] 3 [10%N]).
  discriminate.
Defined.

(** ** Collection names *)

Lemma strip_id (s : str) :
  head_nonspace s -> head_nonspace (rev s) -> strip s = s.
Proof.
  intros Hh Hl. unfold strip. rewrite (lstrip_id s Hh).
  unfold rstrip. rewrite (lstrip_id (rev s) Hl). apply rev_involutive.
Qed.

Lemma rev_tail_head_nonspace (x t : str) :
  Forall (fun c => isspace c = false) t -> t <> [] ->
  head_nonspace (rev (x ++ t)).
Proof.
  intros Hall Hne. rewrite rev_app_distr.
  destruct t as [|a t] using rev_ind; [contradiction|].
  rewrite rev_app_distr. simpl.
  apply Forall_app in Hall. destruct Hall as [_ Ha].
  apply Forall_cons in Ha. destruct Ha as [Ha _]. exact Ha.
Qed.

Lemma string_of_uint_nonspace (d : Decimal.uint) :
  Forall (fun c => isspace c = false) (py (NilEmpty.string_of_uint d)).
Proof.
  induction d; simpl;
    first [ apply Forall_nil; exact I
          | apply Forall_cons; split; [vm_compute; reflexivity | exact IHd] ].
Qed.

Lemma str_of_int_nonspace (z : Z) :
  Forall (fun c => isspace c = false) (str_of_int z).
Proof.
  unfold str_of_int. destruct (Z.to_int z) as [d|d]; simpl.
  - apply string_of_uint_nonspace.
  - apply Forall_cons. split; [vm_compute; reflexivity|].
    apply string_of_uint_nonspace.
Qed.

Lemma py_inj (s t : string) : py s = py t -> s = t.
Proof.
  unfold py. intros H.
  assert (Hl : list_ascii_of_string s = list_ascii_of_string t).
  { revert H. generalize (list_ascii_of_string s) (list_ascii_of_string t).
    induction l as [|a l IH]; intros [|b l']; simpl; intros H;
      try discriminate; [reflexivity|].
    injection H as Hab Hl. f_equal; [|apply IH; exact Hl].
    rewrite <- (ascii_N_embedding a), <- (ascii_N_embedding b).
    rewrite Hab. reflexivity. }
  rewrite <- (string_of_list_ascii_of_string s).
  rewrite <- (string_of_list_ascii_of_string t).
  rewrite Hl. reflexivity.
Qed.

Lemma str_of_int_inj (a b : Z) : str_of_int a = str_of_int b -> a = b.
Proof.
  unfold str_of_int. intros H. apply py_inj in H.
  apply DecimalZ.to_int_inj.
  assert (Hs : Some (Z.to_int a) = Some (Z.to_int b)).
  { rewrite <- !NilEmpty.isi. rewrite H. reflexivity. }
  injection Hs as Hs. exact Hs.
Qed.

(** The name is the formatted text itself: stripping removes nothing. *)
Lemma create_collection_name_unfold {P St : Type}
    {VDB : VectorDBInterface P St} (c : NLPController.controller) (project_id : Z) :
  NLPController.create_collection_name c project_id
  = py "Collection_"
    ++ str_of_int (default_vector_size (NLPController.vectordb_client c))
    ++ py "_" ++ str_of_int project_id.
Proof.
  unfold NLPController.create_collection_name. apply strip_id.
  - vm_compute. reflexivity.
  - rewrite app_assoc. apply rev_tail_head_nonspace.
    + apply Forall_app. split; [|apply str_of_int_nonspace].
      apply Forall_cons. split; [vm_compute; reflexivity|].
      apply Forall_nil. exact I.
    + discriminate.
Qed.

(** C7: the collection name is a function of the provider's vector size
    and the project id alone; size 768 and project 7 give
    [Collection_768_7]; and two sizes that differ give two names that
    differ for the same project. *)
Theorem collection_name_format {P St : Type} {VDB : VectorDBInterface P St}
    (c1 c2 : NLPController.controller) (project_id : Z) :
  default_vector_size (NLPController.vectordb_client c1)
  <> default_vector_size (NLPController.vectordb_client c2) ->
  NLPController.create_collection_name c1 project_id
  <> NLPController.create_collection_name c2 project_id
  /\ (default_vector_size (NLPController.vectordb_client c1) = 768 ->
      NLPController.create_collection_name c1 7 = py "Collection_768_7")
  /\ NLPController.create_collection_name c1 project_id
     = py "Collection_"
       ++ str_of_int (default_vector_size (NLPController.vectordb_client c1))
       ++ py "_" ++ str_of_int project_id.
Proof.
  intros Hne. split; [|split].
  - rewrite !create_collection_name_unfold. intros Heq.
    apply app_inv_head in Heq. apply app_inv_tail in Heq.
    apply str_of_int_inj in Heq. contradiction.
  - intros H768. rewrite create_collection_name_unfold, H768.
    vm_compute. reflexivity.
  - apply create_collection_name_unfold.
Qed.

Lemma collection_name_format_witness :
  NLPController.create_collection_name Examples.pg_controller 7
  <> NLPController.create_collection_name Examples.pg_controller_1024 7
  /\ (default_vector_size (NLPController.vectordb_client Examples.pg_controller)
      = 768 ->
      NLPController.create_collection_name Examples.pg_controller 7
      = py "Collection_768_7")
  /\ NLPController.create_collection_name Examples.pg_controller 7
     = py "Collection_"
       ++ str_of_int (default_vector_size
                        (NLPController.vectordb_client Examples.pg_controller))
       ++ py "_" ++ str_of_int 7.
Proof.
  apply (collection_name_format Examples.pg_controller
           Examples.pg_controller_1024 7).
  vm_compute. discriminate.
Defined.

(** ** Search in the PGVector backend *)

#[global] Instance score_desc_total : Total PGVectorProvider.score_desc.
Proof.
  intros a b. unfold PGVectorProvider.score_desc.
  destruct (Qlt_le_dec a.2 b.2) as [Hlt|Hle].
  - right. apply Qlt_le_weak. exact Hlt.
  - left. exact Hle.
Qed.

#[global] Instance score_desc_trans : Transitive PGVectorProvider.score_desc.
Proof.
  intros a b c Hab Hbc. unfold PGVectorProvider.score_desc in *.
  eapply Qle_trans; eassumption.
Qed.

Lemma pg_is_collection_existed_absent (p : PGVectorProvider.provider)
    (name : str) (db : PGVectorProvider.database) :
  PGVectorProvider.tables db !! name = None ->
  PGVectorProvider.is_collection_existed p name db = (Ok None, db).
Proof.
  intros Hn. unfold PGVectorProvider.is_collection_existed,
    PGVectorProvider.transaction, PGVectorProvider.sql_select_pg_tables.
  rewrite Hn. reflexivity.
Qed.

Lemma pg_is_collection_existed_present (p : PGVectorProvider.provider)
    (name : str) (db : PGVectorProvider.database) (t : PGVectorProvider.table) :
  PGVectorProvider.tables db !! name = Some t ->
  PGVectorProvider.is_collection_existed p name db
  = (Ok (Some (py "public")), db).
Proof.
  intros Hn. unfold PGVectorProvider.is_collection_existed,
    PGVectorProvider.transaction, PGVectorProvider.sql_select_pg_tables.
  rewrite Hn. reflexivity.
Qed.

(** X8: in the PGVector backend a search on an absent collection answers
    [False] and changes nothing. *)
Lemma pg_search_absent (cosine_distance : vector -> vector -> Q)
    (p : PGVectorProvider.provider) (name : str) (v : vector) (limit : Z)
    (db : PGVectorProvider.database) :
  PGVectorProvider.tables db !! name = None ->
  PGVectorProvider.search_by_vector cosine_distance p name v limit db
  = (Ok SFalse, db).
Proof.
  intros Hn. unfold PGVectorProvider.search_by_vector, bind.
  rewrite (pg_is_collection_existed_absent p name db Hn). reflexivity.
Qed.

Lemma forallb_dims (v : vector) (l : list PGVectorProvider.row) :
  Forall (fun r => length (PGVectorProvider.row_vector r) = length v) l ->
  forallb (fun r => Nat.eqb (length (PGVectorProvider.row_vector r)) (length v)) l
  = true.
Proof.
  induction 1 as [|r l Hr _ IH]; simpl; [reflexivity|].
  rewrite IH, Hr, Nat.eqb_refl. reflexivity.
Qed.

(** The value of a search on a table whose vectors have the dimension of
    the query. *)
Lemma pg_search_present (cosine_distance : vector -> vector -> Q)
    (p : PGVectorProvider.provider) (name : str) (v : vector) (limit : Z)
    (db : PGVectorProvider.database) (t : PGVectorProvider.table) :
  PGVectorProvider.tables db !! name = Some t ->
  0 <= limit -> v <> [] ->
  Forall (fun r => length (PGVectorProvider.row_vector r) = length v)
         (PGVectorProvider.rows t) ->
  PGVectorProvider.search_by_vector cosine_distance p name v limit db
  = (Ok (SDocs (map (fun record => mkRetrievedDocument record.1 record.2)
                  (take (Z.to_nat limit)
                     (merge_sort PGVectorProvider.score_desc
                        (scored_rows cosine_distance t v))))), db).
Proof.
  intros Ht Hlim Hv Hdims.
  unfold PGVectorProvider.search_by_vector, bind.
  rewrite (pg_is_collection_existed_present p name db t Ht). simpl.
  unfold PGVectorProvider.transaction, bind, PGVectorProvider.sql_search.
  rewrite Ht.
  assert (Hl : (limit <? 0) = false) by (apply Z.ltb_ge; exact Hlim).
  rewrite Hl.
  assert (Hv0 : Nat.eqb (length v) 0 = false)
    by (destruct v; [contradiction | reflexivity]).
  rewrite Hv0, (forallb_dims v _ Hdims). reflexivity.
Qed.

(** C10: in the PGVector backend the result of [search_by_vector] is the
    same whatever distance method the provider was built with; on a table
    whose vectors fit the query it returns the first [limit] rows of an
    ordering of all rows by decreasing score, where the score of a row is
    1 minus the cosine distance between its vector and the query. *)
Theorem pg_search_ranks_by_cosine (cosine_distance : vector -> vector -> Q)
    (size threshold : Z) (dm1 dm2 : option str) (name : str) (v : vector)
    (limit : Z) (db : PGVectorProvider.database) (t : PGVectorProvider.table) :
  PGVectorProvider.tables db !! name = Some t ->
  0 <= limit -> v <> [] ->
  Forall (fun r => length (PGVectorProvider.row_vector r) = length v)
         (PGVectorProvider.rows t) ->
  PGVectorProvider.search_by_vector cosine_distance
    (PGVectorProvider.init size dm1 threshold) name v limit db
  = PGVectorProvider.search_by_vector cosine_distance
      (PGVectorProvider.init size dm2 threshold) name v limit db
  /\ exists ranked : list (str * Q),
       ranked ≡ₚ map (fun r => (PGVectorProvider.row_text r,
                                (1 - cosine_distance
                                       (PGVectorProvider.row_vector r) v)%Q))
                     (PGVectorProvider.rows t)
       /\ StronglySorted (fun a b => (b.2 <= a.2)%Q) ranked
       /\ PGVectorProvider.search_by_vector cosine_distance
            (PGVectorProvider.init size dm1 threshold) name v limit db
          = (Ok (SDocs (map (fun record =>
                               mkRetrievedDocument record.1 record.2)
                            (take (Z.to_nat limit) ranked))), db).
Proof.
  intros Ht Hlim Hv Hdims. split; [reflexivity|].
  exists (merge_sort PGVectorProvider.score_desc
            (scored_rows cosine_distance t v)).
  split; [|split].
  - apply merge_sort_Permutation.
  - apply (StronglySorted_merge_sort PGVectorProvider.score_desc).
  - apply pg_search_present; assumption.
Qed.

Lemma pg_search_ranks_by_cosine_witness :
  PGVectorProvider.search_by_vector Examples.cosine_distance
    (PGVectorProvider.init 768 (Some (py "cosine")) 100) (py "d")
    [1%Q; 0%Q] 5 Examples.pg_two_rows
  = PGVectorProvider.search_by_vector Examples.cosine_distance
      (PGVectorProvider.init 768 (Some (py "dot")) 100) (py "d")
      [1%Q; 0%Q] 5 Examples.pg_two_rows
  /\ exists ranked : list (str * Q),
       ranked ≡ₚ map (fun r => (PGVectorProvider.row_text r,
                                (1 - Examples.cosine_distance
                                       (PGVectorProvider.row_vector r)
                                       [1%Q; 0%Q])%Q))
                     Examples.two_rows
       /\ StronglySorted (fun a b => (b.2 <= a.2)%Q) ranked
       /\ PGVectorProvider.search_by_vector Examples.cosine_distance
            (PGVectorProvider.init 768 (Some (py "cosine")) 100) (py "d")
            [1%Q; 0%Q] 5 Examples.pg_two_rows
          = (Ok (SDocs (map (fun record =>
                               mkRetrievedDocument record.1 record.2)
                            (take (Z.to_nat 5) ranked))), Examples.pg_two_rows).
Proof.
  apply (pg_search_ranks_by_cosine Examples.cosine_distance 768 100
           (Some (py "cosine")) (Some (py "dot")) (py "d") [1%Q; 0%Q] 5
           Examples.pg_two_rows
           (PGVectorProvider.mkTable 2 Examples.two_rows 3 [])).
  - reflexivity.
  - lia.
  - discriminate.
  - repeat constructor.
Defined.

(** The row [b], whose vector is the query, comes before the row [a],
    whose vector is orthogonal to it. *)
Example pg_search_two_rows :
  exists sb sa : Q,
    PGVectorProvider.search_by_vector Examples.cosine_distance
      Examples.pg_provider (py "d") [1%Q; 0%Q] 5 Examples.pg_two_rows
    = (Ok (SDocs [mkRetrievedDocument (py "b") sb;
                  mkRetrievedDocument (py "a") sa]),
       Examples.pg_two_rows)
    /\ (sb == 1)%Q /\ (sa == 0)%Q.
Proof.
  eexists. eexists. split; [vm_compute; reflexivity|].
  split; reflexivity.
Qed.

(** The distance method reaches the index: with a threshold of 0 the
    index built after an insertion names the operator class that
    [__init__] derived from it. *)
Example pg_index_opclass_follows_distance_method :
  (PGVectorProvider.indexes
     <$> PGVectorProvider.tables
           (PGVectorProvider.create_vector_index
              (PGVectorProvider.init 768 (Some (py "cosine")) 0) (py "d")
              (py "hnsw") Examples.pg_two_rows).2 !! py "d")
  = Some [PGVectorProvider.mkIndex (py "d_vector_idx") (py "hnsw")
            (py "vector_cosine_ops")]
  /\ (PGVectorProvider.indexes
        <$> PGVectorProvider.tables
              (PGVectorProvider.create_vector_index
                 (PGVectorProvider.init 768 (Some (py "dot")) 0) (py "d")
                 (py "hnsw") Examples.pg_two_rows).2 !! py "d")
     = Some [PGVectorProvider.mkIndex (py "d_vector_idx") (py "hnsw")
               (py "vector_l2_ops")].
Proof. split; vm_compute; reflexivity. Qed.

(** ** Search on a collection that was never created *)

(** In the PGVector backend the retrieval layer answers [False] both for
    an absent collection and for a collection without rows, and the
    search route sends the same response for both. *)
Lemma pg_retrieval_absent_like_no_match :
  NLPController.search_vector_db_collection Examples.pg_controller
    (NLPController.mkProject 7) (py "q") 5 Examples.pg_empty
  = (Ok SFalse, Examples.pg_empty)
  /\ (forall limit,
        0 <= limit ->
        PGVectorProvider.search_by_vector Examples.cosine_distance
          Examples.pg_provider (py "c") [1%Q] limit Examples.pg_with_c
        = (Ok (SDocs []), Examples.pg_with_c))
  /\ Routes.search_index Examples.pg_controller 7
       (Routes.mkSearchRequest (py "q") 5)
       (NLPController.mkWorld Examples.pg_empty ∅)
     = (Ok (Routes.mkJSONResponse 400 (Routes.Signal Routes.VECTORDB_SEARCH_ERROR)),
        NLPController.mkWorld Examples.pg_empty ∅).
Proof.
  split; [|split].
  - vm_compute. reflexivity.
  - intros limit Hl.
    rewrite (pg_search_present _ _ _ _ _ _ (PGVectorProvider.mkTable 1 [] 1 []));
      [ | reflexivity | exact Hl | discriminate | apply Forall_nil; exact I ].
    destruct (Z.to_nat limit); reflexivity.
  - vm_compute. reflexivity.
Qed.

Lemma qdrant_search_absent (similarity : QdrantDBProvider.Distance ->
                                          vector -> vector -> Q)
    (p : QdrantDBProvider.provider) (name : str) (v : vector) (limit : Z)
    (st : QdrantDBProvider.store) :
  st !! name = None ->
  QdrantDBProvider.search_by_vector similarity p name v limit st
  = (Raise (ValueError "collection not found"), st).
Proof.
  intros Hn. unfold QdrantDBProvider.search_by_vector, bind,
    QdrantDBProvider.client_search.
  rewrite Hn. reflexivity.
Qed.

(** C3 (the code at the failing input): in the Qdrant backend
    [search_by_vector] on a store without any collection raises the
    client's error instead of returning a value, for every name, vector
    and limit; the retrieval layer and the search route let it through. *)
Theorem qdrant_search_never_created_raises
    (similarity : QdrantDBProvider.Distance -> vector -> vector -> Q)
    (p : QdrantDBProvider.provider) (name : str) (v : vector) (limit : Z) :
  QdrantDBProvider.search_by_vector similarity p name v limit ∅
  = (Raise (ValueError "collection not found"), ∅)
  /\ NLPController.search_vector_db_collection Examples.qdrant_controller
       (NLPController.mkProject 7) (py "q") 5 ∅
     = (Raise (ValueError "collection not found"), ∅)
  /\ Routes.search_index Examples.qdrant_controller 7
       (Routes.mkSearchRequest (py "q") 5) (NLPController.mkWorld ∅ ∅)
     = (Raise (ValueError "collection not found"), NLPController.mkWorld ∅ ∅).
Proof.
  split; [|split].
  - apply qdrant_search_absent. apply lookup_empty.
  - vm_compute. reflexivity.
  - vm_compute. reflexivity.
Qed.

(** ** Reset of a collection *)

(** X6: in the PGVector backend a reset drops the table and creates it
    again: the collection is present afterwards and has no rows. *)
Lemma pg_create_collection_reset (p : PGVectorProvider.provider) (name : str)
    (embedding_size : Z) (db : PGVectorProvider.database) :
  1 <= embedding_size <= 16000 ->
  exists db',
    PGVectorProvider.create_collection p name embedding_size true db
    = (Ok true, db')
    /\ PGVectorProvider.get_collection_info p name db' = (Ok (Some (name, 0)), db').
Proof.
  intros Hsize.
  unfold PGVectorProvider.create_collection, PGVectorProvider.delete_collection,
    PGVectorProvider.is_collection_existed, PGVectorProvider.transaction,
    PGVectorProvider.sql_drop_table_if_exists,
    PGVectorProvider.sql_select_pg_tables, PGVectorProvider.sql_create_table,
    bind, ret. cbn [PGVectorProvider.tables PGVectorProvider.chunks].
  rewrite lookup_delete_eq. cbn.
  rewrite lookup_delete_eq.
  assert (Hs : (1 <=? embedding_size) && (embedding_size <=? 16000) = true).
  { apply andb_true_intro. split; apply Z.leb_le; lia. }
  rewrite Hs. eexists. split; [reflexivity|].
  unfold PGVectorProvider.get_collection_info, PGVectorProvider.transaction,
    PGVectorProvider.sql_select_pg_tables, PGVectorProvider.sql_count, bind, ret.
  cbn [PGVectorProvider.tables]. rewrite lookup_insert_eq. cbn.
  rewrite lookup_insert_eq. reflexivity.
Qed.

(** C4 (the code at the failing input): in the Qdrant backend
    [create_collection] answers [False] and leaves the store as it was,
    for every argument, because neither the deletion nor the existence
    test is awaited; after a reset of the collection [c] that holds one
    point, [c] still holds that point. *)
Theorem qdrant_create_collection_reset_keeps_points
    (p : QdrantDBProvider.provider) (name : str) (embedding_size : Z)
    (do_reset : bool) (st : QdrantDBProvider.store) :
  QdrantDBProvider.create_collection p name embedding_size do_reset st
  = (Ok false, st)
  /\ (QdrantDBProvider.create_collection Examples.qdrant_provider (py "c") 1
        true Examples.qdrant_with_point).2 !! py "c"
     = Some (QdrantDBProvider.mkCollection 1 QdrantDBProvider.COSINE
               {[ 1 := QdrantDBProvider.mkRecord 1 [1%Q] (py "t")
                         QdrantDBProvider.MetaNone ]}).
Proof.
  split; [reflexivity|]. vm_compute. reflexivity.
Qed.

(** ** Vectors and record ids of different lengths *)

(** X9: in the PGVector backend [insert_many] with vectors and record
    ids of different lengths answers [False] and writes nothing. *)
Lemma pg_insert_many_length_mismatch (p : PGVectorProvider.provider)
    (name : str) (texts : list str) (vectors : list vector)
    (metadata : option (list metadata_item)) (record_ids : list Z)
    (batch_size : Z) (db : PGVectorProvider.database) :
  length vectors <> length record_ids ->
  PGVectorProvider.insert_many p name texts vectors metadata (Some record_ids)
    batch_size db
  = (Ok false, db).
Proof.
  intros Hne. unfold PGVectorProvider.insert_many, bind.
  destruct (PGVectorProvider.tables db !! name) as [t|] eqn:Ht.
  - rewrite (pg_is_collection_existed_present p name db t Ht). simpl.
    apply Nat.eqb_neq in Hne. rewrite Hne. reflexivity.
  - rewrite (pg_is_collection_existed_absent p name db Ht). reflexivity.
Qed.

(** C6 (the code at the failing input): in the Qdrant backend a call
    with one text, one vector and two record ids answers [True] and
    writes the point with the first id. *)
Theorem qdrant_insert_many_length_mismatch_accepted :
  length [[1%Q]] <> length [1; 2]
  /\ QdrantDBProvider.insert_many Examples.qdrant_provider (py "c") [py "t"]
       [[1%Q]] (Some [None]) (Some [1; 2]) 50 Examples.qdrant_with_c
     = (Ok true, Examples.qdrant_with_point).
Proof.
  split; [discriminate|]. vm_compute. reflexivity.
Qed.

(** ** An answer request that retrieves nothing *)

(** When [answer_rag_question] returns [None] the route raises while it
    unpacks the result. *)
Lemma answer_rag_unpacks_none {P St : Type} {VDB : VectorDBInterface P St}
    (app : NLPController.controller) (project_id : Z)
    (search_request : Routes.SearchRequest) (w w' : NLPController.world St) :
  NLPController.answer_rag_question app (NLPController.mkProject project_id)
    (Routes.text search_request) (Routes.limit search_request) w
  = (Ok None, w') ->
  Routes.answer_rag app project_id search_request w
  = (Raise (TypeError "cannot unpack non-iterable NoneType object"), w').
Proof.
  intros Hq. unfold Routes.answer_rag, Routes.get_or_create_project, bind.
  rewrite Hq. reflexivity.
Qed.

(** When the retrieval layer has nothing, [answer_rag_question] returns
    [None]. *)
Lemma answer_rag_question_no_documents {P St : Type}
    {VDB : VectorDBInterface P St} (app : NLPController.controller)
    (project : NLPController.Project) (query : str) (limit : Z)
    (w : NLPController.world St) (st' : St) :
  NLPController.search_vector_db_collection app project query limit
    (NLPController.vdb w) = (Ok SFalse, st') ->
  NLPController.answer_rag_question app project query limit w
  = (Ok None, NLPController.mkWorld st' (NLPController.lists w)).
Proof.
  intros Hs. unfold NLPController.answer_rag_question, bind,
    NLPController.on_vdb.
  rewrite Hs. reflexivity.
Qed.

(** C8 (the code at the failing input): with the PGVector backend and no
    collection for the project, retrieval yields nothing,
    [answer_rag_question] returns [None], and the route [answer_rag]
    raises a [TypeError] instead of sending the error response. *)
Theorem answer_rag_no_documents_raises :
  NLPController.answer_rag_question Examples.pg_controller
    (NLPController.mkProject 7) (py "q") 5
    (NLPController.mkWorld Examples.pg_empty ∅)
  = (Ok None, NLPController.mkWorld Examples.pg_empty ∅)
  /\ Routes.answer_rag Examples.pg_controller 7
       (Routes.mkSearchRequest (py "q") 5)
       (NLPController.mkWorld Examples.pg_empty ∅)
     = (Raise (TypeError "cannot unpack non-iterable NoneType object"),
        NLPController.mkWorld Examples.pg_empty ∅).
Proof.
  assert (Hq : NLPController.answer_rag_question Examples.pg_controller
                 (NLPController.mkProject 7) (py "q") 5
                 (NLPController.mkWorld Examples.pg_empty ∅)
               = (Ok None, NLPController.mkWorld Examples.pg_empty ∅)).
  { apply (answer_rag_question_no_documents Examples.pg_controller).
    vm_compute. reflexivity. }
  split; [exact Hq|].
  apply (answer_rag_unpacks_none Examples.pg_controller 7
           (Routes.mkSearchRequest (py "q") 5)).
  exact Hq.
Qed.

(** ** The chat history handed to [generate_text] *)

(** C9 (as amended): when the client and the generation model are set,
    [generate_text] appends the user-role message with the prompt to the
    very list object that the caller passed, whose earlier elements stay
    as they were and in order, and it touches no other list; when the
    client or the model is missing it leaves every list as it was. *)
Theorem generate_text_appends_in_place (p : OpenAIProvider.provider)
    (prompt : str) (chat_history : nat) (max_output_tokens : option Z)
    (temperature : option Q) (h : OpenAIProvider.heap)
    (xs : list OpenAIProvider.message) :
  h !! chat_history = Some xs ->
  (OpenAIProvider.generate_text p prompt chat_history max_output_tokens
     temperature h).2
  = match OpenAIProvider.client p, OpenAIProvider.generation_model_id p with
    | Some _, Some (_ :: _) =>
        <[chat_history :=
            xs ++ [OpenAIProvider.mkMessage OpenAIProvider.USER (Some prompt)]]> h
    | _, _ => h
    end.
Proof.
  intros Hl. unfold OpenAIProvider.generate_text.
  destruct (OpenAIProvider.client p) as [create|]; [|reflexivity].
  destruct (OpenAIProvider.generation_model_id p) as [[|c model]|];
    [reflexivity | | reflexivity].
  unfold bind, OpenAIProvider.list_append, OpenAIProvider.list_read.
  rewrite Hl. rewrite lookup_insert_eq.
  unfold OpenAIProvider.construct_prompt.
  destruct (create _ _ _ _) as [[[|[[content|]] choices]|]|e]; reflexivity.
Qed.

Lemma generate_text_appends_in_place_witness :
  (OpenAIProvider.generate_text Examples.generation_client (py "hi") 0 None
     None Examples.one_list).2
  = <[0%nat :=
        [OpenAIProvider.mkMessage OpenAIProvider.SYSTEM (Some (py "sys"))]
        ++ [OpenAIProvider.mkMessage OpenAIProvider.USER (Some (py "hi"))]]>
      Examples.one_list.
Proof.
  apply (generate_text_appends_in_place Examples.generation_client (py "hi")
           0 None None Examples.one_list
           [OpenAIProvider.mkMessage OpenAIProvider.SYSTEM (Some (py "sys"))]).
  reflexivity.
Defined.

(** C9 (as stated) fails: the caller's list at address 0 holds one
    message before the call and two after it. *)
Lemma generate_text_mutates_counterexample :
  Examples.one_list !! 0%nat
  = Some [OpenAIProvider.mkMessage OpenAIProvider.SYSTEM (Some (py "sys"))]
  /\ (OpenAIProvider.generate_text Examples.generation_client (py "hi") 0 None
        None Examples.one_list).2 !! 0%nat
     = Some [OpenAIProvider.mkMessage OpenAIProvider.SYSTEM (Some (py "sys"));
             OpenAIProvider.mkMessage OpenAIProvider.USER (Some (py "hi"))]
  /\ (OpenAIProvider.generate_text Examples.generation_client (py "hi") 0 None
        None Examples.one_list).2 !! 0%nat
     <> Examples.one_list !! 0%nat.
Proof.
  split; [|split].
  - vm_compute. reflexivity.
  - vm_compute. reflexivity.
  - vm_compute. discriminate.
Qed.

(** ** Inserting the same batch twice *)

Lemma insert_row_count (name : str) (v : PGVectorProvider.insert_values)
    (db db' : PGVectorProvider.database) :
  PGVectorProvider.insert_row name v db = (Ok tt, db') ->
  row_count db' name = S (row_count db name).
Proof.
  unfold PGVectorProvider.insert_row, row_count.
  destruct (PGVectorProvider.tables db !! name) as [t|]; [|discriminate].
  destruct (negb _); [discriminate|].
  destruct (negb _); [discriminate|].
  intros H. injection H as <-. cbn [PGVectorProvider.tables].
  rewrite lookup_insert_eq. cbn [PGVectorProvider.rows].
  rewrite length_app. simpl. lia.
Qed.

Lemma for_each_insert_row_count (name : str)
    (values : list PGVectorProvider.insert_values) :
  forall db db',
  for_each values (PGVectorProvider.insert_row name) db = (Ok tt, db') ->
  row_count db' name = (row_count db name + length values)%nat.
Proof.
  induction values as [|v values IH]; intros db db' H; simpl in H.
  - injection H as <-. simpl. lia.
  - unfold bind in H.
    destruct (PGVectorProvider.insert_row name v db) as [[[]|e] db1] eqn:E;
      [|discriminate].
    apply insert_row_count in E. apply IH in H. rewrite H, E. simpl. lia.
Qed.

Lemma sql_insert_many_count (name : str)
    (values : list PGVectorProvider.insert_values)
    (db db' : PGVectorProvider.database) :
  PGVectorProvider.sql_insert_many name values db = (Ok tt, db') ->
  row_count db' name = (row_count db name + length values)%nat.
Proof.
  destruct values as [|v values]; [discriminate|].
  apply for_each_insert_row_count.
Qed.

Lemma batches_count (name : str)
    (batch : Z -> list PGVectorProvider.insert_values) (starts : list Z) :
  forall db db',
  for_each starts (fun i => PGVectorProvider.sql_insert_many name (batch i)) db
  = (Ok tt, db') ->
  row_count db' name
  = (row_count db name + sum_list (map (fun i => length (batch i)) starts))%nat.
Proof.
  induction starts as [|i starts IH]; intros db db' H; simpl in H.
  - injection H as <-. simpl. lia.
  - unfold bind in H.
    destruct (PGVectorProvider.sql_insert_many name (batch i) db)
      as [[[]|e] db1] eqn:E; [|discriminate].
    apply sql_insert_many_count in E. apply IH in H.
    rewrite H, E. simpl. lia.
Qed.

Lemma transaction_ok {A} (m : M PGVectorProvider.database A)
    (db db' : PGVectorProvider.database) (a : A) :
  PGVectorProvider.transaction m db = (Ok a, db') -> m db = (Ok a, db').
Proof.
  unfold PGVectorProvider.transaction.
  destruct (m db) as [[a'|e] db1]; [|discriminate].
  intros H. exact H.
Qed.

(** Building the index never touches the rows. *)
Lemma create_vector_index_count (p : PGVectorProvider.provider)
    (name itype : str) (db db' : PGVectorProvider.database)
    (r : result (option bool)) (other : str) :
  PGVectorProvider.create_vector_index p name itype db = (r, db') ->
  row_count db' other = row_count db other.
Proof.
  unfold PGVectorProvider.create_vector_index, PGVectorProvider.is_index_existed,
    PGVectorProvider.transaction, PGVectorProvider.sql_select_pg_indexes,
    PGVectorProvider.sql_count, PGVectorProvider.sql_create_index, bind, ret.
  destruct (PGVectorProvider.tables db !! name) as [t|] eqn:Ht.
  2:{ simpl. rewrite Ht. intros H. injection H as _ <-. reflexivity. }
  destruct (existsb _ _) eqn:Ex; simpl.
  { intros H. injection H as _ <-. reflexivity. }
  rewrite Ht. destruct (_ <? _).
  { intros H. injection H as _ <-. reflexivity. }
  rewrite Ht. destruct (negb _).
  { intros H. injection H as _ <-. reflexivity. }
  destruct (negb _).
  { intros H. injection H as _ <-. reflexivity. }
  rewrite Ex. destruct (2000 <? _).
  { intros H. injection H as _ <-. reflexivity. }
  intros H. injection H as _ <-.
  unfold row_count. cbn [PGVectorProvider.tables].
  destruct (decide (name = other)) as [<-|Hne].
  - rewrite lookup_insert_eq, Ht. reflexivity.
  - rewrite lookup_insert_ne by exact Hne. reflexivity.
Qed.

(** Cutting a list into pieces of [b] elements loses nothing. *)
Lemma pieces_length {A} (b : nat) :
  (0 < b)%nat ->
  forall (n : nat) (l : list A),
  (length l <= n * b)%nat ->
  sum_list (map (fun k => length (take b (drop (k * b) l))) (seq 0 n))
  = length l.
Proof.
  intros Hb. induction n as [|n IH]; intros l Hl.
  - simpl in *. lia.
  - rewrite <- cons_seq, <- fmap_S_seq. simpl.
    rewrite drop_0.
    change (map ?f (S <$> ?l)) with (map f (map S l)).
    rewrite map_map.
    rewrite (map_ext _ (fun k => length (take b (drop (k * b) (drop b l))))).
    2:{ intros k. rewrite drop_drop. repeat f_equal; lia. }
    rewrite IH by (rewrite length_drop; lia).
    rewrite length_take, length_drop. lia.
Qed.

Lemma batch_values_length (a : list str) (b : list vector)
    (c : list metadata_item) (d : list Z) :
  length (PGVectorProvider.batch_values a b c d)
  = Nat.min (Nat.min (Nat.min (length a) (length b)) (length c)) (length d).
Proof.
  unfold PGVectorProvider.batch_values.
  rewrite length_map, !length_zip. reflexivity.
Qed.

Lemma slice_length {A} (l : list A) (i j : Z) :
  length (slice l i j)
  = Nat.min (Z.to_nat (j - i)) (length l - Z.to_nat i).
Proof. unfold slice. rewrite length_take, length_drop. reflexivity. Qed.

(** A successful run of the batch loop on lists of one length adds one
    row per text. *)
Lemma pg_insert_batches_count (name : str) (texts : list str)
    (vectors : list vector) (md : list metadata_item) (record_ids : list Z)
    (batch_size : Z) (db db' : PGVectorProvider.database) :
  length texts = length vectors ->
  length vectors = length record_ids ->
  length md = length texts ->
  0 < batch_size ->
  PGVectorProvider.insert_batches name texts vectors md record_ids batch_size db
  = (Ok tt, db') ->
  row_count db' name = (row_count db name + length texts)%nat.
Proof.
  intros Htv Hvr Hmd Hb Etx.
  unfold PGVectorProvider.insert_batches, range0 in Etx.
  assert (Hb0 : (batch_size =? 0) = false) by (apply Z.eqb_neq; lia).
  assert (Hb1 : (batch_size <? 0) = false) by (apply Z.ltb_ge; lia).
  rewrite Hb0, Hb1 in Etx.
  apply (batches_count name
           (fun i => PGVectorProvider.batch_values
                       (slice texts i (i + batch_size))
                       (slice vectors i (i + batch_size))
                       (slice md i (i + batch_size))
                       (slice record_ids i (i + batch_size)))) in Etx.
  rewrite Etx. f_equal.
  rewrite map_map.
  rewrite (map_ext _ (fun k => length (take (Z.to_nat batch_size)
                                         (drop (k * Z.to_nat batch_size) texts)))).
  - apply pieces_length; [lia|].
    pose proof (Z.div_mod (Z.of_nat (length texts) + batch_size - 1) batch_size)
      as Hdm.
    pose proof (Z.mod_pos_bound (Z.of_nat (length texts) + batch_size - 1)
                  batch_size Hb) as Hmod.
    assert (Hq : 0 <= (Z.of_nat (length texts) + batch_size - 1) / batch_size)
      by (apply Z.div_pos; lia).
    nia.
  - intros k. rewrite batch_values_length, !slice_length.
    rewrite length_take, length_drop.
    replace (Z.to_nat (Z.of_nat k * batch_size + batch_size
                       - Z.of_nat k * batch_size))
      with (Z.to_nat batch_size) by (f_equal; lia).
    replace (Z.to_nat (Z.of_nat k * batch_size))
      with (k * Z.to_nat batch_size)%nat by nia.
    lia.
Qed.

(** A successful [insert_many] of a well-formed batch adds one row per
    text. *)
Lemma pg_insert_many_count (p : PGVectorProvider.provider) (name : str)
    (texts : list str) (vectors : list vector)
    (metadata : option (list metadata_item)) (record_ids : list Z)
    (batch_size : Z) (db db' : PGVectorProvider.database) :
  length texts = length vectors ->
  length vectors = length record_ids ->
  metadata_fits metadata texts ->
  0 < batch_size ->
  PGVectorProvider.insert_many p name texts vectors metadata (Some record_ids)
    batch_size db = (Ok true, db') ->
  row_count db' name = (row_count db name + length texts)%nat.
Proof.
  intros Htv Hvr Hm Hb H.
  unfold PGVectorProvider.insert_many, bind in H.
  destruct (PGVectorProvider.tables db !! name) as [t|] eqn:Ht.
  2:{ rewrite (pg_is_collection_existed_absent p name db Ht) in H.
      discriminate. }
  rewrite (pg_is_collection_existed_present p name db t Ht) in H.
  change (PGVectorProvider.record_truthy (Some (py "public"))) with true in H.
  cbn [negb] in H.
  rewrite <- Hvr, Nat.eqb_refl in H. cbn [negb] in H.
  match type of H with
  | context [PGVectorProvider.insert_batches name texts vectors ?m _ _] =>
      assert (Hmd : length m = length texts)
        by (destruct metadata as [[|x m']|]; cbn [metadata_fits] in Hm;
            [apply length_replicate | exact Hm | apply length_replicate]);
      destruct (PGVectorProvider.transaction
                  (PGVectorProvider.insert_batches name texts vectors m
                     record_ids batch_size) db) as [[[]|e] dbA] eqn:Etx;
        [|discriminate]
  end.
  destruct (PGVectorProvider.create_vector_index p name (py "hnsw") dbA)
    as [[r|e] dbB] eqn:Eidx; [|discriminate].
  unfold ret in H. injection H as <-.
  rewrite (create_vector_index_count _ _ _ _ _ _ name Eidx).
  apply transaction_ok in Etx.
  eapply pg_insert_batches_count; eassumption.
Qed.

(** X27: in the PGVector backend [insert_many] inserts and never
    replaces: a successful call with a well-formed batch adds one row
    per record, and a second successful call with the same batch and
    the same record ids adds as many again. *)
Theorem pg_insert_many_twice_adds_twice (p : PGVectorProvider.provider)
    (name : str) (texts : list str) (vectors : list vector)
    (metadata : option (list metadata_item)) (record_ids : list Z)
    (batch_size : Z) (db db1 db2 : PGVectorProvider.database) :
  length texts = length vectors ->
  length vectors = length record_ids ->
  metadata_fits metadata texts ->
  0 < batch_size ->
  PGVectorProvider.insert_many p name texts vectors metadata (Some record_ids)
    batch_size db = (Ok true, db1) ->
  PGVectorProvider.insert_many p name texts vectors metadata (Some record_ids)
    batch_size db1 = (Ok true, db2) ->
  row_count db1 name = (row_count db name + length texts)%nat
  /\ row_count db2 name = (row_count db name + 2 * length texts)%nat.
Proof.
  intros Htv Hvr Hm Hb H1 H2.
  pose proof (pg_insert_many_count _ _ _ _ _ _ _ _ _ Htv Hvr Hm Hb H1) as E1.
  pose proof (pg_insert_many_count _ _ _ _ _ _ _ _ _ Htv Hvr Hm Hb H2) as E2.
  split; [exact E1 | lia].
Qed.

Lemma pg_insert_many_twice_adds_twice_witness :
  row_count Examples.pg_after_one (py "c")
  = (row_count Examples.pg_with_c (py "c") + length [py "t"])%nat
  /\ row_count Examples.pg_after_two (py "c")
     = (row_count Examples.pg_with_c (py "c") + 2 * length [py "t"])%nat.
Proof.
  apply (pg_insert_many_twice_adds_twice Examples.pg_provider (py "c")
           [py "t"] [[1%Q]] None [1] 50
           Examples.pg_with_c Examples.pg_after_one Examples.pg_after_two).
  - reflexivity.
  - reflexivity.
  - exact I.
  - lia.
  - vm_compute. reflexivity.
  - vm_compute. reflexivity.
Defined.

(** C5 (the code at the failing input): in the PGVector backend the
    same batch with the same record id, inserted twice into the empty
    collection [c], leaves two rows with chunk id 1 where one insertion
    leaves one; the record id is stored in the column [chunk_id] and is
    no key of the table. *)
Lemma pg_insert_many_twice_duplicates :
  PGVectorProvider.insert_many Examples.pg_provider (py "c") [py "t"] [[1%Q]]
    None (Some [1]) 50 Examples.pg_with_c
  = (Ok true, Examples.pg_after_one)
  /\ PGVectorProvider.insert_many Examples.pg_provider (py "c") [py "t"]
       [[1%Q]] None (Some [1]) 50 Examples.pg_after_one
     = (Ok true, Examples.pg_after_two)
  /\ PGVectorProvider.rows <$> PGVectorProvider.tables Examples.pg_after_one
                               !! py "c"
     = Some [PGVectorProvider.mkRow 1 (py "t") [1%Q] (py "{}") 1]
  /\ PGVectorProvider.rows <$> PGVectorProvider.tables Examples.pg_after_two
                               !! py "c"
     = Some [PGVectorProvider.mkRow 1 (py "t") [1%Q] (py "{}") 1;
             PGVectorProvider.mkRow 2 (py "t") [1%Q] (py "{}") 1]
  /\ Examples.pg_after_two <> Examples.pg_after_one.
Proof.
  repeat split; try (vm_compute; reflexivity).
  intros E.
  assert (H : row_count Examples.pg_after_two (py "c")
              = row_count Examples.pg_after_one (py "c")) by (rewrite E; reflexivity).
  vm_compute in H. discriminate H.
Qed.

(* ===================================================================== *)
(** * Further properties of the modelled code *)
(* ===================================================================== *)

(** ** The chunker: shape and content of the chunks *)

Lemma lstrip_spaces_app (a b : str) (c : N) :
  Forall (fun x => isspace x = true) a -> isspace c = false ->
  lstrip (a ++ c :: b) = c :: b.
Proof.
  intros Ha Hc. induction Ha as [|x a Hx _ IH]; simpl.
  - rewrite Hc. reflexivity.
  - rewrite Hx. exact IH.
Qed.

(** Stripping removes a white-space tag after a visible character. *)
Lemma strip_buffer_spaces (h l : N) (m tail : str) :
  isspace h = false -> isspace l = false ->
  Forall (fun x => isspace x = true) tail ->
  strip ((h :: m ++ [l]) ++ tail) = h :: m ++ [l].
Proof.
  intros Hh Hl Ht. unfold strip.
  rewrite lstrip_id by (simpl; exact Hh).
  unfold rstrip.
  replace (rev ((h :: m ++ [l]) ++ tail))
    with (rev tail ++ l :: rev (h :: m)).
  - rewrite lstrip_spaces_app; [| apply Forall_rev; exact Ht | exact Hl].
    change (l :: rev (h :: m)) with ([l] ++ rev (h :: m)).
    rewrite rev_app_distr, rev_involutive. reflexivity.
  - rewrite rev_app_distr. f_equal.
    change (h :: m ++ [l]) with ((h :: m) ++ [l]).
    rewrite rev_app_distr. reflexivity.
Qed.

Lemma strip_head_nonspace (s : str) : head_nonspace (strip s).
Proof.
  unfold strip. pose proof (lstrip_head_nonspace s) as H.
  destruct (lstrip s) as [|c t]; [exact I|].
  simpl in H. rewrite (rstrip_cons c t H). exact H.
Qed.

Lemma strip_idempotent (s : str) : strip (strip s) = strip s.
Proof.
  apply strip_id; [apply strip_head_nonspace|].
  apply rstrip_rev_head_nonspace.
Qed.

(** Appending a line to a well-shaped buffer gives a well-shaped buffer
    of known form. *)
Lemma buffer_append_shape (splitter_tag cur line : str) :
  buffer_ok splitter_tag cur -> line_ok line ->
  exists h m l, cur ++ (line ++ splitter_tag) = (h :: m ++ [l]) ++ splitter_tag
                /\ isspace h = false /\ isspace l = false.
Proof.
  intros Hcur (h & m & l & -> & Hh & Hl).
  destruct Hcur as [-> | (h0 & m0 & l0 & -> & Hh0 & Hl0)].
  - exists h, m, l. repeat split; assumption.
  - exists h0, (m0 ++ [l0] ++ splitter_tag ++ h :: m), l.
    split; [|split; assumption].
    repeat (rewrite <- app_assoc; simpl). reflexivity.
Qed.


Lemma loop_body_chunks_inv (chunk_size : Z) (splitter_tag : str)
    (st : list Document * str) (line : str) :
  chunks_inv splitter_tag st -> line_ok line ->
  chunks_inv splitter_tag (loop_body chunk_size splitter_tag st line).
Proof.
  destruct st as [chunks cur]. intros [Hchunks Hcur] Hline.
  simpl in Hchunks, Hcur. unfold loop_body.
  destruct (buffer_append_shape splitter_tag cur line Hcur Hline)
    as (h & m & l & Heq & Hh & Hl).
  rewrite Heq. destruct (chunk_size <=? _).
  - split; cbn [fst snd]; [|left; reflexivity].
    apply Forall_app. split; [exact Hchunks|].
    apply Forall_cons. split; [|apply Forall_nil; exact I].
    cbn [page_content metadata]. split; [apply strip_idempotent|].
    split; [|reflexivity].
    pose proof (strip_buffer_length h l m splitter_tag Hh Hl) as Hb.
    simpl in Hb. rewrite length_app in Hb. simpl in Hb.
    simpl. lia.
  - split; cbn [fst snd]; [exact Hchunks|].
    right. exists h, m, l. repeat split; assumption.
Qed.

Lemma loop_fold_chunks_inv (chunk_size : Z) (splitter_tag : str)
    (lines : list str) :
  forall st, Forall line_ok lines -> chunks_inv splitter_tag st ->
  chunks_inv splitter_tag
    (fold_left (loop_body chunk_size splitter_tag) lines st).
Proof.
  induction lines as [|line lines IH]; intros st Hl Hinv; simpl; [exact Hinv|].
  apply Forall_cons in Hl. destruct Hl as [Hline Hl].
  apply IH; [exact Hl|]. apply loop_body_chunks_inv; assumption.
Qed.

Lemma chunks_inv_start (splitter_tag : str) : chunks_inv splitter_tag ([], []).
Proof. split; simpl; [apply Forall_nil; exact I | left; reflexivity]. Qed.

(** X1: every chunk that [process_simpler_splitter] returns is already
    stripped and carries an empty metadata dictionary, whatever metadata
    came in; every chunk before the last has at least two characters,
    for every [chunk_size]. *)
Theorem chunks_are_stripped_and_bare (texts : list str)
    (metadatas : list (list (str * str))) (chunk_size : Z)
    (splitter_tag : str) (chunks : list Document) :
  process_simpler_splitter texts metadatas chunk_size splitter_tag = Ok chunks ->
  Forall (fun d => strip (page_content d) = page_content d
                   /\ metadata d = []) chunks
  /\ forall (i : nat) (d : Document),
       (i + 1 < length chunks)%nat -> chunks !! i = Some d ->
       (2 <= length (page_content d))%nat.
Proof.
  intros Hrun.
  destruct (split (join (py " ") texts) splitter_tag) as [segments|e] eqn:Hs.
  2:{ unfold process_simpler_splitter in Hrun. rewrite Hs in Hrun. discriminate. }
  rewrite (process_simpler_splitter_shape _ metadatas chunk_size _ _ Hs) in Hrun.
  injection Hrun as <-.
  pose proof (loop_fold_chunks_inv chunk_size splitter_tag
                (surviving_lines segments) ([], [])
                (surviving_lines_ok segments) (chunks_inv_start splitter_tag))
    as [Hall _].
  fold (loop chunk_size splitter_tag (surviving_lines segments)) in Hall.
  split.
  - apply Forall_app. split.
    + eapply Forall_impl; [exact Hall|]. intros d (Hs1 & _ & Hm). split; assumption.
    + apply Forall_cons. split; [|apply Forall_nil; exact I].
      split; [apply strip_idempotent | reflexivity].
  - intros i d Hi Hd. rewrite length_app in Hi. simpl in Hi.
    rewrite lookup_app_l in Hd by lia.
    rewrite Forall_forall in Hall.
    destruct (Hall d) as (_ & Hlen & _); [|exact Hlen].
    apply list_elem_of_lookup. exists i. exact Hd.
Qed.

Lemma chunks_are_stripped_and_bare_witness :
  Forall (fun d => strip (page_content d) = page_content d /\ metadata d = [])
         [mkDocument (py "ab") []; mkDocument [] []]
  /\ forall (i : nat) (d : Document),
       (i + 1 < length [mkDocument (py "ab") []; mkDocument [] []])%nat ->
       [mkDocument (py "ab") []; mkDocument [] []] !! i = Some d ->
       (2 <= length (page_content d))%nat.
Proof.
  apply (chunks_are_stripped_and_bare [py "ab"] [[(py "page", py "1")]] 3
           [10%N]).
  vm_compute. reflexivity.
Defined.

(** The text that the state of the loop stands for. *)
Lemma loop_body_text (chunk_size : Z) (splitter_tag : str)
    (st : list Document * str) (line : str) :
  chunks_inv splitter_tag st -> line_ok line ->
  Forall (fun x => isspace x = true) splitter_tag ->
  concat (map (rebuild splitter_tag)
            (loop_body chunk_size splitter_tag st line).1)
    ++ (loop_body chunk_size splitter_tag st line).2
  = (concat (map (rebuild splitter_tag) st.1) ++ st.2)
    ++ (line ++ splitter_tag).
Proof.
  destruct st as [chunks cur]. intros [_ Hcur] Hline Htag.
  simpl in Hcur. unfold loop_body. cbn [fst snd].
  destruct (buffer_append_shape splitter_tag cur line Hcur Hline)
    as (h & m & l & Heq & Hh & Hl).
  destruct (chunk_size <=? _); cbn [fst snd].
  - rewrite map_app, concat_app. cbn [map concat].
    rewrite !app_nil_r, <- app_assoc. f_equal.
    unfold rebuild. cbn [page_content].
    rewrite Heq, (strip_buffer_spaces h l m splitter_tag Hh Hl Htag).
    reflexivity.
  - rewrite <- app_assoc. reflexivity.
Qed.

Lemma loop_fold_text (chunk_size : Z) (splitter_tag : str) (lines : list str) :
  forall st, Forall line_ok lines -> chunks_inv splitter_tag st ->
  Forall (fun x => isspace x = true) splitter_tag ->
  concat (map (rebuild splitter_tag)
            (fold_left (loop_body chunk_size splitter_tag) lines st).1)
    ++ (fold_left (loop_body chunk_size splitter_tag) lines st).2
  = (concat (map (rebuild splitter_tag) st.1) ++ st.2)
    ++ concat (map (fun line => line ++ splitter_tag) lines).
Proof.
  induction lines as [|line lines IH]; intros st Hl Hinv Htag; simpl.
  - rewrite app_nil_r. reflexivity.
  - apply Forall_cons in Hl. destruct Hl as [Hline Hl].
    rewrite IH; [| exact Hl | apply loop_body_chunks_inv; assumption | exact Htag].
    rewrite (loop_body_text _ _ _ _ Hinv Hline Htag).
    rewrite <- !app_assoc. reflexivity.
Qed.

(** X2: with a splitter tag made of white space (the newline of
    [process_file_content]) no surviving line is lost or reordered: the
    chunks, each followed by the tag unless it is empty, spell exactly
    the surviving lines, each followed by the tag. *)
Theorem chunks_keep_every_line (texts : list str)
    (metadatas : list (list (str * str))) (chunk_size : Z)
    (splitter_tag : str) (segments : list str) :
  split (join (py " ") texts) splitter_tag = Ok segments ->
  Forall (fun x => isspace x = true) splitter_tag ->
  exists chunks,
    process_simpler_splitter texts metadatas chunk_size splitter_tag = Ok chunks
    /\ concat (map (rebuild splitter_tag) chunks)
       = concat (map (fun line => line ++ splitter_tag)
                   (surviving_lines segments)).
Proof.
  intros Hs Htag. eexists. split.
  { apply process_simpler_splitter_shape. exact Hs. }
  pose proof (loop_fold_text chunk_size splitter_tag (surviving_lines segments)
                ([], []) (surviving_lines_ok segments)
                (chunks_inv_start splitter_tag) Htag) as Htext.
  pose proof (loop_fold_chunks_inv chunk_size splitter_tag
                (surviving_lines segments) ([], [])
                (surviving_lines_ok segments) (chunks_inv_start splitter_tag))
    as [_ Hcur].
  fold (loop chunk_size splitter_tag (surviving_lines segments)) in Htext, Hcur.
  simpl in Htext. rewrite <- Htext.
  rewrite map_app, concat_app. f_equal. cbn [map concat].
  rewrite app_nil_r. unfold rebuild. cbn [page_content].
  destruct Hcur as [-> | (h & m & l & -> & Hh & Hl)]; [reflexivity|].
  rewrite (strip_buffer_spaces h l m splitter_tag Hh Hl Htag). reflexivity.
Qed.

Lemma chunks_keep_every_line_witness :
  exists chunks,
    process_simpler_splitter [py "ab"; py "cd"] [] 3 [10%N] = Ok chunks
    /\ concat (map (rebuild [10%N]) chunks)
       = concat (map (fun line => line ++ [10%N])
                   (surviving_lines [py "ab cd"])).
Proof.
  apply (chunks_keep_every_line [py "ab"; py "cd"] [] 3 [10%N] [py "ab cd"]).
  - reflexivity.
  - repeat constructor.
Defined.

(** ** The PGVector backend: statements that change nothing *)

Lemma sql_select_pg_tables_unchanged (name : str) (db : PGVectorProvider.database) :
  (PGVectorProvider.sql_select_pg_tables name db).2 = db.
Proof.
  unfold PGVectorProvider.sql_select_pg_tables.
  destruct (_ !! _); reflexivity.
Qed.

Lemma sql_count_unchanged (name : str) (db : PGVectorProvider.database) :
  (PGVectorProvider.sql_count name db).2 = db.
Proof.
  unfold PGVectorProvider.sql_count. destruct (_ !! _); reflexivity.
Qed.

Lemma sql_select_pg_indexes_unchanged (name iname : str)
    (db : PGVectorProvider.database) :
  (PGVectorProvider.sql_select_pg_indexes name iname db).2 = db.
Proof.
  unfold PGVectorProvider.sql_select_pg_indexes.
  destruct (_ !! _); [destruct (existsb _ _)|]; reflexivity.
Qed.

Lemma sql_search_unchanged (cosine_distance : vector -> vector -> Q)
    (name : str) (v : vector) (limit : Z) (db : PGVectorProvider.database) :
  (PGVectorProvider.sql_search cosine_distance name v limit db).2 = db.
Proof.
  unfold PGVectorProvider.sql_search.
  destruct (_ !! _); [|reflexivity].
  destruct (_ <? _); [reflexivity|].
  destruct (Nat.eqb _ _); [reflexivity|].
  destruct (negb _); reflexivity.
Qed.

Lemma pg_two_rows_consistent : pg_consistent Examples.pg_two_rows.
Proof.
  unfold pg_consistent, Examples.pg_two_rows.
  cbn [PGVectorProvider.tables PGVectorProvider.chunks].
  apply map_Forall_singleton. split; [cbn; lia|]. split; cbn.
  - unfold Examples.two_rows.
    repeat (apply Forall_cons; split;
            [split; [reflexivity | split; [cbn; lia | cbn; set_solver]]|]).
    apply Forall_nil. exact I.
  - apply NoDup_ListNoDup. repeat constructor; simpl; intuition lia.
Qed.

(** ** The PGVector backend: search on a consistent database *)

(** X4: on a consistent database, a search in an existing collection
    with a query of the collection's dimension and a limit that is not
    negative never raises and changes nothing; it returns
    [min(limit, number of rows)] documents. *)
Theorem pg_search_on_consistent (cosine_distance : vector -> vector -> Q)
    (p : PGVectorProvider.provider) (name : str) (v : vector) (limit : Z)
    (db : PGVectorProvider.database) (t : PGVectorProvider.table) :
  pg_consistent db ->
  PGVectorProvider.tables db !! name = Some t ->
  Z.of_nat (length v) = PGVectorProvider.embedding_size t ->
  0 <= limit ->
  exists docs,
    PGVectorProvider.search_by_vector cosine_distance p name v limit db
    = (Ok (SDocs docs), db)
    /\ length docs
       = Nat.min (Z.to_nat limit) (length (PGVectorProvider.rows t)).
Proof.
  intros Hc Ht Hv Hl.
  destruct (Hc name t Ht) as (Hsize & Hrows & _).
  eexists. split.
  - apply pg_search_present with (t := t); [exact Ht | exact Hl | |].
    + intros ->. simpl in Hv. lia.
    + eapply Forall_impl; [exact Hrows|]. intros r (Hd & _). lia.
  - rewrite length_map, length_take.
    rewrite (Permutation_length
               (merge_sort_Permutation PGVectorProvider.score_desc _)).
    unfold scored_rows. rewrite length_map. reflexivity.
Qed.

Lemma pg_search_on_consistent_witness :
  exists docs,
    PGVectorProvider.search_by_vector Examples.cosine_distance
      Examples.pg_provider (py "d") [1%Q; 0%Q] 1 Examples.pg_two_rows
    = (Ok (SDocs docs), Examples.pg_two_rows)
    /\ length docs = Nat.min (Z.to_nat 1) (length Examples.two_rows).
Proof.
  apply (pg_search_on_consistent Examples.cosine_distance Examples.pg_provider
           (py "d") [1%Q; 0%Q] 1 Examples.pg_two_rows
           (PGVectorProvider.mkTable 2 Examples.two_rows 3 [])).
  - exact pg_two_rows_consistent.
  - reflexivity.
  - reflexivity.
  - lia.
Defined.

(** ** The PGVector backend: life cycle of a collection *)

Lemma pg_create_collection_present (p : PGVectorProvider.provider) (name : str)
    (n : Z) (db : PGVectorProvider.database) (t : PGVectorProvider.table) :
  PGVectorProvider.tables db !! name = Some t ->
  PGVectorProvider.create_collection p name n false db = (Ok false, db).
Proof.
  intros Ht. unfold PGVectorProvider.create_collection, bind, ret.
  rewrite (pg_is_collection_existed_present p name db t Ht). reflexivity.
Qed.

(** X5: creating an absent collection without reset answers [True] and
    leaves an empty table of the requested dimension; every further
    creation without reset, with whatever dimension, answers [False] and
    changes nothing. *)
Theorem pg_create_collection_idempotent (p : PGVectorProvider.provider)
    (name : str) (n : Z) (db : PGVectorProvider.database) :
  PGVectorProvider.tables db !! name = None ->
  1 <= n <= 16000 ->
  exists db',
    PGVectorProvider.create_collection p name n false db = (Ok true, db')
    /\ PGVectorProvider.tables db' !! name
       = Some (PGVectorProvider.mkTable n [] 1 [])
    /\ (forall other, other <> name ->
          PGVectorProvider.tables db' !! other
          = PGVectorProvider.tables db !! other)
    /\ forall m,
         PGVectorProvider.create_collection p name m false db' = (Ok false, db').
Proof.
  intros Ht Hn.
  unfold PGVectorProvider.create_collection, bind, ret.
  rewrite (pg_is_collection_existed_absent p name db Ht).
  cbn [PGVectorProvider.record_truthy negb].
  unfold PGVectorProvider.transaction, PGVectorProvider.sql_create_table.
  rewrite Ht.
  assert (Hs : (1 <=? n) && (n <=? 16000) = true).
  { apply andb_true_intro. split; apply Z.leb_le; lia. }
  rewrite Hs. eexists. split; [reflexivity|].
  cbn [PGVectorProvider.tables]. split; [apply lookup_insert_eq|]. split.
  - intros other Ho. apply lookup_insert_ne. congruence.
  - intros m. eapply pg_create_collection_present.
    cbn [PGVectorProvider.tables]. apply lookup_insert_eq.
Qed.

Lemma pg_create_collection_idempotent_witness :
  exists db',
    PGVectorProvider.create_collection Examples.pg_provider (py "c") 768 false
      Examples.pg_empty = (Ok true, db')
    /\ PGVectorProvider.tables db' !! py "c"
       = Some (PGVectorProvider.mkTable 768 [] 1 [])
    /\ (forall other, other <> py "c" ->
          PGVectorProvider.tables db' !! other
          = PGVectorProvider.tables Examples.pg_empty !! other)
    /\ forall m,
         PGVectorProvider.create_collection Examples.pg_provider (py "c") m
           false db' = (Ok false, db').
Proof.
  apply (pg_create_collection_idempotent Examples.pg_provider (py "c") 768
           Examples.pg_empty).
  - reflexivity.
  - lia.
Defined.

Lemma pg_create_collection_reset_witness :
  exists db',
    PGVectorProvider.create_collection Examples.pg_provider (py "d") 2 true
      Examples.pg_two_rows = (Ok true, db')
    /\ PGVectorProvider.get_collection_info Examples.pg_provider (py "d") db'
       = (Ok (Some (py "d", 0)), db').
Proof.
  apply (pg_create_collection_reset Examples.pg_provider (py "d") 2
           Examples.pg_two_rows).
  lia.
Defined.

(** X7: [delete_collection] answers [True] whether or not the
    collection exists; afterwards the collection is absent, every other
    collection and the chunks are as before, and deleting again changes
    nothing. *)
Theorem pg_delete_collection_effect (p : PGVectorProvider.provider)
    (name : str) (db : PGVectorProvider.database) :
  exists db',
    PGVectorProvider.delete_collection p name db = (Ok true, db')
    /\ PGVectorProvider.tables db' !! name = None
    /\ PGVectorProvider.get_collection_info p name db' = (Ok None, db')
    /\ (forall other, other <> name ->
          PGVectorProvider.tables db' !! other
          = PGVectorProvider.tables db !! other)
    /\ PGVectorProvider.chunks db' = PGVectorProvider.chunks db
    /\ PGVectorProvider.delete_collection p name db' = (Ok true, db').
Proof.
  eexists. split; [reflexivity|].
  cbn [PGVectorProvider.tables PGVectorProvider.chunks].
  split; [apply lookup_delete_eq|]. split; [|split; [|split]].
  - unfold PGVectorProvider.get_collection_info, PGVectorProvider.transaction,
      bind, PGVectorProvider.sql_select_pg_tables.
    cbn [PGVectorProvider.tables]. rewrite lookup_delete_eq. reflexivity.
  - intros other Ho. apply lookup_delete_ne. congruence.
  - reflexivity.
  - unfold PGVectorProvider.delete_collection, bind,
      PGVectorProvider.transaction, PGVectorProvider.sql_drop_table_if_exists.
    cbn. rewrite delete_delete_eq. reflexivity.
Qed.

Lemma pg_search_absent_witness :
  PGVectorProvider.search_by_vector Examples.cosine_distance
    Examples.pg_provider (py "Collection_768_7") [1%Q] 5 Examples.pg_empty
  = (Ok SFalse, Examples.pg_empty).
Proof.
  apply (pg_search_absent Examples.cosine_distance Examples.pg_provider
           (py "Collection_768_7") [1%Q] 5 Examples.pg_empty).
  reflexivity.
Defined.

Lemma pg_insert_many_length_mismatch_witness :
  PGVectorProvider.insert_many Examples.pg_provider (py "c") [py "t"] [[1%Q]]
    None (Some [1; 2]) 50 Examples.pg_with_c
  = (Ok false, Examples.pg_with_c).
Proof.
  apply (pg_insert_many_length_mismatch Examples.pg_provider (py "c") [py "t"]
           [[1%Q]] None [1; 2] 50 Examples.pg_with_c).
  simpl. lia.
Defined.

(** ** The PGVector backend: stored rows are never lost *)

Lemma pg_extends_refl (db : PGVectorProvider.database) : pg_extends db db.
Proof.
  split; [reflexivity|]. intros name t Ht. exists t.
  split; [exact Ht|]. split; reflexivity.
Qed.

Lemma pg_extends_trans (a b c : PGVectorProvider.database) :
  pg_extends a b -> pg_extends b c -> pg_extends a c.
Proof.
  intros [Hc1 H1] [Hc2 H2]. split; [congruence|].
  intros name t Ht.
  destruct (H1 name t Ht) as (t1 & Ht1 & He1 & Hp1).
  destruct (H2 name t1 Ht1) as (t2 & Ht2 & He2 & Hp2).
  exists t2. split; [exact Ht2|]. split; [congruence|].
  etransitivity; eassumption.
Qed.

Lemma extends_ret {A} (a : A) : only_extends (ret a).
Proof. intros db r db' H. injection H as _ <-. apply pg_extends_refl. Qed.

Lemma extends_raise {A} (e : exn) : only_extends (@raise _ A e).
Proof. intros db r db' H. injection H as _ <-. apply pg_extends_refl. Qed.

Lemma extends_bind {A B} (m : M PGVectorProvider.database A)
    (k : A -> M PGVectorProvider.database B) :
  only_extends m -> (forall a, only_extends (k a)) -> only_extends (bind m k).
Proof.
  intros Hm Hk db r db' H. unfold bind in H.
  destruct (m db) as [[a|e] db1] eqn:E.
  - eapply pg_extends_trans; [eapply Hm; exact E | eapply Hk; exact H].
  - injection H as _ <-. eapply Hm; exact E.
Qed.

Lemma extends_transaction {A} (m : M PGVectorProvider.database A) :
  only_extends m -> only_extends (PGVectorProvider.transaction m).
Proof.
  intros Hm db r db' H. unfold PGVectorProvider.transaction in H.
  destruct (m db) as [[a|e] db1] eqn:E; injection H as _ <-.
  - eapply Hm; exact E.
  - apply pg_extends_refl.
Qed.

Lemma extends_for_each {A} (l : list A)
    (body : A -> M PGVectorProvider.database unit) :
  (forall x, only_extends (body x)) -> only_extends (for_each l body).
Proof.
  intros Hb. induction l as [|x l IH]; simpl.
  - apply extends_ret.
  - apply extends_bind; [apply Hb | intros _; exact IH].
Qed.

Lemma extends_unchanged {A} (m : M PGVectorProvider.database A) :
  (forall db, (m db).2 = db) -> only_extends m.
Proof.
  intros Hm db r db' H. specialize (Hm db). rewrite H in Hm.
  simpl in Hm. subst db'. apply pg_extends_refl.
Qed.

(** Replacing one table by a table with the same dimension and more
    rows extends the database. *)
Lemma pg_extends_insert (db : PGVectorProvider.database) (name : str)
    (t t' : PGVectorProvider.table) :
  PGVectorProvider.tables db !! name = Some t ->
  PGVectorProvider.embedding_size t' = PGVectorProvider.embedding_size t ->
  PGVectorProvider.rows t `prefix_of` PGVectorProvider.rows t' ->
  pg_extends db
    (PGVectorProvider.mkDatabase (<[name := t']> (PGVectorProvider.tables db))
       (PGVectorProvider.chunks db)).
Proof.
  intros Ht He Hp. split; [reflexivity|]. intros other t0 Ht0.
  cbn [PGVectorProvider.tables].
  destruct (decide (name = other)) as [<-|Hne].
  - exists t'. rewrite lookup_insert_eq. split; [reflexivity|].
    assert (t0 = t) by congruence. subst t0. split; assumption.
  - exists t0. rewrite lookup_insert_ne by exact Hne.
    split; [exact Ht0|]. split; reflexivity.
Qed.

Lemma extends_insert_row (name : str) (v : PGVectorProvider.insert_values) :
  only_extends (PGVectorProvider.insert_row name v).
Proof.
  intros db r db' H. unfold PGVectorProvider.insert_row in H.
  destruct (PGVectorProvider.tables db !! name) as [t|] eqn:Ht;
    [|injection H as _ <-; apply pg_extends_refl].
  destruct (negb _); [injection H as _ <-; apply pg_extends_refl|].
  destruct (negb _); injection H as _ <-; [apply pg_extends_refl|].
  apply (pg_extends_insert db name t); [exact Ht | reflexivity |].
  cbn [PGVectorProvider.rows]. apply prefix_app_r. reflexivity.
Qed.

Lemma extends_sql_insert_many (name : str)
    (values : list PGVectorProvider.insert_values) :
  only_extends (PGVectorProvider.sql_insert_many name values).
Proof.
  destruct values as [|v values]; [apply extends_raise|].
  apply extends_for_each. intros x. apply extends_insert_row.
Qed.

Lemma extends_sql_create_index (iname name itype opclass : str) :
  only_extends (PGVectorProvider.sql_create_index iname name itype opclass).
Proof.
  intros db r db' H. unfold PGVectorProvider.sql_create_index in H.
  destruct (PGVectorProvider.tables db !! name) as [t|] eqn:Ht;
    [|injection H as _ <-; apply pg_extends_refl].
  destruct (negb _); [injection H as _ <-; apply pg_extends_refl|].
  destruct (negb _); [injection H as _ <-; apply pg_extends_refl|].
  destruct (existsb _ _); [injection H as _ <-; apply pg_extends_refl|].
  destruct (2000 <? _); injection H as _ <-; [apply pg_extends_refl|].
  apply (pg_extends_insert db name t); [exact Ht | reflexivity | reflexivity].
Qed.

Lemma extends_sql_drop_index (iname : str) :
  only_extends (PGVectorProvider.sql_drop_index_if_exists iname).
Proof.
  intros db r db' H. injection H as _ <-. split; [reflexivity|].
  intros name t Ht. cbn [PGVectorProvider.tables].
  rewrite lookup_fmap, Ht. cbn. eexists. split; [reflexivity|].
  split; reflexivity.
Qed.

Lemma extends_sql_create_table (name : str) (n : Z) :
  only_extends (PGVectorProvider.sql_create_table name n).
Proof.
  intros db r db' H. unfold PGVectorProvider.sql_create_table in H.
  destruct (PGVectorProvider.tables db !! name) as [t|] eqn:Ht;
    [injection H as _ <-; apply pg_extends_refl|].
  destruct (_ && _); injection H as _ <-; [|apply pg_extends_refl].
  split; [reflexivity|]. intros other t0 Ht0. cbn [PGVectorProvider.tables].
  exists t0. rewrite lookup_insert_ne by congruence.
  split; [exact Ht0|]. split; reflexivity.
Qed.

Ltac extends_step :=
  first
    [ apply extends_ret
    | apply extends_raise
    | apply extends_sql_create_table
    | apply extends_insert_row
    | apply extends_sql_insert_many
    | apply extends_sql_create_index
    | apply extends_sql_drop_index
    | apply extends_unchanged; intros ?; apply sql_select_pg_tables_unchanged
    | apply extends_unchanged; intros ?; apply sql_count_unchanged
    | apply extends_unchanged; intros ?; apply sql_select_pg_indexes_unchanged
    | apply extends_unchanged; intros ?; apply sql_search_unchanged
    | apply extends_transaction
    | apply extends_for_each; intros ?
    | apply extends_bind; [|intros ?]
    | match goal with
      | |- only_extends (if ?b then _ else _) => destruct b
      | |- only_extends (match ?x with _ => _ end) => destruct x
      end ].

Lemma extends_create_vector_index (p : PGVectorProvider.provider)
    (name itype : str) :
  only_extends (PGVectorProvider.create_vector_index p name itype).
Proof.
  unfold PGVectorProvider.create_vector_index, PGVectorProvider.is_index_existed.
  repeat extends_step.
Qed.

Lemma extends_insert_many (p : PGVectorProvider.provider) (name : str)
    (texts : list str) (vectors : list vector)
    (metadata : option (list metadata_item)) (record_ids : option (list Z))
    (batch_size : Z) :
  only_extends
    (PGVectorProvider.insert_many p name texts vectors metadata record_ids
       batch_size).
Proof.
  unfold PGVectorProvider.insert_many, PGVectorProvider.is_collection_existed.
  apply extends_bind; [repeat extends_step | intros r].
  destruct (negb _); [apply extends_ret|].
  destruct record_ids as [ids|]; [|apply extends_raise].
  destruct (negb _); [apply extends_ret|].
  apply extends_bind; [|intros _].
  - apply extends_transaction. unfold PGVectorProvider.insert_batches.
    repeat extends_step.
  - apply extends_bind; [apply extends_create_vector_index | intros _].
    apply extends_ret.
Qed.

Lemma extends_insert_one (p : PGVectorProvider.provider) (name text : str)
    (v : vector) (metadata : metadata_item) (record_id : option Z) :
  only_extends (PGVectorProvider.insert_one p name text v metadata record_id).
Proof.
  unfold PGVectorProvider.insert_one, PGVectorProvider.is_collection_existed.
  apply extends_bind; [repeat extends_step | intros r].
  destruct (negb _); [apply extends_ret|].
  destruct record_id as [z|]; [|apply extends_ret].
  destruct (negb _); [apply extends_ret|].
  apply extends_bind; [apply extends_transaction, extends_insert_row | intros _].
  apply extends_bind; [apply extends_create_vector_index | intros _].
  apply extends_ret.
Qed.

Lemma extends_reset_vector_index (p : PGVectorProvider.provider)
    (name itype : str) :
  only_extends (PGVectorProvider.reset_vector_index p name itype).
Proof.
  unfold PGVectorProvider.reset_vector_index.
  apply extends_bind; [apply extends_transaction, extends_sql_drop_index
                      | intros _].
  apply extends_create_vector_index.
Qed.

Lemma extends_create_collection (p : PGVectorProvider.provider) (name : str)
    (n : Z) :
  only_extends (PGVectorProvider.create_collection p name n false).
Proof.
  unfold PGVectorProvider.create_collection,
    PGVectorProvider.is_collection_existed.
  apply extends_bind; [apply extends_ret | intros _].
  apply extends_bind; [repeat extends_step | intros r].
  repeat extends_step.
Qed.

(** X10: inserting, indexing and creating without reset can only extend
    the database, whether they return or raise: no collection
    disappears or changes its dimension, the rows that were stored stay
    where they are, unchanged, and the chunks are not touched. *)
Theorem pg_writes_only_extend (p : PGVectorProvider.provider)
    (db db' : PGVectorProvider.database) :
  (forall name texts vectors metadata record_ids batch_size r,
      PGVectorProvider.insert_many p name texts vectors metadata record_ids
        batch_size db = (r, db') ->
      pg_extends db db')
  /\ (forall name text v metadata record_id r,
        PGVectorProvider.insert_one p name text v metadata record_id db
        = (r, db') ->
        pg_extends db db')
  /\ (forall name itype r,
        PGVectorProvider.create_vector_index p name itype db = (r, db') ->
        pg_extends db db')
  /\ (forall name itype r,
        PGVectorProvider.reset_vector_index p name itype db = (r, db') ->
        pg_extends db db')
  /\ (forall name n r,
        PGVectorProvider.create_collection p name n false db = (r, db') ->
        pg_extends db db').
Proof.
  split; [|split; [|split; [|split]]]; intros.
  - eapply extends_insert_many; eassumption.
  - eapply extends_insert_one; eassumption.
  - eapply extends_create_vector_index; eassumption.
  - eapply extends_reset_vector_index; eassumption.
  - eapply extends_create_collection; eassumption.
Qed.

Lemma pg_writes_only_extend_witness :
  (forall name texts vectors metadata record_ids batch_size r,
      PGVectorProvider.insert_many Examples.pg_provider name texts vectors
        metadata record_ids batch_size Examples.pg_with_c
      = (r, Examples.pg_after_one) ->
      pg_extends Examples.pg_with_c Examples.pg_after_one)
  /\ (forall name text v metadata record_id r,
        PGVectorProvider.insert_one Examples.pg_provider name text v metadata
          record_id Examples.pg_with_c = (r, Examples.pg_after_one) ->
        pg_extends Examples.pg_with_c Examples.pg_after_one)
  /\ (forall name itype r,
        PGVectorProvider.create_vector_index Examples.pg_provider name itype
          Examples.pg_with_c = (r, Examples.pg_after_one) ->
        pg_extends Examples.pg_with_c Examples.pg_after_one)
  /\ (forall name itype r,
        PGVectorProvider.reset_vector_index Examples.pg_provider name itype
          Examples.pg_with_c = (r, Examples.pg_after_one) ->
        pg_extends Examples.pg_with_c Examples.pg_after_one)
  /\ (forall name n r,
        PGVectorProvider.create_collection Examples.pg_provider name n false
          Examples.pg_with_c = (r, Examples.pg_after_one) ->
        pg_extends Examples.pg_with_c Examples.pg_after_one).
Proof.
  apply (pg_writes_only_extend Examples.pg_provider Examples.pg_with_c
           Examples.pg_after_one).
Defined.

(** ** The PGVector backend: writes to an absent collection *)

(** X11: when the collection does not exist, [insert_many] and
    [insert_one] answer [False] and [get_collection_info] answers
    [None]; none of them raises or changes the database. *)
Theorem pg_absent_collection_refused (p : PGVectorProvider.provider)
    (name : str) (db : PGVectorProvider.database) :
  PGVectorProvider.tables db !! name = None ->
  (forall texts vectors metadata record_ids batch_size,
      PGVectorProvider.insert_many p name texts vectors metadata record_ids
        batch_size db = (Ok false, db))
  /\ (forall text v metadata record_id,
        PGVectorProvider.insert_one p name text v metadata record_id db
        = (Ok false, db))
  /\ PGVectorProvider.get_collection_info p name db = (Ok None, db).
Proof.
  intros Ht. split; [|split].
  - intros. unfold PGVectorProvider.insert_many, bind.
    rewrite (pg_is_collection_existed_absent p name db Ht). reflexivity.
  - intros. unfold PGVectorProvider.insert_one, bind.
    rewrite (pg_is_collection_existed_absent p name db Ht). reflexivity.
  - unfold PGVectorProvider.get_collection_info, PGVectorProvider.transaction,
      bind, PGVectorProvider.sql_select_pg_tables.
    rewrite Ht. reflexivity.
Qed.

Lemma pg_absent_collection_refused_witness :
  (forall texts vectors metadata record_ids batch_size,
      PGVectorProvider.insert_many Examples.pg_provider (py "c") texts vectors
        metadata record_ids batch_size Examples.pg_empty
      = (Ok false, Examples.pg_empty))
  /\ (forall text v metadata record_id,
        PGVectorProvider.insert_one Examples.pg_provider (py "c") text v
          metadata record_id Examples.pg_empty = (Ok false, Examples.pg_empty))
  /\ PGVectorProvider.get_collection_info Examples.pg_provider (py "c")
       Examples.pg_empty = (Ok None, Examples.pg_empty).
Proof.
  apply (pg_absent_collection_refused Examples.pg_provider (py "c")
           Examples.pg_empty).
  reflexivity.
Defined.

(** ** The PGVector backend: the secondary index *)

Lemma pg_is_index_existed_value (p : PGVectorProvider.provider) (name : str)
    (db : PGVectorProvider.database) (t : PGVectorProvider.table) :
  PGVectorProvider.tables db !! name = Some t ->
  PGVectorProvider.is_index_existed p name db
  = (Ok (existsb (fun i => bool_decide (PGVectorProvider.index_name i
                                        = PGVectorProvider.default_index_name name))
                 (PGVectorProvider.indexes t)), db).
Proof.
  intros Ht. unfold PGVectorProvider.is_index_existed,
    PGVectorProvider.transaction, bind, PGVectorProvider.sql_select_pg_indexes.
  rewrite Ht. destruct (existsb _ _); reflexivity.
Qed.

Lemma pg_create_vector_index_below (p : PGVectorProvider.provider)
    (name itype : str) (db : PGVectorProvider.database)
    (t : PGVectorProvider.table) :
  PGVectorProvider.tables db !! name = Some t ->
  existsb (fun i => bool_decide (PGVectorProvider.index_name i
                                 = PGVectorProvider.default_index_name name))
          (PGVectorProvider.indexes t) = false ->
  Z.of_nat (length (PGVectorProvider.rows t))
  < PGVectorProvider.index_threshold p ->
  PGVectorProvider.create_vector_index p name itype db = (Ok (Some false), db).
Proof.
  intros Ht Hno Hlt. unfold PGVectorProvider.create_vector_index, bind.
  rewrite (pg_is_index_existed_value p name db t Ht), Hno.
  unfold PGVectorProvider.transaction, bind, PGVectorProvider.sql_count.
  rewrite Ht. apply Z.ltb_lt in Hlt. rewrite Hlt. reflexivity.
Qed.

(** X12: the index is built lazily and once. On a collection without
    the index, [create_vector_index] answers [False] and changes nothing
    while the row count is below the threshold; from the threshold on,
    with a known access method, an operator class that fits and a
    column of at most 2000 dimensions, it adds the index named
    [<collection>_vector_idx] and touches no row, and a further call
    answers [False] and changes nothing; on a column of more than 2000
    dimensions the call raises instead and nothing is built. *)
Theorem pg_index_built_lazily_once (p : PGVectorProvider.provider)
    (name itype : str) (db : PGVectorProvider.database)
    (t : PGVectorProvider.table) :
  PGVectorProvider.tables db !! name = Some t ->
  existsb (fun i => bool_decide (PGVectorProvider.index_name i
                                 = PGVectorProvider.default_index_name name))
          (PGVectorProvider.indexes t) = false ->
  (Z.of_nat (length (PGVectorProvider.rows t))
   < PGVectorProvider.index_threshold p ->
   PGVectorProvider.create_vector_index p name itype db = (Ok (Some false), db))
  /\ (PGVectorProvider.index_threshold p
      <= Z.of_nat (length (PGVectorProvider.rows t)) ->
      itype = py "hnsw" \/ itype = py "ivfflat" ->
      PGVectorProvider.valid_opclass itype
        (PGVectorProvider.format_value (PGVectorProvider.distance_method p))
      = true ->
      (PGVectorProvider.embedding_size t <= 2000 ->
       exists db',
         PGVectorProvider.create_vector_index p name itype db = (Ok None, db')
         /\ PGVectorProvider.tables db' !! name
            = Some (PGVectorProvider.mkTable
                      (PGVectorProvider.embedding_size t)
                      (PGVectorProvider.rows t) (PGVectorProvider.next_id t)
                      (PGVectorProvider.indexes t
                       ++ [PGVectorProvider.mkIndex
                             (PGVectorProvider.default_index_name name) itype
                             (PGVectorProvider.format_value
                                (PGVectorProvider.distance_method p))]))
         /\ forall itype',
              PGVectorProvider.create_vector_index p name itype' db'
              = (Ok (Some false), db'))
      /\ (2000 < PGVectorProvider.embedding_size t ->
          PGVectorProvider.create_vector_index p name itype db
          = (Raise (DatabaseError
                      "column cannot have more than 2000 dimensions"), db))).
Proof.
  intros Ht Hno. split.
  - intros Hlt. apply (pg_create_vector_index_below p name itype db t);
      assumption.
  - intros Hge Hit Hop.
    assert (Hty : negb (bool_decide (itype = py "hnsw")
                        || bool_decide (itype = py "ivfflat")) = false).
    { apply negb_false_iff, orb_true_iff.
      destruct Hit as [-> | ->]; [left | right]; apply bool_decide_eq_true;
        reflexivity. }
    apply Z.ltb_ge in Hge.
    split; intros Hdim.
    2:{ unfold PGVectorProvider.create_vector_index, bind.
        rewrite (pg_is_index_existed_value p name db t Ht), Hno.
        unfold PGVectorProvider.transaction, bind, PGVectorProvider.sql_count.
        rewrite Ht, Hge.
        unfold PGVectorProvider.sql_create_index. rewrite Ht.
        rewrite Hty, Hop, Hno. cbn [negb].
        apply Z.ltb_lt in Hdim. rewrite Hdim. reflexivity. }
    assert (Hd : (2000 <? PGVectorProvider.embedding_size t) = false)
      by (apply Z.ltb_ge; exact Hdim).
    unfold PGVectorProvider.create_vector_index, bind.
    rewrite (pg_is_index_existed_value p name db t Ht), Hno.
    unfold PGVectorProvider.transaction, bind, PGVectorProvider.sql_count.
    rewrite Ht, Hge.
    unfold PGVectorProvider.sql_create_index. rewrite Ht.
    rewrite Hty, Hop, Hno. cbn [negb]. rewrite Hd.
    eexists. split; [reflexivity|].
    cbn [PGVectorProvider.tables]. split; [apply lookup_insert_eq|].
    intros itype'. unfold PGVectorProvider.create_vector_index, bind.
    erewrite pg_is_index_existed_value
      by (cbn [PGVectorProvider.tables]; apply lookup_insert_eq).
    cbn [PGVectorProvider.indexes]. rewrite existsb_app. cbn [existsb].
    rewrite bool_decide_eq_true_2 by reflexivity.
    rewrite orb_true_r. reflexivity.
Qed.

(** A collection of 3072 dimensions can be created, and the index on
    it is refused. *)
Example pg_index_refused_above_2000 :
  exists db,
    PGVectorProvider.create_collection
      (PGVectorProvider.init 3072 (Some (py "cosine")) 0) (py "w") 3072 false
      Examples.pg_empty = (Ok true, db)
    /\ PGVectorProvider.create_vector_index
         (PGVectorProvider.init 3072 (Some (py "cosine")) 0) (py "w")
         (py "hnsw") db
       = (Raise (DatabaseError
                   "column cannot have more than 2000 dimensions"), db).
Proof. eexists. split; vm_compute; reflexivity. Qed.

Lemma pg_index_built_lazily_once_witness :
  (Z.of_nat (length Examples.two_rows)
   < PGVectorProvider.index_threshold
       (PGVectorProvider.init 768 (Some (py "cosine")) 2) ->
   PGVectorProvider.create_vector_index
     (PGVectorProvider.init 768 (Some (py "cosine")) 2) (py "d") (py "hnsw")
     Examples.pg_two_rows = (Ok (Some false), Examples.pg_two_rows))
  /\ (PGVectorProvider.index_threshold
        (PGVectorProvider.init 768 (Some (py "cosine")) 2)
      <= Z.of_nat (length Examples.two_rows) ->
      py "hnsw" = py "hnsw" \/ py "hnsw" = py "ivfflat" ->
      PGVectorProvider.valid_opclass (py "hnsw")
        (PGVectorProvider.format_value
           (PGVectorProvider.distance_method
              (PGVectorProvider.init 768 (Some (py "cosine")) 2)))
      = true ->
      (2 <= 2000 ->
       exists db',
         PGVectorProvider.create_vector_index
           (PGVectorProvider.init 768 (Some (py "cosine")) 2) (py "d")
           (py "hnsw") Examples.pg_two_rows = (Ok None, db')
         /\ PGVectorProvider.tables db' !! py "d"
            = Some (PGVectorProvider.mkTable 2 Examples.two_rows 3
                      ([] ++ [PGVectorProvider.mkIndex
                                (PGVectorProvider.default_index_name (py "d"))
                                (py "hnsw")
                                (PGVectorProvider.format_value
                                   (PGVectorProvider.distance_method
                                      (PGVectorProvider.init 768
                                         (Some (py "cosine")) 2)))]))
         /\ forall itype',
              PGVectorProvider.create_vector_index
                (PGVectorProvider.init 768 (Some (py "cosine")) 2) (py "d")
                itype' db' = (Ok (Some false), db'))
      /\ (2000 < 2 ->
          PGVectorProvider.create_vector_index
            (PGVectorProvider.init 768 (Some (py "cosine")) 2) (py "d")
            (py "hnsw") Examples.pg_two_rows
          = (Raise (DatabaseError
                      "column cannot have more than 2000 dimensions"),
             Examples.pg_two_rows))).
Proof.
  apply (pg_index_built_lazily_once
           (PGVectorProvider.init 768 (Some (py "cosine")) 2) (py "d")
           (py "hnsw") Examples.pg_two_rows
           (PGVectorProvider.mkTable 2 Examples.two_rows 3 [])).
  - reflexivity.
  - reflexivity.
Defined.



(** ** The PGVector backend: [insert_one] and [reset_vector_index] *)

(** Building the index leaves the rows of every table as they are. *)
Lemma create_vector_index_rows (p : PGVectorProvider.provider)
    (name itype : str) (db db' : PGVectorProvider.database)
    (r : result (option bool)) (other : str) :
  PGVectorProvider.create_vector_index p name itype db = (r, db') ->
  table_rows db' other = table_rows db other.
Proof.
  unfold PGVectorProvider.create_vector_index, PGVectorProvider.is_index_existed,
    PGVectorProvider.transaction, PGVectorProvider.sql_select_pg_indexes,
    PGVectorProvider.sql_count, PGVectorProvider.sql_create_index, bind, ret.
  destruct (PGVectorProvider.tables db !! name) as [t|] eqn:Ht.
  2:{ simpl. rewrite Ht. intros H. injection H as _ <-. reflexivity. }
  destruct (existsb _ _) eqn:Ex; simpl.
  { intros H. injection H as _ <-. reflexivity. }
  rewrite Ht. destruct (_ <? _).
  { intros H. injection H as _ <-. reflexivity. }
  rewrite Ht. destruct (negb _).
  { intros H. injection H as _ <-. reflexivity. }
  destruct (negb _).
  { intros H. injection H as _ <-. reflexivity. }
  rewrite Ex. destruct (2000 <? _).
  { intros H. injection H as _ <-. reflexivity. }
  intros H. injection H as _ <-.
  unfold table_rows. cbn [PGVectorProvider.tables].
  destruct (decide (name = other)) as [<-|Hne].
  - rewrite lookup_insert_eq, Ht. reflexivity.
  - rewrite lookup_insert_ne by exact Hne. reflexivity.
Qed.

(** X14: [insert_one] answers [False] and writes nothing when the
    record id is [None] or 0; when it answers [True] the collection
    existed and exactly one row was added after the rows of before,
    with the next id of the sequence, the given text, vector and chunk
    id, and the metadata as JSON (the empty object for [None]). *)
Theorem pg_insert_one_effect (p : PGVectorProvider.provider) (name text : str)
    (v : vector) (metadata : metadata_item) (record_id : option Z)
    (db db' : PGVectorProvider.database) :
  (record_id = None \/ record_id = Some 0 ->
   PGVectorProvider.insert_one p name text v metadata record_id db
   = (Ok false, db))
  /\ (PGVectorProvider.insert_one p name text v metadata record_id db
      = (Ok true, db') ->
      exists t chunk_id,
        PGVectorProvider.tables db !! name = Some t
        /\ record_id = Some chunk_id /\ chunk_id <> 0
        /\ table_rows db' name
           = PGVectorProvider.rows t
             ++ [PGVectorProvider.mkRow (PGVectorProvider.next_id t) text v
                   (match metadata with
                    | Some d => d
                    | None => py "{}"
                    end) chunk_id]).
Proof.
  split.
  - intros Hid. unfold PGVectorProvider.insert_one, bind.
    destruct (PGVectorProvider.tables db !! name) as [t|] eqn:Ht.
    + rewrite (pg_is_collection_existed_present p name db t Ht).
      destruct Hid as [-> | ->]; reflexivity.
    + rewrite (pg_is_collection_existed_absent p name db Ht). reflexivity.
  - intros H. unfold PGVectorProvider.insert_one, bind in H.
    destruct (PGVectorProvider.tables db !! name) as [t|] eqn:Ht.
    2:{ rewrite (pg_is_collection_existed_absent p name db Ht) in H.
        discriminate. }
    rewrite (pg_is_collection_existed_present p name db t Ht) in H.
    change (PGVectorProvider.record_truthy (Some (py "public"))) with true in H.
    cbn [negb] in H.
    destruct record_id as [chunk_id|]; [|discriminate].
    cbn [PGVectorProvider.record_id_truthy] in H.
    destruct (chunk_id =? 0) eqn:Ez; [discriminate|]. cbn [negb] in H.
    apply Z.eqb_neq in Ez.
    match type of H with
    | context [PGVectorProvider.transaction ?m db] =>
        destruct (PGVectorProvider.transaction m db) as [[[]|e] dbA] eqn:Etx;
          [|discriminate]
    end.
    destruct (PGVectorProvider.create_vector_index p name (py "hnsw") dbA)
      as [[r|e] dbB] eqn:Eidx; [|discriminate].
    unfold ret in H. injection H as <-.
    exists t, chunk_id. split; [reflexivity|]. split; [reflexivity|].
    split; [exact Ez|].
    rewrite (create_vector_index_rows _ _ _ _ _ _ name Eidx).
    apply transaction_ok in Etx.
    unfold PGVectorProvider.insert_row in Etx. rewrite Ht in Etx.
    destruct (negb _); [discriminate|].
    destruct (negb _); [discriminate|].
    injection Etx as <-. unfold table_rows. cbn [PGVectorProvider.tables].
    rewrite lookup_insert_eq. cbn. unfold json_dumps.
    destruct metadata; reflexivity.
Qed.

Lemma pg_insert_one_effect_witness :
  (Some 1 = None \/ Some 1 = Some 0 ->
   PGVectorProvider.insert_one Examples.pg_provider (py "c") (py "t") [1%Q]
     None (Some 1) Examples.pg_with_c = (Ok false, Examples.pg_with_c))
  /\ (PGVectorProvider.insert_one Examples.pg_provider (py "c") (py "t") [1%Q]
        None (Some 1) Examples.pg_with_c = (Ok true, Examples.pg_after_one) ->
      exists t chunk_id,
        PGVectorProvider.tables Examples.pg_with_c !! py "c" = Some t
        /\ Some 1 = Some chunk_id /\ chunk_id <> 0
        /\ table_rows Examples.pg_after_one (py "c")
           = PGVectorProvider.rows t
             ++ [PGVectorProvider.mkRow (PGVectorProvider.next_id t) (py "t")
                   [1%Q] (py "{}") chunk_id]).
Proof.
  apply (pg_insert_one_effect Examples.pg_provider (py "c") (py "t") [1%Q]
           None (Some 1) Examples.pg_with_c Examples.pg_after_one).
Defined.

(** The single insertion and the batch of one leave the same database. *)
Example pg_insert_one_like_batch_of_one :
  PGVectorProvider.insert_one Examples.pg_provider (py "c") (py "t") [1%Q]
    None (Some 1) Examples.pg_with_c = (Ok true, Examples.pg_after_one).
Proof. vm_compute. reflexivity. Qed.

Lemma existsb_filter_out (iname : str) (l : list PGVectorProvider.vector_index) :
  existsb (fun i => bool_decide (PGVectorProvider.index_name i = iname))
          (filter (fun i => PGVectorProvider.index_name i <> iname) l)
  = false.
Proof.
  induction l as [|i l IH]; [reflexivity|].
  rewrite filter_cons. destruct (decide _) as [Hne|Heq]; [|exact IH].
  simpl. rewrite IH, bool_decide_eq_false_2 by exact Hne. reflexivity.
Qed.

(** X15: below the threshold [reset_vector_index] only drops: it
    answers [False] and leaves the collection without the index named
    [<collection>_vector_idx], whether or not it had one, with its other
    indexes and its rows untouched. *)
Theorem pg_reset_vector_index_below_threshold (p : PGVectorProvider.provider)
    (name itype : str) (db : PGVectorProvider.database)
    (t : PGVectorProvider.table) :
  PGVectorProvider.tables db !! name = Some t ->
  Z.of_nat (length (PGVectorProvider.rows t))
  < PGVectorProvider.index_threshold p ->
  exists db',
    PGVectorProvider.reset_vector_index p name itype db = (Ok (Some false), db')
    /\ table_indexes db' name
       = filter (fun i => PGVectorProvider.index_name i
                          <> PGVectorProvider.default_index_name name)
                (PGVectorProvider.indexes t)
    /\ PGVectorProvider.is_index_existed p name db' = (Ok false, db')
    /\ table_rows db' name = PGVectorProvider.rows t.
Proof.
  intros Ht Hlt.
  unfold PGVectorProvider.reset_vector_index, bind.
  unfold PGVectorProvider.transaction at 1.
  unfold PGVectorProvider.sql_drop_index_if_exists.
  set (db1 := PGVectorProvider.mkDatabase _ _).
  assert (Ht1 : PGVectorProvider.tables db1 !! name
                = Some (PGVectorProvider.mkTable
                          (PGVectorProvider.embedding_size t)
                          (PGVectorProvider.rows t) (PGVectorProvider.next_id t)
                          (filter (fun i => PGVectorProvider.index_name i
                                            <> PGVectorProvider.default_index_name name)
                                  (PGVectorProvider.indexes t)))).
  { subst db1. cbn [PGVectorProvider.tables]. rewrite lookup_fmap, Ht.
    reflexivity. }
  exists db1. split; [|split; [|split]].
  - apply (pg_create_vector_index_below p name itype db1 _ Ht1).
    + cbn [PGVectorProvider.indexes]. apply existsb_filter_out.
    + exact Hlt.
  - unfold table_indexes. rewrite Ht1. reflexivity.
  - rewrite (pg_is_index_existed_value p name db1 _ Ht1).
    cbn [PGVectorProvider.indexes]. rewrite existsb_filter_out. reflexivity.
  - unfold table_rows. rewrite Ht1. reflexivity.
Qed.

Lemma pg_reset_vector_index_below_threshold_witness :
  exists db',
    PGVectorProvider.reset_vector_index Examples.pg_provider (py "d")
      (py "hnsw") Examples.pg_two_rows = (Ok (Some false), db')
    /\ table_indexes db' (py "d")
       = filter (fun i => PGVectorProvider.index_name i
                          <> PGVectorProvider.default_index_name (py "d")) []
    /\ PGVectorProvider.is_index_existed Examples.pg_provider (py "d") db'
       = (Ok false, db')
    /\ table_rows db' (py "d") = Examples.two_rows.
Proof.
  apply (pg_reset_vector_index_below_threshold Examples.pg_provider (py "d")
           (py "hnsw") Examples.pg_two_rows
           (PGVectorProvider.mkTable 2 Examples.two_rows 3 [])).
  - reflexivity.
  - simpl. lia.
Defined.

(** ** The Qdrant backend: uploads replace by id *)



Lemma upserted_size (l : list QdrantDBProvider.Record_)
    (c : QdrantDBProvider.collection) :
  QdrantDBProvider.size (upserted l c) = QdrantDBProvider.size c.
Proof. reflexivity. Qed.











(** ** The Qdrant backend: a collection that does not exist *)

Lemma index_ok {A} (l : list A) (x : nat) :
  (x < length l)%nat -> exists a, QdrantDBProvider.index l x = Ok a /\ l !! x = Some a.
Proof.
  intros Hx. destruct (lookup_lt_is_Some_2 l x Hx) as [a Ha].
  exists a. unfold QdrantDBProvider.index. rewrite Ha. split; reflexivity.
Qed.

(** The records of a batch can be built when no id is [None] and the
    vectors, metadata items and ids reach as far as the texts. *)
Lemma build_records_ok (batch_texts : list str) (batch_vectors : list vector)
    (batch_metadata : list QdrantDBProvider.payload_metadata)
    (batch_record_ids : list (option Z)) (xs : list nat) :
  Forall is_Some batch_record_ids ->
  Forall (fun x => (x < length batch_texts)%nat
                   /\ (x < length batch_vectors)%nat
                   /\ (x < length batch_metadata)%nat
                   /\ (x < length batch_record_ids)%nat) xs ->
  exists records,
    QdrantDBProvider.build_records batch_texts batch_vectors batch_metadata
      batch_record_ids xs = Ok records.
Proof.
  intros Hids Hxs. induction Hxs as [|x xs (Ht & Hv & Hm & Hi) _ IH].
  - exists []. reflexivity.
  - cbn [QdrantDBProvider.build_records].
    destruct (index_ok batch_record_ids x Hi) as (i & -> & Hli).
    destruct (index_ok batch_vectors x Hv) as (v & -> & _).
    destruct (index_ok batch_texts x Ht) as (t & -> & _).
    destruct (index_ok batch_metadata x Hm) as (m & -> & _).
    destruct (Forall_lookup_1 _ _ _ _ Hids Hli) as [z ->].
    destruct IH as (rs & ->). eexists. reflexivity.
Qed.

Lemma range0_first (stop step : Z) :
  0 < stop -> 0 < step ->
  exists starts, range0 stop step = Ok (0 :: starts).
Proof.
  intros Hstop Hstep. unfold range0.
  assert (H0 : (step =? 0) = false) by (apply Z.eqb_neq; lia).
  assert (H1 : (step <? 0) = false) by (apply Z.ltb_ge; lia).
  rewrite H0, H1.
  assert (Hq : 1 <= (stop + step - 1) / step)
    by (apply Z.div_le_lower_bound; lia).
  destruct (Z.to_nat ((stop + step - 1) / step)) as [|n] eqn:En; [lia|].
  simpl. eexists. reflexivity.
Qed.

(** X17: on a store where the collection does not exist, the Qdrant
    [create_collection] followed by [insert_many] of a batch that is not
    empty and has a vector, an id and a metadata item for every text
    answers [False] and leaves the store as it was: the creation does
    nothing and the error of the upload is caught. *)
Theorem qdrant_absent_collection_never_filled (p : QdrantDBProvider.provider)
    (name : str) (embedding_size : Z) (do_reset : bool) (texts : list str)
    (vectors : list vector) (metadata : option (list metadata_item))
    (record_ids : list Z) (batch_size : Z) (st : QdrantDBProvider.store) :
  st !! name = None ->
  texts <> [] ->
  0 < batch_size ->
  (length texts <= length vectors)%nat ->
  (length texts <= length record_ids)%nat ->
  match metadata with
  | Some m => (length texts <= length m)%nat
  | None => True
  end ->
  (QdrantDBProvider.create_collection p name embedding_size do_reset ;;;
   QdrantDBProvider.insert_many p name texts vectors metadata
     (Some record_ids) batch_size) st
  = (Ok false, st).
Proof.
  intros Hst Htexts Hbs Hv Hi Hm.
  unfold bind. cbn [QdrantDBProvider.create_collection coroutine_truthy negb ret].
  unfold QdrantDBProvider.insert_many.
  destruct (range0_first (Z.of_nat (length texts)) batch_size) as (starts & ->);
    [destruct texts; [contradiction | simpl; lia] | exact Hbs |].
  cbn [QdrantDBProvider.insert_batches].
  match goal with
  | |- context [QdrantDBProvider.build_records ?a ?b ?c ?d ?e] =>
      destruct (build_records_ok a b c d e) as (rs & ->)
  end.
  - unfold slice. apply Forall_take, Forall_drop.
    apply Forall_fmap, Forall_forall. intros z _. eexists. reflexivity.
  - apply Forall_forall. intros x Hx.
    apply list_elem_of_In, in_seq in Hx. destruct Hx as [_ Hx]. simpl in Hx.
    rewrite !slice_length in *. change (Z.to_nat 0) with 0%nat in *.
    rewrite length_map.
    assert (Hmd : (length texts
                   <= length (match metadata with
                              | Some m =>
                                  map (fun x0 => match x0 with
                                                 | Some d => QdrantDBProvider.MetaDict d
                                                 | None => QdrantDBProvider.MetaNone
                                                 end) m
                              | None =>
                                  map (fun k => QdrantDBProvider.MetaInt (Z.of_nat k))
                                      (seq 0 (length texts))
                              end))%nat).
    { destruct metadata; rewrite length_map, ?length_seq; lia. }
    lia.
  - unfold QdrantDBProvider.client_upload_records. rewrite Hst. reflexivity.
Qed.

Lemma qdrant_absent_collection_never_filled_witness :
  (QdrantDBProvider.create_collection Examples.qdrant_provider (py "c") 1 true ;;;
   QdrantDBProvider.insert_many Examples.qdrant_provider (py "c") [py "t"]
     [[1%Q]] None (Some [1]) 50) ∅
  = (Ok false, ∅).
Proof.
  apply (qdrant_absent_collection_never_filled Examples.qdrant_provider
           (py "c") 1 true [py "t"] [[1%Q]] None [1] 50 ∅).
  - reflexivity.
  - discriminate.
  - lia.
  - simpl. lia.
  - simpl. lia.
  - exact I.
Defined.

(** ** The Qdrant backend: search and single insertion *)

(** X18: a search in an existing Qdrant collection with a query vector
    of the collection's size changes nothing and never returns an empty
    list or [False]: with a limit that is not negative it returns [None]
    when the limit is 0 or the collection has no point, and otherwise a
    list of [min(limit, number of points)] documents. With a query
    vector of another length the client's error is raised, uncaught. *)
Theorem qdrant_search_existing
    (similarity : QdrantDBProvider.Distance -> vector -> vector -> Q)
    (p : QdrantDBProvider.provider) (name : str) (v : vector) (limit : Z)
    (st : QdrantDBProvider.store) (c : QdrantDBProvider.collection) :
  st !! name = Some c ->
  0 <= limit ->
  (Z.of_nat (length v) = QdrantDBProvider.size c ->
   exists r,
     QdrantDBProvider.search_by_vector similarity p name v limit st = (Ok r, st)
     /\ match r with
        | SNone =>
            Nat.min (Z.to_nat limit) (size (QdrantDBProvider.points c)) = 0%nat
        | SDocs docs =>
            docs <> []
            /\ length docs
               = Nat.min (Z.to_nat limit) (size (QdrantDBProvider.points c))
        | SFalse => False
        end)
  /\ (Z.of_nat (length v) <> QdrantDBProvider.size c ->
      QdrantDBProvider.search_by_vector similarity p name v limit st
      = (Raise (ValueError "wrong vector size"), st)).
Proof.
  intros Hc Hl. unfold QdrantDBProvider.search_by_vector, bind,
    QdrantDBProvider.client_search.
  rewrite Hc. split; intros Hv.
  2:{ apply Z.eqb_neq in Hv. rewrite Hv. reflexivity. }
  apply Z.eqb_eq in Hv. rewrite Hv. cbn [negb].
  set (results := take (Z.to_nat limit) _).
  assert (Hlen : length results
                 = Nat.min (Z.to_nat limit) (size (QdrantDBProvider.points c))).
  { subst results. rewrite length_take.
    rewrite (Permutation_length
               (merge_sort_Permutation QdrantDBProvider.scored_desc _)).
    rewrite length_map, length_map_to_list. reflexivity. }
  destruct (Nat.eqb (length results) 0) eqn:E.
  - exists SNone. split; [reflexivity|]. apply Nat.eqb_eq in E.
    rewrite <- Hlen. exact E.
  - eexists (SDocs _). split; [reflexivity|]. apply Nat.eqb_neq in E. split.
    + intros Hnil. apply (f_equal length) in Hnil.
      rewrite length_map in Hnil. simpl in Hnil. lia.
    + rewrite length_map. exact Hlen.
Qed.

Lemma qdrant_search_existing_witness :
  (Z.of_nat (length [1%Q])
   = QdrantDBProvider.size
       (QdrantDBProvider.mkCollection 1 QdrantDBProvider.COSINE
          {[ 1 := QdrantDBProvider.mkRecord 1 [1%Q] (py "t")
                    QdrantDBProvider.MetaNone ]}) ->
   exists r,
     QdrantDBProvider.search_by_vector Examples.similarity
       Examples.qdrant_provider (py "c") [1%Q] 5 Examples.qdrant_with_point
     = (Ok r, Examples.qdrant_with_point)
     /\ match r with
        | SNone =>
            Nat.min (Z.to_nat 5)
              (size (QdrantDBProvider.points
                       (QdrantDBProvider.mkCollection 1 QdrantDBProvider.COSINE
                          {[ 1 := QdrantDBProvider.mkRecord 1 [1%Q] (py "t")
                                    QdrantDBProvider.MetaNone ]})))
            = 0%nat
        | SDocs docs =>
            docs <> []
            /\ length docs
               = Nat.min (Z.to_nat 5)
                   (size (QdrantDBProvider.points
                            (QdrantDBProvider.mkCollection 1
                               QdrantDBProvider.COSINE
                               {[ 1 := QdrantDBProvider.mkRecord 1 [1%Q]
                                         (py "t") QdrantDBProvider.MetaNone ]})))
        | SFalse => False
        end)
  /\ (Z.of_nat (length [1%Q])
      <> QdrantDBProvider.size
           (QdrantDBProvider.mkCollection 1 QdrantDBProvider.COSINE
              {[ 1 := QdrantDBProvider.mkRecord 1 [1%Q] (py "t")
                        QdrantDBProvider.MetaNone ]}) ->
      QdrantDBProvider.search_by_vector Examples.similarity
        Examples.qdrant_provider (py "c") [1%Q] 5 Examples.qdrant_with_point
      = (Raise (ValueError "wrong vector size"), Examples.qdrant_with_point)).
Proof.
  apply (qdrant_search_existing Examples.similarity Examples.qdrant_provider
           (py "c") [1%Q] 5 Examples.qdrant_with_point
           (QdrantDBProvider.mkCollection 1 QdrantDBProvider.COSINE
              {[ 1 := QdrantDBProvider.mkRecord 1 [1%Q] (py "t")
                        QdrantDBProvider.MetaNone ]})).
  - reflexivity.
  - lia.
Defined.

(** A query of three components on a collection of size 1 is refused,
    and a query of one component finds the stored point. *)
Example qdrant_search_wrong_size :
  QdrantDBProvider.search_by_vector Examples.similarity
    Examples.qdrant_provider (py "c") [1%Q; 0%Q; 0%Q] 5
    Examples.qdrant_with_point
  = (Raise (ValueError "wrong vector size"), Examples.qdrant_with_point)
  /\ exists score,
       QdrantDBProvider.search_by_vector Examples.similarity
         Examples.qdrant_provider (py "c") [1%Q] 5 Examples.qdrant_with_point
       = (Ok (SDocs [mkRetrievedDocument (py "t") score]),
          Examples.qdrant_with_point).
Proof.
  split; [vm_compute; reflexivity|]. eexists. vm_compute. reflexivity.
Qed.

(** X19: the Qdrant [insert_one] never raises. It answers [True]
    exactly when the record id is not [None], the collection exists and
    the vector has its size (in both directions); the point is then
    stored under its id in place of any point of that id. In every
    other case it answers [False] and leaves the store as it was. *)
Theorem qdrant_insert_one_total (p : QdrantDBProvider.provider) (name text : str)
    (v : vector) (metadata : metadata_item) (record_id : option Z)
    (st : QdrantDBProvider.store) :
  exists (b : bool) (st' : QdrantDBProvider.store),
    QdrantDBProvider.insert_one p name text v metadata record_id st = (Ok b, st')
    /\ (b = true <->
        exists c i,
          st !! name = Some c /\ record_id = Some i
          /\ Z.of_nat (length v) = QdrantDBProvider.size c)
    /\ (b = false -> st' = st)
    /\ (b = true ->
        forall c i,
          st !! name = Some c -> record_id = Some i ->
          st' = <[name :=
                    QdrantDBProvider.mkCollection (QdrantDBProvider.size c)
                      (QdrantDBProvider.distance c)
                      (<[i := QdrantDBProvider.mkRecord i v text
                                (match metadata with
                                 | Some d => QdrantDBProvider.MetaDict d
                                 | None => QdrantDBProvider.MetaNone
                                 end)]> (QdrantDBProvider.points c))]> st).
Proof.
  unfold QdrantDBProvider.insert_one. cbn [coroutine_truthy negb].
  destruct record_id as [i|].
  2:{ exists false, st. split; [reflexivity|].
      split; [|split; [reflexivity | discriminate]].
      split; [discriminate|]. intros (c & i & _ & Hi & _). discriminate. }
  unfold QdrantDBProvider.client_upload_records.
  destruct (st !! name) as [c|] eqn:Hc.
  2:{ exists false, st. split; [reflexivity|].
      split; [|split; [reflexivity | discriminate]].
      split; [discriminate|]. intros (c & i' & Hc' & _). discriminate. }
  cbn [for_each]. unfold bind, QdrantDBProvider.upsert_point.
  rewrite Hc. cbn [QdrantDBProvider.vector_ QdrantDBProvider.id].
  destruct (Z.of_nat (length v) =? QdrantDBProvider.size c) eqn:Ed; cbn [negb].
  - eexists true, _. split; [reflexivity|]. apply Z.eqb_eq in Ed.
    split; [|split; [discriminate|]].
    + split; [|reflexivity]. intros _. exists c, i. repeat split; assumption.
    + intros _ c' i' Hc' Hi'. injection Hc' as <-. injection Hi' as <-.
      reflexivity.
  - exists false, st. split; [reflexivity|]. apply Z.eqb_neq in Ed.
    split; [|split; [reflexivity | discriminate]].
    split; [discriminate|]. intros (c' & i' & Hc' & _ & Hv).
    injection Hc' as <-. contradiction.
Qed.

Lemma qdrant_insert_one_total_witness :
  exists (b : bool) (st' : QdrantDBProvider.store),
    QdrantDBProvider.insert_one Examples.qdrant_provider (py "c") (py "t")
      [1%Q] None (Some 1) Examples.qdrant_with_c = (Ok b, st')
    /\ (b = true <->
        exists c i,
          Examples.qdrant_with_c !! py "c" = Some c /\ Some 1 = Some i
          /\ Z.of_nat (length [1%Q]) = QdrantDBProvider.size c)
    /\ (b = false -> st' = Examples.qdrant_with_c)
    /\ (b = true ->
        forall c i,
          Examples.qdrant_with_c !! py "c" = Some c -> Some 1 = Some i ->
          st' = <[py "c" :=
                    QdrantDBProvider.mkCollection (QdrantDBProvider.size c)
                      (QdrantDBProvider.distance c)
                      (<[i := QdrantDBProvider.mkRecord i [1%Q] (py "t")
                                QdrantDBProvider.MetaNone]>
                         (QdrantDBProvider.points c))]>
                 Examples.qdrant_with_c).
Proof.
  apply (qdrant_insert_one_total Examples.qdrant_provider (py "c") (py "t")
           [1%Q] None (Some 1) Examples.qdrant_with_c).
Defined.

(** On the store with the empty collection [c] of size 1, a point with
    a vector of one component is stored and one with two components is
    refused. *)
Example qdrant_insert_one_runs :
  QdrantDBProvider.insert_one Examples.qdrant_provider (py "c") (py "t")
    [1%Q] None (Some 1) Examples.qdrant_with_c
  = (Ok true, Examples.qdrant_with_point)
  /\ QdrantDBProvider.insert_one Examples.qdrant_provider (py "c") (py "t")
       [1%Q; 0%Q] None (Some 1) Examples.qdrant_with_c
     = (Ok false, Examples.qdrant_with_c).
Proof.
  split; vm_compute; reflexivity.
Qed.

(** ** The retrieval layer *)

(** X20: for every backend, what [search_vector_db_collection] returns
    is [False] or a list that is not empty, never [None] and never an
    empty list; and when the embedding client gives no usable query
    vector it answers [False] without calling the vector store. *)
Theorem retrieval_result_normal_form {P St : Type}
    {VDB : VectorDBInterface P St} (c : NLPController.controller)
    (project : NLPController.Project) (text : str) (limit : Z) (st : St) :
  (forall r st',
      NLPController.search_vector_db_collection c project text limit st
      = (Ok r, st') ->
      r = SFalse \/ exists d ds, r = SDocs (d :: ds))
  /\ (NLPController.embed_text (NLPController.embedding_client c) [text]
        NLPController.QUERY = None
      \/ NLPController.embed_text (NLPController.embedding_client c) [text]
           NLPController.QUERY = Some []
      \/ (exists rest,
            NLPController.embed_text (NLPController.embedding_client c) [text]
              NLPController.QUERY = Some ([] :: rest)) ->
      NLPController.search_vector_db_collection c project text limit st
      = (Ok SFalse, st)).
Proof.
  unfold NLPController.search_vector_db_collection. split.
  - intros r st' H.
    destruct (NLPController.embed_text _ _ _) as [[|qv rest]|];
      try (injection H as <- _; left; reflexivity).
    destruct (Nat.eqb (length qv) 0);
      [injection H as <- _; left; reflexivity|].
    unfold bind in H.
    destruct (search_by_vector _ _ _ _ st) as [[[| |[|d ds]]|e] st1];
      cbn in H; try discriminate;
      try (injection H as <- _; left; reflexivity).
    injection H as <- _. right. exists d, ds. reflexivity.
  - intros [-> | [-> | (rest & ->)]]; reflexivity.
Qed.

Lemma retrieval_result_normal_form_witness :
  (forall r st',
      NLPController.search_vector_db_collection Examples.pg_controller
        (NLPController.mkProject 7) (py "q") 5 Examples.pg_empty = (Ok r, st') ->
      r = SFalse \/ exists d ds, r = SDocs (d :: ds))
  /\ (NLPController.embed_text
        (NLPController.embedding_client Examples.pg_controller) [py "q"]
        NLPController.QUERY = None
      \/ NLPController.embed_text
           (NLPController.embedding_client Examples.pg_controller) [py "q"]
           NLPController.QUERY = Some []
      \/ (exists rest,
            NLPController.embed_text
              (NLPController.embedding_client Examples.pg_controller) [py "q"]
              NLPController.QUERY = Some ([] :: rest)) ->
      NLPController.search_vector_db_collection Examples.pg_controller
        (NLPController.mkProject 7) (py "q") 5 Examples.pg_empty
      = (Ok SFalse, Examples.pg_empty)).
Proof.
  apply (retrieval_result_normal_form Examples.pg_controller
           (NLPController.mkProject 7) (py "q") 5 Examples.pg_empty).
Defined.

(** ** Assembling the prompt of an answer *)

Lemma join_items_some {A} (f : A -> str) (l : list A) :
  NLPController.join_items (map (fun x => Some (f x)) l) = Ok (map f l).
Proof.
  induction l as [|x l IH]; simpl; [reflexivity|]. rewrite IH. reflexivity.
Qed.

(** The run of [answer_rag_question] when documents were retrieved, the
    templates render, the generation client is ready and the endpoint
    answers. *)
Lemma answer_rag_question_run {P St : Type} {VDB : VectorDBInterface P St}
    (c : NLPController.controller) (project : NLPController.Project)
    (query : str) (limit : Z) (w : NLPController.world St) (st' : St)
    (d : RetrievedDocument) (ds : list RetrievedDocument)
    (render : nat * RetrievedDocument -> str) (footer : str)
    (create : OpenAIProvider.completions_api) (m : N) (model : str)
    (resp : OpenAIProvider.response) :
  NLPController.search_vector_db_collection c project query limit
    (NLPController.vdb w) = (Ok (SDocs (d :: ds)), st') ->
  (forall x : nat * RetrievedDocument,
      NLPController.template_parser c (py "rag") (py "document_prompt")
        [(py "doc_num", str_of_int (Z.of_nat x.1 + 1));
         (py "chunk_text",
          OpenAIProvider.process_prompt (NLPController.generation_client c)
            (VectorDB.text x.2))]
      = Some (render x)) ->
  NLPController.template_parser c (py "rag") (py "footer_prompt")
    [(py "query", query)] = Some footer ->
  OpenAIProvider.client (NLPController.generation_client c) = Some create ->
  OpenAIProvider.generation_model_id (NLPController.generation_client c)
  = Some (m :: model) ->
  create (m :: model)
    [OpenAIProvider.mkMessage OpenAIProvider.SYSTEM
       (NLPController.template_parser c (py "rag") (py "system_prompt") []);
     OpenAIProvider.mkMessage OpenAIProvider.USER
       (Some (join [10%N] (map render (NLPController.enumerate (d :: ds)))
              ++ [10%N; 10%N] ++ footer))]
    (OpenAIProvider.default_generation_max_output_tokens
       (NLPController.generation_client c))
    (OpenAIProvider.default_generation_temperature
       (NLPController.generation_client c))
  = Ok resp ->
  NLPController.answer_rag_question c project query limit w
  = (Ok (Some (first_content resp,
               join [10%N] (map render (NLPController.enumerate (d :: ds)))
               ++ [10%N; 10%N] ++ footer,
               fresh (dom (NLPController.lists w)))),
     NLPController.mkWorld st'
       (<[fresh (dom (NLPController.lists w)) :=
            [OpenAIProvider.mkMessage OpenAIProvider.SYSTEM
               (NLPController.template_parser c (py "rag")
                  (py "system_prompt") []);
             OpenAIProvider.mkMessage OpenAIProvider.USER
               (Some (join [10%N]
                        (map render (NLPController.enumerate (d :: ds)))
                      ++ [10%N; 10%N] ++ footer))]]>
          (NLPController.lists w))).
Proof.
  intros Hs Hdoc Hfoot Hclient Hmodel Hcreate.
  unfold NLPController.answer_rag_question, bind.
  unfold NLPController.on_vdb at 1. rewrite Hs.
  unfold NLPController.join_opt.
  rewrite (map_ext _ (fun x => Some (render x)) Hdoc).
  rewrite join_items_some, Hfoot.
  cbn [NLPController.join_items join].
  unfold NLPController.on_lists, NLPController.list_new.
  cbn [NLPController.lists NLPController.vdb].
  unfold OpenAIProvider.generate_text. rewrite Hclient, Hmodel.
  unfold bind, OpenAIProvider.list_append, OpenAIProvider.list_read,
    OpenAIProvider.construct_prompt.
  rewrite lookup_insert_eq. rewrite lookup_insert_eq.
  rewrite insert_insert_eq.
  cbn [app] in Hcreate |- *.
  rewrite Hcreate.
  destruct resp as [[|[[content|]] choices]|]; reflexivity.
Qed.

(** X21: when documents were retrieved, the templates render, the
    generation client is ready and the endpoint answers,
    [answer_rag_question] returns the prompt made of the rendered
    documents, numbered from 1 and joined by newlines, then an empty
    line, then the footer; the chat history it returns is a new list
    object, unknown to the heap before, which holds the system message
    followed by the user message with that prompt; no other list object
    changes. *)
Theorem answer_rag_question_assembles {P St : Type}
    {VDB : VectorDBInterface P St}
    (c : NLPController.controller) (project : NLPController.Project)
    (query : str) (limit : Z) (w : NLPController.world St) (st' : St)
    (d : RetrievedDocument) (ds : list RetrievedDocument)
    (render : nat * RetrievedDocument -> str) (footer : str)
    (create : OpenAIProvider.completions_api) (m : N) (model : str)
    (resp : OpenAIProvider.response) :
  NLPController.search_vector_db_collection c project query limit
    (NLPController.vdb w) = (Ok (SDocs (d :: ds)), st') ->
  (forall x : nat * RetrievedDocument,
      NLPController.template_parser c (py "rag") (py "document_prompt")
        [(py "doc_num", str_of_int (Z.of_nat x.1 + 1));
         (py "chunk_text",
          OpenAIProvider.process_prompt (NLPController.generation_client c)
            (VectorDB.text x.2))]
      = Some (render x)) ->
  NLPController.template_parser c (py "rag") (py "footer_prompt")
    [(py "query", query)] = Some footer ->
  OpenAIProvider.client (NLPController.generation_client c) = Some create ->
  OpenAIProvider.generation_model_id (NLPController.generation_client c)
  = Some (m :: model) ->
  create (m :: model)
    [OpenAIProvider.mkMessage OpenAIProvider.SYSTEM
       (NLPController.template_parser c (py "rag") (py "system_prompt") []);
     OpenAIProvider.mkMessage OpenAIProvider.USER
       (Some (join [10%N] (map render (NLPController.enumerate (d :: ds)))
              ++ [10%N; 10%N] ++ footer))]
    (OpenAIProvider.default_generation_max_output_tokens
       (NLPController.generation_client c))
    (OpenAIProvider.default_generation_temperature
       (NLPController.generation_client c))
  = Ok resp ->
  exists answer full_prompt chat_history w',
    NLPController.answer_rag_question c project query limit w
    = (Ok (Some (answer, full_prompt, chat_history)), w')
    /\ full_prompt
       = join [10%N] (map render (NLPController.enumerate (d :: ds)))
         ++ [10%N; 10%N] ++ footer
    /\ map fst (NLPController.enumerate (d :: ds))
       = seq 0 (length (d :: ds))
    /\ map snd (NLPController.enumerate (d :: ds)) = d :: ds
    /\ NLPController.lists w !! chat_history = None
    /\ NLPController.lists w' !! chat_history
       = Some [OpenAIProvider.mkMessage OpenAIProvider.SYSTEM
                 (NLPController.template_parser c (py "rag")
                    (py "system_prompt") []);
               OpenAIProvider.mkMessage OpenAIProvider.USER (Some full_prompt)]
    /\ (forall l, l <> chat_history ->
          NLPController.lists w' !! l = NLPController.lists w !! l)
    /\ NLPController.vdb w' = st'.
Proof.
  intros Hs Hdoc Hfoot Hclient Hmodel Hcreate.
  eexists _, _, _, _. split.
  { eapply answer_rag_question_run; eassumption. }
  split; [reflexivity|].
  split; [unfold NLPController.enumerate; apply fst_zip;
          rewrite length_seq; reflexivity|].
  split; [unfold NLPController.enumerate; apply snd_zip;
          rewrite length_seq; reflexivity|].
  split; [apply not_elem_of_dom, is_fresh|].
  cbn [NLPController.lists NLPController.vdb].
  split; [apply lookup_insert_eq|].
  split; [|reflexivity].
  intros l Hl. apply lookup_insert_ne. congruence.
Qed.

Lemma answer_rag_question_assembles_witness :
  exists answer full_prompt chat_history w',
    NLPController.answer_rag_question Examples.pg_controller
      (NLPController.mkProject 7) (py "q") 5
      (NLPController.mkWorld Examples.pg_indexed ∅)
    = (Ok (Some (answer, full_prompt, chat_history)), w')
    /\ full_prompt
       = join [10%N] (map (fun _ => py "document_prompt")
                        (NLPController.enumerate [Examples.retrieved_one]))
         ++ [10%N; 10%N] ++ py "footer_prompt"
    /\ map fst (NLPController.enumerate [Examples.retrieved_one])
       = seq 0 (length [Examples.retrieved_one])
    /\ map snd (NLPController.enumerate [Examples.retrieved_one])
       = [Examples.retrieved_one]
    /\ NLPController.lists (NLPController.mkWorld Examples.pg_indexed ∅)
         !! chat_history = None
    /\ NLPController.lists w' !! chat_history
       = Some [OpenAIProvider.mkMessage OpenAIProvider.SYSTEM
                 (NLPController.template_parser Examples.pg_controller
                    (py "rag") (py "system_prompt") []);
               OpenAIProvider.mkMessage OpenAIProvider.USER (Some full_prompt)]
    /\ (forall l, l <> chat_history ->
          NLPController.lists w' !! l
          = NLPController.lists (NLPController.mkWorld Examples.pg_indexed ∅)
              !! l)
    /\ NLPController.vdb w' = Examples.pg_indexed.
Proof.
  apply (answer_rag_question_assembles Examples.pg_controller
           (NLPController.mkProject 7) (py "q") 5
           (NLPController.mkWorld Examples.pg_indexed ∅) Examples.pg_indexed
           Examples.retrieved_one [] (fun _ => py "document_prompt")
           (py "footer_prompt") Examples.completions 103%N (py "pt")
           (Some [OpenAIProvider.mkChoice (Some (Some (py "ok")))])).
  - vm_compute. reflexivity.
  - intros x. reflexivity.
  - reflexivity.
  - reflexivity.
  - reflexivity.
  - reflexivity.
Defined.

(** X22: under the same conditions the route [answer_rag] sends status
    200 with the answer, the prompt and the chat history of two
    messages when the endpoint gave a text that is not empty, and status
    400 with [RAG_ANSWER_ERROR] when it gave no choice, no message, no
    content or an empty text. *)
Theorem answer_rag_route_outcome {P St : Type} {VDB : VectorDBInterface P St}
    (app : NLPController.controller) (project_id : Z)
    (search_request : Routes.SearchRequest) (w : NLPController.world St)
    (st' : St) (d : RetrievedDocument) (ds : list RetrievedDocument)
    (render : nat * RetrievedDocument -> str) (footer : str)
    (create : OpenAIProvider.completions_api) (m : N) (model : str)
    (resp : OpenAIProvider.response) :
  NLPController.search_vector_db_collection app
    (NLPController.mkProject project_id) (Routes.text search_request)
    (Routes.limit search_request) (NLPController.vdb w)
  = (Ok (SDocs (d :: ds)), st') ->
  (forall x : nat * RetrievedDocument,
      NLPController.template_parser app (py "rag") (py "document_prompt")
        [(py "doc_num", str_of_int (Z.of_nat x.1 + 1));
         (py "chunk_text",
          OpenAIProvider.process_prompt (NLPController.generation_client app)
            (VectorDB.text x.2))]
      = Some (render x)) ->
  NLPController.template_parser app (py "rag") (py "footer_prompt")
    [(py "query", Routes.text search_request)] = Some footer ->
  OpenAIProvider.client (NLPController.generation_client app) = Some create ->
  OpenAIProvider.generation_model_id (NLPController.generation_client app)
  = Some (m :: model) ->
  create (m :: model)
    [OpenAIProvider.mkMessage OpenAIProvider.SYSTEM
       (NLPController.template_parser app (py "rag") (py "system_prompt") []);
     OpenAIProvider.mkMessage OpenAIProvider.USER
       (Some (join [10%N] (map render (NLPController.enumerate (d :: ds)))
              ++ [10%N; 10%N] ++ footer))]
    (OpenAIProvider.default_generation_max_output_tokens
       (NLPController.generation_client app))
    (OpenAIProvider.default_generation_temperature
       (NLPController.generation_client app))
  = Ok resp ->
  exists w',
    Routes.answer_rag app project_id search_request w
    = (Ok (match first_content resp with
           | Some (a :: answer) =>
               Routes.mkJSONResponse 200
                 (Routes.Answer Routes.RAG_ANSWER_SUCCESS (a :: answer)
                    (join [10%N]
                       (map render (NLPController.enumerate (d :: ds)))
                     ++ [10%N; 10%N] ++ footer)
                    [OpenAIProvider.mkMessage OpenAIProvider.SYSTEM
                       (NLPController.template_parser app (py "rag")
                          (py "system_prompt") []);
                     OpenAIProvider.mkMessage OpenAIProvider.USER
                       (Some (join [10%N]
                                (map render
                                   (NLPController.enumerate (d :: ds)))
                              ++ [10%N; 10%N] ++ footer))])
           | _ => Routes.mkJSONResponse 400 (Routes.Signal Routes.RAG_ANSWER_ERROR)
           end), w').
Proof.
  intros Hs Hdoc Hfoot Hclient Hmodel Hcreate.
  unfold Routes.answer_rag, Routes.get_or_create_project, bind.
  rewrite (answer_rag_question_run app (NLPController.mkProject project_id)
             (Routes.text search_request) (Routes.limit search_request) w st'
             d ds render footer create m model resp
             Hs Hdoc Hfoot Hclient Hmodel Hcreate).
  destruct (first_content resp) as [[|a answer]|].
  - eexists. reflexivity.
  - unfold NLPController.on_lists, OpenAIProvider.list_read.
    cbn [NLPController.lists NLPController.vdb].
    rewrite lookup_insert_eq. eexists. reflexivity.
  - eexists. reflexivity.
Qed.

Lemma answer_rag_route_outcome_witness :
  exists w',
    Routes.answer_rag Examples.pg_controller 7
      (Routes.mkSearchRequest (py "q") 5)
      (NLPController.mkWorld Examples.pg_indexed ∅)
    = (Ok (match first_content
                   (Some [OpenAIProvider.mkChoice (Some (Some (py "ok")))]) with
           | Some (a :: answer) =>
               Routes.mkJSONResponse 200
                 (Routes.Answer Routes.RAG_ANSWER_SUCCESS (a :: answer)
                    (join [10%N]
                       (map (fun _ => py "document_prompt")
                          (NLPController.enumerate [Examples.retrieved_one]))
                     ++ [10%N; 10%N] ++ py "footer_prompt")
                    [OpenAIProvider.mkMessage OpenAIProvider.SYSTEM
                       (NLPController.template_parser Examples.pg_controller
                          (py "rag") (py "system_prompt") []);
                     OpenAIProvider.mkMessage OpenAIProvider.USER
                       (Some (join [10%N]
                                (map (fun _ => py "document_prompt")
                                   (NLPController.enumerate
                                      [Examples.retrieved_one]))
                              ++ [10%N; 10%N] ++ py "footer_prompt"))])
           | _ => Routes.mkJSONResponse 400 (Routes.Signal Routes.RAG_ANSWER_ERROR)
           end), w').
Proof.
  apply (answer_rag_route_outcome Examples.pg_controller 7
           (Routes.mkSearchRequest (py "q") 5)
           (NLPController.mkWorld Examples.pg_indexed ∅) Examples.pg_indexed
           Examples.retrieved_one [] (fun _ => py "document_prompt")
           (py "footer_prompt") Examples.completions 103%N (py "pt")
           (Some [OpenAIProvider.mkChoice (Some (Some (py "ok")))])).
  - vm_compute. reflexivity.
  - intros x. reflexivity.
  - reflexivity.
  - reflexivity.
  - reflexivity.
  - reflexivity.
Defined.

(** ** Truncation of a document before it enters the prompt *)

Lemma strip_length_le (s : str) : (length (strip s) <= length s)%nat.
Proof.
  unfold strip, rstrip. rewrite length_rev.
  pose proof (lstrip_length_le (rev (lstrip s))) as H1.
  pose proof (lstrip_length_le s) as H2.
  rewrite length_rev in H1. lia.
Qed.

(** X23: with a limit that is not negative, [process_prompt] returns at
    most [default_input_max_characters] characters, without white space
    at either end, and applying it to its own result changes nothing. *)
Theorem process_prompt_bounded (p : OpenAIProvider.provider) (prompt : str) :
  0 <= OpenAIProvider.default_input_max_characters p ->
  Z.of_nat (length (OpenAIProvider.process_prompt p prompt))
  <= OpenAIProvider.default_input_max_characters p
  /\ (length (OpenAIProvider.process_prompt p prompt) <= length prompt)%nat
  /\ strip (OpenAIProvider.process_prompt p prompt)
     = OpenAIProvider.process_prompt p prompt
  /\ OpenAIProvider.process_prompt p (OpenAIProvider.process_prompt p prompt)
     = OpenAIProvider.process_prompt p prompt.
Proof.
  intros Hmax. unfold OpenAIProvider.process_prompt, OpenAIProvider.prefix_slice.
  assert (H0 : (0 <=? OpenAIProvider.default_input_max_characters p) = true)
    by (apply Z.leb_le; exact Hmax).
  rewrite H0.
  set (n := Z.to_nat (OpenAIProvider.default_input_max_characters p)).
  pose proof (strip_length_le (take n prompt)) as Hs.
  pose proof (length_take prompt n) as Ht.
  split; [lia|]. split; [lia|]. split; [apply strip_idempotent|].
  rewrite take_ge by lia. apply strip_idempotent.
Qed.

Lemma process_prompt_bounded_witness :
  Z.of_nat (length (OpenAIProvider.process_prompt Examples.generation_client
                      (py " doc one ")))
  <= OpenAIProvider.default_input_max_characters Examples.generation_client
  /\ (length (OpenAIProvider.process_prompt Examples.generation_client
                (py " doc one ")) <= length (py " doc one "))%nat
  /\ strip (OpenAIProvider.process_prompt Examples.generation_client
              (py " doc one "))
     = OpenAIProvider.process_prompt Examples.generation_client (py " doc one ")
  /\ OpenAIProvider.process_prompt Examples.generation_client
       (OpenAIProvider.process_prompt Examples.generation_client
          (py " doc one "))
     = OpenAIProvider.process_prompt Examples.generation_client (py " doc one ").
Proof.
  apply (process_prompt_bounded Examples.generation_client (py " doc one ")).
  simpl. lia.
Defined.

(** ** Paging through the chunks of a project *)

(** Cutting a list into pieces of [b] elements and gluing the pieces
    gives the list back. *)
Lemma pieces_concat {A} (b : nat) :
  (0 < b)%nat ->
  forall (n : nat) (l : list A),
  (length l <= n * b)%nat ->
  concat (map (fun k => take b (drop (k * b) l)) (seq 0 n)) = l.
Proof.
  intros Hb. induction n as [|n IH]; intros l Hl.
  - destruct l; [reflexivity | simpl in Hl; lia].
  - rewrite <- cons_seq, <- fmap_S_seq. simpl.
    rewrite drop_0.
    change (map ?f (S <$> ?l)) with (map f (map S l)).
    rewrite map_map.
    rewrite (map_ext _ (fun k => take b (drop (k * b) (drop b l)))).
    2:{ intros k. rewrite drop_drop. repeat f_equal; lia. }
    rewrite IH by (rewrite length_drop; lia).
    apply take_drop.
Qed.

(** X24: the query of [get_project_chunks] has no [ORDER BY]. With a
    positive page size and whatever order the engine scans in, every
    page from page 1 on is returned without error and without changing
    the table, holds at most [page_size] chunks, which are different
    rows of the project, and is empty once the offset has passed the
    number of the project's chunks. When every page is read in one and
    the same order, the pages 1 to [n], glued, are the chunks of the
    project in that order as soon as [n] pages can hold them. *)
Theorem pages_cover_under_one_order (tbl : ChunkModel.chunks_table)
    (project_id page_size : Z) :
  0 < page_size ->
  (forall (scan : ChunkModel.row_order) (page_no : Z),
      (forall l, scan l ≡ₚ l) ->
      1 <= page_no ->
      exists rows,
        ChunkModel.get_project_chunks scan project_id page_no page_size tbl
        = (Ok rows, tbl)
        /\ Z.of_nat (length rows) <= page_size
        /\ rows ⊆+ ChunkModel.of_project project_id tbl
        /\ Forall (fun c => ChunkModel.chunk_project_id c = project_id) rows
        /\ (Z.of_nat (length (ChunkModel.of_project project_id tbl))
            <= (page_no - 1) * page_size -> rows = []))
  /\ forall (scan : ChunkModel.row_order) (n : nat),
       (forall l, scan l ≡ₚ l) ->
       Z.of_nat (length (ChunkModel.of_project project_id tbl))
       <= Z.of_nat n * page_size ->
       concat (map (fun k => page_rows scan tbl project_id (Z.of_nat k + 1)
                               page_size) (seq 0 n))
       = scan (ChunkModel.of_project project_id tbl)
       /\ concat (map (fun k => page_rows scan tbl project_id (Z.of_nat k + 1)
                                  page_size) (seq 0 n))
          ≡ₚ ChunkModel.of_project project_id tbl.
Proof.
  intros Hsize.
  assert (Hrun : forall scan page_no, 1 <= page_no ->
            ChunkModel.get_project_chunks scan project_id page_no page_size tbl
            = (Ok (take (Z.to_nat page_size)
                     (drop (Z.to_nat ((page_no - 1) * page_size))
                        (scan (ChunkModel.of_project project_id tbl)))), tbl)).
  { intros scan page_no Hno. unfold ChunkModel.get_project_chunks.
    assert (H1 : ((page_no - 1) * page_size <? 0) = false)
      by (apply Z.ltb_ge; nia).
    assert (H2 : (page_size <? 0) = false) by (apply Z.ltb_ge; lia).
    rewrite H1, H2. reflexivity. }
  split.
  - intros scan page_no Hscan Hno. eexists. split; [apply Hrun; exact Hno|].
    assert (Hsub : take (Z.to_nat page_size)
                     (drop (Z.to_nat ((page_no - 1) * page_size))
                        (scan (ChunkModel.of_project project_id tbl)))
                   ⊆+ ChunkModel.of_project project_id tbl).
    { rewrite <- (Hscan (ChunkModel.of_project project_id tbl)) at 2.
      apply sublist_submseteq.
      etransitivity; [apply sublist_take | apply sublist_drop]. }
    split; [rewrite length_take; lia|]. split; [exact Hsub|]. split.
    + apply Forall_forall. intros c Hc.
      apply (elem_of_submseteq _ _ _ Hc) in Hsub.
      unfold ChunkModel.of_project in Hsub.
      apply list_elem_of_filter in Hsub. destruct Hsub as [Hp _]. exact Hp.
    + intros Hpast. rewrite drop_ge; [apply take_nil|].
      rewrite (Permutation_length (Hscan _)). nia.
  - intros scan n Hscan Hn.
    assert (Hglue : concat (map (fun k => page_rows scan tbl project_id
                                            (Z.of_nat k + 1) page_size)
                              (seq 0 n))
                    = scan (ChunkModel.of_project project_id tbl)).
    { rewrite (map_ext _ (fun k => take (Z.to_nat page_size)
                                     (drop (k * Z.to_nat page_size)
                                        (scan (ChunkModel.of_project
                                                 project_id tbl))))).
      + apply pieces_concat; [lia|].
        rewrite (Permutation_length (Hscan _)). nia.
      + intros k. unfold page_rows. rewrite Hrun by lia.
        repeat f_equal. nia. }
    split; [exact Hglue|]. rewrite Hglue. apply Hscan.
Qed.

Lemma pages_cover_under_one_order_witness :
  (forall (scan : ChunkModel.row_order) (page_no : Z),
      (forall l, scan l ≡ₚ l) ->
      1 <= page_no ->
      exists rows,
        ChunkModel.get_project_chunks scan 7 page_no 2 Examples.chunk_rows
        = (Ok rows, Examples.chunk_rows)
        /\ Z.of_nat (length rows) <= 2
        /\ rows ⊆+ ChunkModel.of_project 7 Examples.chunk_rows
        /\ Forall (fun c => ChunkModel.chunk_project_id c = 7) rows
        /\ (Z.of_nat (length (ChunkModel.of_project 7 Examples.chunk_rows))
            <= (page_no - 1) * 2 -> rows = []))
  /\ forall (scan : ChunkModel.row_order) (n : nat),
       (forall l, scan l ≡ₚ l) ->
       Z.of_nat (length (ChunkModel.of_project 7 Examples.chunk_rows))
       <= Z.of_nat n * 2 ->
       concat (map (fun k => page_rows scan Examples.chunk_rows 7
                               (Z.of_nat k + 1) 2) (seq 0 n))
       = scan (ChunkModel.of_project 7 Examples.chunk_rows)
       /\ concat (map (fun k => page_rows scan Examples.chunk_rows 7
                                  (Z.of_nat k + 1) 2) (seq 0 n))
          ≡ₚ ChunkModel.of_project 7 Examples.chunk_rows.
Proof.
  apply (pages_cover_under_one_order Examples.chunk_rows 7 2). lia.
Defined.

(** Read in table order, the three chunks of project 7 come as a page
    of two and a page of one, and the third page is empty. *)
Example pages_of_project_7 :
  map ChunkModel.chunk_id
    (page_rows (fun l => l) Examples.chunk_rows 7 1 2) = [1; 3]
  /\ map ChunkModel.chunk_id
       (page_rows (fun l => l) Examples.chunk_rows 7 2 2) = [4]
  /\ page_rows (fun l => l) Examples.chunk_rows 7 3 2 = [].
Proof. repeat split; vm_compute; reflexivity. Qed.

(** When the engine scans in table order for page 1 and in the reverse
    order for page 2, both of which it may, chunk 1 is read twice and
    chunk 4 is not read at all. *)
Example pages_under_two_orders :
  (forall l : list ChunkModel.DataChunk, rev l ≡ₚ l)
  /\ map ChunkModel.chunk_id
       (page_rows (fun l => l) Examples.chunk_rows 7 1 2) = [1; 3]
  /\ map ChunkModel.chunk_id
       (page_rows (@rev _) Examples.chunk_rows 7 2 2) = [1].
Proof.
  split; [intros l; symmetry; apply Permutation_rev|].
  split; vm_compute; reflexivity.
Qed.

Lemma pg_delete_collection_effect_witness :
  exists db',
    PGVectorProvider.delete_collection Examples.pg_provider (py "d")
      Examples.pg_two_rows = (Ok true, db')
    /\ PGVectorProvider.tables db' !! py "d" = None
    /\ PGVectorProvider.get_collection_info Examples.pg_provider (py "d") db'
       = (Ok None, db')
    /\ (forall other, other <> py "d" ->
          PGVectorProvider.tables db' !! other
          = PGVectorProvider.tables Examples.pg_two_rows !! other)
    /\ PGVectorProvider.chunks db' = PGVectorProvider.chunks Examples.pg_two_rows
    /\ PGVectorProvider.delete_collection Examples.pg_provider (py "d") db'
       = (Ok true, db').
Proof.
  apply (pg_delete_collection_effect Examples.pg_provider (py "d")
           Examples.pg_two_rows).
Defined.

(** ** The PGVector backend: a batch is written whole or not at all *)

(** X25: for a batch with one vector, one id and one metadata item per
    text and a positive batch size, [insert_many] leaves the collection
    either with the row count of before or with one more row per text,
    however it ends: an error in any batch rolls all batches back, and
    an error of the index creation comes after all rows are stored. *)
Theorem pg_insert_many_all_or_nothing (p : PGVectorProvider.provider)
    (name : str) (texts : list str) (vectors : list vector)
    (metadata : option (list metadata_item)) (record_ids : list Z)
    (batch_size : Z) (db db' : PGVectorProvider.database)
    (r : result bool) :
  length texts = length vectors ->
  length vectors = length record_ids ->
  metadata_fits metadata texts ->
  0 < batch_size ->
  PGVectorProvider.insert_many p name texts vectors metadata (Some record_ids)
    batch_size db = (r, db') ->
  (row_count db' name = row_count db name /\ r <> Ok true)
  \/ row_count db' name = (row_count db name + length texts)%nat.
Proof.
  intros Htv Hvr Hm Hb H.
  unfold PGVectorProvider.insert_many, bind in H.
  destruct (PGVectorProvider.tables db !! name) as [t|] eqn:Ht.
  2:{ rewrite (pg_is_collection_existed_absent p name db Ht) in H.
      injection H as <- <-. left. split; [reflexivity | discriminate]. }
  rewrite (pg_is_collection_existed_present p name db t Ht) in H.
  change (PGVectorProvider.record_truthy (Some (py "public"))) with true in H.
  cbn [negb] in H.
  rewrite <- Hvr, Nat.eqb_refl in H. cbn [negb] in H.
  match type of H with
  | context [PGVectorProvider.insert_batches name texts vectors ?m _ _] =>
      assert (Hmd : length m = length texts)
        by (destruct metadata as [[|x m']|]; cbn [metadata_fits] in Hm;
            [apply length_replicate | exact Hm | apply length_replicate]);
      destruct (PGVectorProvider.transaction
                  (PGVectorProvider.insert_batches name texts vectors m
                     record_ids batch_size) db) as [[[]|e] dbA] eqn:Etx
  end.
  - right.
    assert (HA : row_count dbA name = (row_count db name + length texts)%nat).
    { apply transaction_ok in Etx.
      eapply pg_insert_batches_count; eassumption. }
    destruct (PGVectorProvider.create_vector_index p name (py "hnsw") dbA)
      as [[ri|e] dbB] eqn:Eidx; injection H as _ <-;
      rewrite (create_vector_index_count _ _ _ _ _ _ name Eidx); exact HA.
  - left. unfold PGVectorProvider.transaction in Etx.
    destruct (PGVectorProvider.insert_batches _ _ _ _ _ _ db) as [[[]|e'] dbX];
      [discriminate|].
    injection Etx as _ <-. injection H as <- <-.
    split; [reflexivity | discriminate].
Qed.

Lemma pg_insert_many_all_or_nothing_witness :
  (row_count Examples.pg_with_c (py "c") = row_count Examples.pg_with_c (py "c")
   /\ Raise (DatabaseError "foreign key violation") <> Ok true)
  \/ row_count Examples.pg_with_c (py "c")
     = (row_count Examples.pg_with_c (py "c") + length [py "t"; py "u"])%nat.
Proof.
  apply (pg_insert_many_all_or_nothing Examples.pg_provider (py "c")
           [py "t"; py "u"] [[1%Q]; [1%Q]] None [1; 2] 50
           Examples.pg_with_c Examples.pg_with_c
           (Raise (DatabaseError "foreign key violation"))).
  - reflexivity.
  - reflexivity.
  - exact I.
  - lia.
  - vm_compute. reflexivity.
Defined.

(** ** The search route *)

(** X26: for every backend, when the route [search_index] returns, the
    response is either status 200 with a list of results that is not
    empty, or status 400 with [VECTORDB_SEARCH_ERROR]; an empty result
    is never sent with status 200, and the list objects are not
    touched. *)
Theorem search_index_outcome {P St : Type} {VDB : VectorDBInterface P St}
    (app : NLPController.controller) (project_id : Z)
    (search_request : Routes.SearchRequest) (w w' : NLPController.world St)
    (response : Routes.JSONResponse) :
  Routes.search_index app project_id search_request w = (Ok response, w') ->
  NLPController.lists w' = NLPController.lists w
  /\ ((exists d ds,
         response
         = Routes.mkJSONResponse 200
             (Routes.SearchResults Routes.VECTORDB_SEARCH_SUCCESS (d :: ds)))
      \/ response
         = Routes.mkJSONResponse 400 (Routes.Signal Routes.VECTORDB_SEARCH_ERROR)).
Proof.
  unfold Routes.search_index, Routes.get_or_create_project, bind,
    NLPController.on_vdb.
  destruct (NLPController.search_vector_db_collection _ _ _ _ _)
    as [[[| |[|d ds]]|e] st1]; intros H; try discriminate;
    injection H as <- <-; (split; [reflexivity|]);
    try (right; reflexivity).
  left. exists d, ds. reflexivity.
Qed.

Lemma search_index_outcome_witness :
  NLPController.lists (NLPController.mkWorld Examples.pg_empty ∅)
  = NLPController.lists (NLPController.mkWorld Examples.pg_empty ∅)
  /\ ((exists d ds,
         Routes.mkJSONResponse 400 (Routes.Signal Routes.VECTORDB_SEARCH_ERROR)
         = Routes.mkJSONResponse 200
             (Routes.SearchResults Routes.VECTORDB_SEARCH_SUCCESS (d :: ds)))
      \/ Routes.mkJSONResponse 400 (Routes.Signal Routes.VECTORDB_SEARCH_ERROR)
         = Routes.mkJSONResponse 400 (Routes.Signal Routes.VECTORDB_SEARCH_ERROR)).
Proof.
  apply (search_index_outcome Examples.pg_controller 7
           (Routes.mkSearchRequest (py "q") 5)
           (NLPController.mkWorld Examples.pg_empty ∅)
           (NLPController.mkWorld Examples.pg_empty ∅)).
  vm_compute. reflexivity.
Defined.
